(** * The AOTI repro harness ([torch/_dynamo/repro/aoti.py])

    A shallow embedding of the replay driver, the failure oracle and the
    input encoder of the AOTInductor repro script, followed by the
    properties established for them.

    Python objects are modelled by inductive types, the effects of the
    harness (logging, calls into the exporter, the compiler, the loader
    and the minifier) by a trace of events, and Python exceptions by a
    result type.  The external collaborators are the fields of a record
    [Env]; every statement is proved for all environments. *)

From stdpp Require Import base option list strings gmap.
From Stdlib Require Import ZArith Ascii DecimalString Lia.

Open Scope string_scope.
Open Scope Z_scope.
Open Scope list_scope.

(** ** Python strings *)

Module PyStr.

(** A Python [str] is a sequence of code points.  A [string] here
    holds its UTF-8 encoding; a byte that belongs to no well-formed
    sequence stands for the lone surrogate U+DC00 + byte, which is how
    the interpreter reads the command line ([surrogateescape]). *)

Definition continuation (b : N) : bool := ((128 <=? b) && (b <=? 191))%N.

Definition two_bytes (b0 b1 : N) : bool :=
  ((194 <=? b0) && (b0 <=? 223))%N && continuation b1.

Definition cp2 (b0 b1 : N) : N := ((b0 - 192) * 64 + (b1 - 128))%N.

Definition cp3 (b0 b1 b2 : N) : N :=
  ((b0 - 224) * 4096 + (b1 - 128) * 64 + (b2 - 128))%N.

Definition three_bytes (b0 b1 b2 : N) : bool :=
  ((224 <=? b0) && (b0 <=? 239))%N && continuation b1 && continuation b2 &&
  (2048 <=? cp3 b0 b1 b2)%N &&
  negb ((55296 <=? cp3 b0 b1 b2) && (cp3 b0 b1 b2 <=? 57343))%N.

Definition cp4 (b0 b1 b2 b3 : N) : N :=
  ((b0 - 240) * 262144 + (b1 - 128) * 4096 + (b2 - 128) * 64 + (b3 - 128))%N.

Definition four_bytes (b0 b1 b2 b3 : N) : bool :=
  ((240 <=? b0) && (b0 <=? 244))%N &&
  continuation b1 && continuation b2 && continuation b3 &&
  ((65536 <=? cp4 b0 b1 b2 b3) && (cp4 b0 b1 b2 b3 <=? 1114111))%N.

(** The lone surrogate a stray byte is read as. *)
Definition surrogate (b : N) : N := (56320 + b)%N.

(** The characters of a text, each with the bytes that encode it. *)
Fixpoint decode (s : string) : list (N * string) :=
  match s with
  | EmptyString => []
  | String c0 r0 =>
      let b0 := N_of_ascii c0 in
      let one := String c0 EmptyString in
      if (b0 <? 128)%N then (b0, one) :: decode r0
      else
        match r0 with
        | EmptyString => [(surrogate b0, one)]
        | String c1 r1 =>
            let b1 := N_of_ascii c1 in
            if two_bytes b0 b1
            then (cp2 b0 b1, String c0 (String c1 EmptyString)) :: decode r1
            else
              match r1 with
              | EmptyString => (surrogate b0, one) :: decode r0
              | String c2 r2 =>
                  let b2 := N_of_ascii c2 in
                  if three_bytes b0 b1 b2
                  then (cp3 b0 b1 b2,
                        String c0 (String c1 (String c2 EmptyString))) :: decode r2
                  else
                    match r2 with
                    | EmptyString => (surrogate b0, one) :: decode r0
                    | String c3 r3 =>
                        let b3 := N_of_ascii c3 in
                        if four_bytes b0 b1 b2 b3
                        then (cp4 b0 b1 b2 b3,
                              String c0 (String c1 (String c2 (String c3 EmptyString))))
                             :: decode r3
                        else (surrogate b0, one) :: decode r0
                    end
              end
        end
  end.

(** The code points of a text. *)
Definition code_points (s : string) : list N := map fst (decode s).

(** [str.startswith]. *)
Definition startswith (s p : string) : bool := String.prefix p s.

Fixpoint starts_with (p l : list N) : bool :=
  match p, l with
  | [], _ => true
  | a :: p', b :: l' => (a =? b)%N && starts_with p' l'
  | _ :: _, [] => false
  end.

Fixpoint occurs (p l : list N) : bool :=
  starts_with p l ||
  match l with
  | [] => false
  | _ :: l' => occurs p l'
  end.

(** [needle in hay] on [str]: the code points of [needle] occur in a
    row somewhere in [hay]. *)
Definition contains (needle hay : string) : bool :=
  occurs (code_points needle) (code_points hay).

(** [str(n)] and [repr(n)] of an [int]. *)
Definition of_Z (z : Z) : string := NilZero.string_of_int (Z.to_int z).

Definition hex_digit (n : N) : ascii :=
  match n with
  | 0%N => "0" | 1%N => "1" | 2%N => "2" | 3%N => "3" | 4%N => "4"
  | 5%N => "5" | 6%N => "6" | 7%N => "7" | 8%N => "8" | 9%N => "9"
  | 10%N => "a" | 11%N => "b" | 12%N => "c" | 13%N => "d"
  | 14%N => "e" | _ => "f"
  end%char.

(** [n] in hexadecimal, on [width] digits. *)
Fixpoint hex (width : nat) (n : N) : string :=
  match width with
  | O => EmptyString
  | S w => hex w (n / 16)%N +:+ String (hex_digit (n mod 16)%N) EmptyString
  end.

Definition has_char (c : ascii) (s : string) : bool :=
  contains (String c EmptyString) s.

(** The double-quote and single-quote characters. *)
Definition dquote : ascii := ascii_of_N 34.
Definition squote : ascii := ascii_of_N 39.

(** [repr] of a [str] picks double quotes when the text has a single
    quote and no double quote, and single quotes otherwise. *)
Definition quote_of (s : string) : ascii :=
  if has_char squote s && negb (has_char dquote s)
  then dquote else squote.

Definition in_ranges (cp : N) (ranges : list (N * N)) : bool :=
  existsb (λ r, (fst r <=? cp) && (cp <=? snd r))%N ranges.

(** The code points from 128 up that [str.isprintable] rejects
    (Unicode 14.0, the database of CPython 3.11): the categories
    Cc, Cf, Cs, Co, Cn, Zl, Zp and Zs, as inclusive ranges. *)
Definition nonprintable_ranges : list (N * N) :=
  [
    (128, 160); (173, 173); (888, 889); (896, 899); (907, 907);
    (909, 909); (930, 930); (1328, 1328); (1367, 1368); (1419, 1420);
    (1424, 1424); (1480, 1487); (1515, 1518); (1525, 1541); (1564, 1564);
    (1757, 1757); (1806, 1807); (1867, 1868); (1970, 1983); (2043, 2044);
    (2094, 2095); (2111, 2111); (2140, 2141); (2143, 2143); (2155, 2159);
    (2191, 2199); (2274, 2274); (2436, 2436); (2445, 2446); (2449, 2450);
    (2473, 2473); (2481, 2481); (2483, 2485); (2490, 2491); (2501, 2502);
    (2505, 2506); (2511, 2518); (2520, 2523); (2526, 2526); (2532, 2533);
    (2559, 2560); (2564, 2564); (2571, 2574); (2577, 2578); (2601, 2601);
    (2609, 2609); (2612, 2612); (2615, 2615); (2618, 2619); (2621, 2621);
    (2627, 2630); (2633, 2634); (2638, 2640); (2642, 2648); (2653, 2653);
    (2655, 2661); (2679, 2688); (2692, 2692); (2702, 2702); (2706, 2706);
    (2729, 2729); (2737, 2737); (2740, 2740); (2746, 2747); (2758, 2758);
    (2762, 2762); (2766, 2767); (2769, 2783); (2788, 2789); (2802, 2808);
    (2816, 2816); (2820, 2820); (2829, 2830); (2833, 2834); (2857, 2857);
    (2865, 2865); (2868, 2868); (2874, 2875); (2885, 2886); (2889, 2890);
    (2894, 2900); (2904, 2907); (2910, 2910); (2916, 2917); (2936, 2945);
    (2948, 2948); (2955, 2957); (2961, 2961); (2966, 2968); (2971, 2971);
    (2973, 2973); (2976, 2978); (2981, 2983); (2987, 2989); (3002, 3005);
    (3011, 3013); (3017, 3017); (3022, 3023); (3025, 3030); (3032, 3045);
    (3067, 3071); (3085, 3085); (3089, 3089); (3113, 3113); (3130, 3131);
    (3141, 3141); (3145, 3145); (3150, 3156); (3159, 3159); (3163, 3164);
    (3166, 3167); (3172, 3173); (3184, 3190); (3213, 3213); (3217, 3217);
    (3241, 3241); (3252, 3252); (3258, 3259); (3269, 3269); (3273, 3273);
    (3278, 3284); (3287, 3292); (3295, 3295); (3300, 3301); (3312, 3312);
    (3315, 3327); (3341, 3341); (3345, 3345); (3397, 3397); (3401, 3401);
    (3408, 3411); (3428, 3429); (3456, 3456); (3460, 3460); (3479, 3481);
    (3506, 3506); (3516, 3516); (3518, 3519); (3527, 3529); (3531, 3534);
    (3541, 3541); (3543, 3543); (3552, 3557); (3568, 3569); (3573, 3584);
    (3643, 3646); (3676, 3712); (3715, 3715); (3717, 3717); (3723, 3723);
    (3748, 3748); (3750, 3750); (3774, 3775); (3781, 3781); (3783, 3783);
    (3790, 3791); (3802, 3803); (3808, 3839); (3912, 3912); (3949, 3952);
    (3992, 3992); (4029, 4029); (4045, 4045); (4059, 4095); (4294, 4294);
    (4296, 4300); (4302, 4303); (4681, 4681); (4686, 4687); (4695, 4695);
    (4697, 4697); (4702, 4703); (4745, 4745); (4750, 4751); (4785, 4785);
    (4790, 4791); (4799, 4799); (4801, 4801); (4806, 4807); (4823, 4823);
    (4881, 4881); (4886, 4887); (4955, 4956); (4989, 4991); (5018, 5023);
    (5110, 5111); (5118, 5119); (5760, 5760); (5789, 5791); (5881, 5887);
    (5910, 5918); (5943, 5951); (5972, 5983); (5997, 5997); (6001, 6001);
    (6004, 6015); (6110, 6111); (6122, 6127); (6138, 6143); (6158, 6158);
    (6170, 6175); (6265, 6271); (6315, 6319); (6390, 6399); (6431, 6431);
    (6444, 6447); (6460, 6463); (6465, 6467); (6510, 6511); (6517, 6527);
    (6572, 6575); (6602, 6607); (6619, 6621); (6684, 6685); (6751, 6751);
    (6781, 6782); (6794, 6799); (6810, 6815); (6830, 6831); (6863, 6911);
    (6989, 6991); (7039, 7039); (7156, 7163); (7224, 7226); (7242, 7244);
    (7305, 7311); (7355, 7356); (7368, 7375); (7419, 7423); (7958, 7959);
    (7966, 7967); (8006, 8007); (8014, 8015); (8024, 8024); (8026, 8026);
    (8028, 8028); (8030, 8030); (8062, 8063); (8117, 8117); (8133, 8133);
    (8148, 8149); (8156, 8156); (8176, 8177); (8181, 8181); (8191, 8207);
    (8232, 8239); (8287, 8303); (8306, 8307); (8335, 8335); (8349, 8351);
    (8385, 8399); (8433, 8447); (8588, 8591); (9255, 9279); (9291, 9311);
    (11124, 11125); (11158, 11158); (11508, 11512); (11558, 11558); (11560, 11564);
    (11566, 11567); (11624, 11630); (11633, 11646); (11671, 11679); (11687, 11687);
    (11695, 11695); (11703, 11703); (11711, 11711); (11719, 11719); (11727, 11727);
    (11735, 11735); (11743, 11743); (11870, 11903); (11930, 11930); (12020, 12031);
    (12246, 12271); (12284, 12288); (12352, 12352); (12439, 12440); (12544, 12548);
    (12592, 12592); (12687, 12687); (12772, 12783); (12831, 12831); (42125, 42127);
    (42183, 42191); (42540, 42559); (42744, 42751); (42955, 42959); (42962, 42962);
    (42964, 42964); (42970, 42993); (43053, 43055); (43066, 43071); (43128, 43135);
    (43206, 43213); (43226, 43231); (43348, 43358); (43389, 43391); (43470, 43470);
    (43482, 43485); (43519, 43519); (43575, 43583); (43598, 43599); (43610, 43611);
    (43715, 43738); (43767, 43776); (43783, 43784); (43791, 43792); (43799, 43807);
    (43815, 43815); (43823, 43823); (43884, 43887); (44014, 44015); (44026, 44031);
    (55204, 55215); (55239, 55242); (55292, 63743); (64110, 64111); (64218, 64255);
    (64263, 64274); (64280, 64284); (64311, 64311); (64317, 64317); (64319, 64319);
    (64322, 64322); (64325, 64325); (64451, 64466); (64912, 64913); (64968, 64974);
    (64976, 65007); (65050, 65055); (65107, 65107); (65127, 65127); (65132, 65135);
    (65141, 65141); (65277, 65280); (65471, 65473); (65480, 65481); (65488, 65489);
    (65496, 65497); (65501, 65503); (65511, 65511); (65519, 65531); (65534, 65535);
    (65548, 65548); (65575, 65575); (65595, 65595); (65598, 65598); (65614, 65615);
    (65630, 65663); (65787, 65791); (65795, 65798); (65844, 65846); (65935, 65935);
    (65949, 65951); (65953, 65999); (66046, 66175); (66205, 66207); (66257, 66271);
    (66300, 66303); (66340, 66348); (66379, 66383); (66427, 66431); (66462, 66462);
    (66500, 66503); (66518, 66559); (66718, 66719); (66730, 66735); (66772, 66775);
    (66812, 66815); (66856, 66863); (66916, 66926); (66939, 66939); (66955, 66955);
    (66963, 66963); (66966, 66966); (66978, 66978); (66994, 66994); (67002, 67002);
    (67005, 67071); (67383, 67391); (67414, 67423); (67432, 67455); (67462, 67462);
    (67505, 67505); (67515, 67583); (67590, 67591); (67593, 67593); (67638, 67638);
    (67641, 67643); (67645, 67646); (67670, 67670); (67743, 67750); (67760, 67807);
    (67827, 67827); (67830, 67834); (67868, 67870); (67898, 67902); (67904, 67967);
    (68024, 68027); (68048, 68049); (68100, 68100); (68103, 68107); (68116, 68116);
    (68120, 68120); (68150, 68151); (68155, 68158); (68169, 68175); (68185, 68191);
    (68256, 68287); (68327, 68330); (68343, 68351); (68406, 68408); (68438, 68439);
    (68467, 68471); (68498, 68504); (68509, 68520); (68528, 68607); (68681, 68735);
    (68787, 68799); (68851, 68857); (68904, 68911); (68922, 69215); (69247, 69247);
    (69290, 69290); (69294, 69295); (69298, 69375); (69416, 69423); (69466, 69487);
    (69514, 69551); (69580, 69599); (69623, 69631); (69710, 69713); (69750, 69758);
    (69821, 69821); (69827, 69839); (69865, 69871); (69882, 69887); (69941, 69941);
    (69960, 69967); (70007, 70015); (70112, 70112); (70133, 70143); (70162, 70162);
    (70207, 70271); (70279, 70279); (70281, 70281); (70286, 70286); (70302, 70302);
    (70314, 70319); (70379, 70383); (70394, 70399); (70404, 70404); (70413, 70414);
    (70417, 70418); (70441, 70441); (70449, 70449); (70452, 70452); (70458, 70458);
    (70469, 70470); (70473, 70474); (70478, 70479); (70481, 70486); (70488, 70492);
    (70500, 70501); (70509, 70511); (70517, 70655); (70748, 70748); (70754, 70783);
    (70856, 70863); (70874, 71039); (71094, 71095); (71134, 71167); (71237, 71247);
    (71258, 71263); (71277, 71295); (71354, 71359); (71370, 71423); (71451, 71452);
    (71468, 71471); (71495, 71679); (71740, 71839); (71923, 71934); (71943, 71944);
    (71946, 71947); (71956, 71956); (71959, 71959); (71990, 71990); (71993, 71994);
    (72007, 72015); (72026, 72095); (72104, 72105); (72152, 72153); (72165, 72191);
    (72264, 72271); (72355, 72367); (72441, 72703); (72713, 72713); (72759, 72759);
    (72774, 72783); (72813, 72815); (72848, 72849); (72872, 72872); (72887, 72959);
    (72967, 72967); (72970, 72970); (73015, 73017); (73019, 73019); (73022, 73022);
    (73032, 73039); (73050, 73055); (73062, 73062); (73065, 73065); (73103, 73103);
    (73106, 73106); (73113, 73119); (73130, 73439); (73465, 73647); (73649, 73663);
    (73714, 73726); (74650, 74751); (74863, 74863); (74869, 74879); (75076, 77711);
    (77811, 77823); (78895, 82943); (83527, 92159); (92729, 92735); (92767, 92767);
    (92778, 92781); (92863, 92863); (92874, 92879); (92910, 92911); (92918, 92927);
    (92998, 93007); (93018, 93018); (93026, 93026); (93048, 93052); (93072, 93759);
    (93851, 93951); (94027, 94030); (94088, 94094); (94112, 94175); (94181, 94191);
    (94194, 94207); (100344, 100351); (101590, 101631); (101641, 110575); (110580, 110580);
    (110588, 110588); (110591, 110591); (110883, 110927); (110931, 110947); (110952, 110959);
    (111356, 113663); (113771, 113775); (113789, 113791); (113801, 113807); (113818, 113819);
    (113824, 118527); (118574, 118575); (118599, 118607); (118724, 118783); (119030, 119039);
    (119079, 119080); (119155, 119162); (119275, 119295); (119366, 119519); (119540, 119551);
    (119639, 119647); (119673, 119807); (119893, 119893); (119965, 119965); (119968, 119969);
    (119971, 119972); (119975, 119976); (119981, 119981); (119994, 119994); (119996, 119996);
    (120004, 120004); (120070, 120070); (120075, 120076); (120085, 120085); (120093, 120093);
    (120122, 120122); (120127, 120127); (120133, 120133); (120135, 120137); (120145, 120145);
    (120486, 120487); (120780, 120781); (121484, 121498); (121504, 121504); (121520, 122623);
    (122655, 122879); (122887, 122887); (122905, 122906); (122914, 122914); (122917, 122917);
    (122923, 123135); (123181, 123183); (123198, 123199); (123210, 123213); (123216, 123535);
    (123567, 123583); (123642, 123646); (123648, 124895); (124903, 124903); (124908, 124908);
    (124911, 124911); (124927, 124927); (125125, 125126); (125143, 125183); (125260, 125263);
    (125274, 125277); (125280, 126064); (126133, 126208); (126270, 126463); (126468, 126468);
    (126496, 126496); (126499, 126499); (126501, 126502); (126504, 126504); (126515, 126515);
    (126520, 126520); (126522, 126522); (126524, 126529); (126531, 126534); (126536, 126536);
    (126538, 126538); (126540, 126540); (126544, 126544); (126547, 126547); (126549, 126550);
    (126552, 126552); (126554, 126554); (126556, 126556); (126558, 126558); (126560, 126560);
    (126563, 126563); (126565, 126566); (126571, 126571); (126579, 126579); (126584, 126584);
    (126589, 126589); (126591, 126591); (126602, 126602); (126620, 126624); (126628, 126628);
    (126634, 126634); (126652, 126703); (126706, 126975); (127020, 127023); (127124, 127135);
    (127151, 127152); (127168, 127168); (127184, 127184); (127222, 127231); (127406, 127461);
    (127491, 127503); (127548, 127551); (127561, 127567); (127570, 127583); (127590, 127743);
    (128728, 128732); (128749, 128751); (128765, 128767); (128884, 128895); (128985, 128991);
    (129004, 129007); (129009, 129023); (129036, 129039); (129096, 129103); (129114, 129119);
    (129160, 129167); (129198, 129199); (129202, 129279); (129620, 129631); (129646, 129647);
    (129653, 129655); (129661, 129663); (129671, 129679); (129709, 129711); (129723, 129727);
    (129734, 129743); (129754, 129759); (129768, 129775); (129783, 129791); (129939, 129939);
    (129995, 130031); (130042, 131071); (173792, 173823); (177977, 177983); (178206, 178207);
    (183970, 183983); (191457, 194559); (195102, 196607); (201547, 917759); (918000, 1114111)
  ]%N.

(** [str.isprintable] on one code point. *)
Definition isprintable (cp : N) : bool :=
  if (cp <? 128)%N then ((32 <=? cp) && (cp <? 127))%N
  else negb (in_ranges cp nonprintable_ranges).

(** The decimal digits from 128 up (category Nd of Unicode 14.0), as
    inclusive ranges; every range starts at a digit zero and holds
    whole runs of ten. *)
Definition decimal_ranges : list (N * N) :=
  [
    (1632, 1641); (1776, 1785); (1984, 1993); (2406, 2415); (2534, 2543);
    (2662, 2671); (2790, 2799); (2918, 2927); (3046, 3055); (3174, 3183);
    (3302, 3311); (3430, 3439); (3558, 3567); (3664, 3673); (3792, 3801);
    (3872, 3881); (4160, 4169); (4240, 4249); (6112, 6121); (6160, 6169);
    (6470, 6479); (6608, 6617); (6784, 6793); (6800, 6809); (6992, 7001);
    (7088, 7097); (7232, 7241); (7248, 7257); (42528, 42537); (43216, 43225);
    (43264, 43273); (43472, 43481); (43504, 43513); (43600, 43609); (44016, 44025);
    (65296, 65305); (66720, 66729); (68912, 68921); (69734, 69743); (69872, 69881);
    (69942, 69951); (70096, 70105); (70384, 70393); (70736, 70745); (70864, 70873);
    (71248, 71257); (71360, 71369); (71472, 71481); (71904, 71913); (72016, 72025);
    (72784, 72793); (73040, 73049); (73120, 73129); (92768, 92777); (92864, 92873);
    (93008, 93017); (120782, 120831); (123200, 123209); (123632, 123641); (125264, 125273);
    (130032, 130041)
  ]%N.

(** The value of a decimal digit, ASCII or not; these are the
    characters the pattern [\d] matches and [int] reads. *)
Definition decimal (cp : N) : option N :=
  if ((48 <=? cp) && (cp <=? 57))%N then Some (cp - 48)%N
  else
    match List.find (λ r, (fst r <=? cp) && (cp <=? snd r))%N decimal_ranges with
    | Some r => Some ((cp - fst r) mod 10)%N
    | None => None
    end.

(** One character of [repr(s)]: the backslash, the quote and the
    control characters are escaped, a printable character is copied,
    and any other is written [\xNN], [\uNNNN] or [\UNNNNNNNN] by the
    size of its code point. *)
Definition escape_char (q : ascii) (u : N * string) : string :=
  let '(cp, bytes) := u in
  (if cp =? 92 then "\\"
   else if cp =? N_of_ascii q then String "\"%char (String q EmptyString)
   else if cp =? 9 then "\t"
   else if cp =? 10 then "\n"
   else if cp =? 13 then "\r"
   else if (cp <? 32) || (cp =? 127) then "\x" +:+ hex 2 cp
   else if isprintable cp then bytes
   else if cp <=? 255 then "\x" +:+ hex 2 cp
   else if cp <=? 65535 then "\u" +:+ hex 4 cp
   else "\U" +:+ hex 8 cp)%N.

Fixpoint escape (q : ascii) (l : list (N * string)) : string :=
  match l with
  | [] => EmptyString
  | u :: rest => escape_char q u +:+ escape q rest
  end.

(** [repr(s)] for a [str]. *)
Definition repr (s : string) : string :=
  let q := quote_of s in
  String q (escape q (decode s) +:+ String q EmptyString).

(** [", ".join(l)]. *)
Fixpoint join (sep : string) (l : list string) : string :=
  match l with
  | [] => EmptyString
  | [x] => x
  | x :: rest => x +:+ sep +:+ join sep rest
  end.

End PyStr.

(** ** Exceptions *)

(** The exception classes the harness raises or lets through.
    [SystemExit] and [KeyboardInterrupt] derive from [BaseException]
    only; the others derive from [Exception]. *)
Inductive exc_class :=
| RuntimeError
| TypeError
| KeyError
| AttributeError
| AssertionError
| AccuracyError
| SystemExit
| KeyboardInterrupt
| OtherException (name : string)
| OtherBaseException (name : string).

Definition class_name (c : exc_class) : string :=
  match c with
  | RuntimeError => "RuntimeError"
  | TypeError => "TypeError"
  | KeyError => "KeyError"
  | AttributeError => "AttributeError"
  | AssertionError => "AssertionError"
  | AccuracyError => "AccuracyError"
  | SystemExit => "SystemExit"
  | KeyboardInterrupt => "KeyboardInterrupt"
  | OtherException n => n
  | OtherBaseException n => n
  end.

(** [issubclass(c, Exception)]. *)
Definition is_Exception (c : exc_class) : bool :=
  match c with
  | SystemExit | KeyboardInterrupt | OtherBaseException _ => false
  | _ => true
  end.

(** An argument of an exception: a string or an integer. *)
Inductive exc_arg :=
| AStr (s : string)
| AInt (z : Z).

Definition repr_arg (a : exc_arg) : string :=
  match a with
  | AStr s => PyStr.repr s
  | AInt z => PyStr.of_Z z
  end.

(** An exception object: its class and its [args] tuple
    ([RuntimeError(msg)] has one argument, a bare [assert] none). *)
Record exn := Exn { exc_class_of : exc_class; exc_args : list exc_arg }.

(** [BaseException.__repr__]: the class name, then the [repr] of the
    arguments between parentheses. *)
Definition repr_exn (e : exn) : string :=
  class_name (exc_class_of e) +:+ "(" +:+
  PyStr.join ", " (map repr_arg (exc_args e)) +:+ ")".

(** The outcome of a Python call. *)
Inductive res (A : Type) :=
| Ok (a : A)
| Raise (e : exn).
Arguments Ok {A} a.
Arguments Raise {A} e.

(** ** Python values that reach the harness *)

Inductive dtype :=
| float16 | bfloat16 | float32 | float64
| int8 | int16 | int32 | int64 | uint8 | bool_.

(** [torch.device]: a type ("cpu", "cuda", ...) and an optional index. *)
Record device := Device { dev_type : string; dev_index : option N }.

(** How the contents of a tensor are reproduced: an explicit dump, or
    a random fill. *)
Inductive fill :=
| Data (payload : list Z)
| RandomFill.

Record tensor := Tensor {
  t_shape : list Z;
  t_stride : list Z;
  t_dtype : dtype;
  t_device : device;
  t_fill : fill
}.

(** [Tensor.is_cuda]. *)
Definition is_cuda (t : tensor) : bool :=
  String.eqb (dev_type (t_device t)) "cuda".

(** The values found in an argument list.  A [float] is kept as the
    text [str] prints for it; a [torch.SymInt] as its name and the
    hint of its node. *)
Inductive pyvalue :=
| PNone
| PBool (b : bool)
| PInt (z : Z)
| PSymInt (name : string) (hint : Z)
| PTensor (t : tensor)
| PFloat (text : string)
| PStr (s : string).

(** [str(v)], as an f-string formats it.  Tensors and symbolic
    integers never reach the one place that formats a value, so their
    entries only name the kind. *)
Definition str_of_value (v : pyvalue) : string :=
  match v with
  | PNone => "None"
  | PBool true => "True"
  | PBool false => "False"
  | PInt z => PyStr.of_Z z
  | PSymInt n _ => n
  | PTensor _ => "tensor(...)"
  | PFloat t => t
  | PStr s => s
  end.

(** A graph module: the names of its placeholders, in order, and an
    identifier standing for its operations. *)
Record GraphModule := GM { gm_placeholders : list string; gm_code : N }.

(** [fx_placeholder_targets]. *)
Definition fx_placeholder_targets (gm : GraphModule) : list string :=
  gm_placeholders gm.

(** What [torch.export.export] returns; [.module()] is the graph
    module it wraps. *)
Record ExportedProgram := EP { ep_module : GraphModule }.

(** What [torch._export.aot_load] hands back: a callable, or (the
    case the assertion of [repro_run] excludes) a string. *)
Inductive loaded :=
| LoadedModel (handle : N)
| LoadedStr (s : string).

Definition config_patches_t := option (list (string * string)).

(** What [argparse] stores for an option that takes one argument: the
    converted argument (or the default), or the empty list that an
    explicit [--] leaves, as in [--device=--]. *)
Inductive argval (A : Type) :=
| Val (a : A)
| EmptyList.
Arguments Val {A} a.
Arguments EmptyList {A}.

(** ** Effects: a trace of events and a result *)

(** The knobs [repro_minify] passes on to the minifier. *)
Record minifier_knobs := Knobs {
  k_save_dir : argval (option string);
  k_offload_to_disk : bool;
  k_skip_offload : bool;
  k_skip_sanity : bool;
  k_max_granularity : argval (option Z)
}.

(** The two readers [repro_common] hands to [load_args]. *)
Inductive reader_kind :=
| NopInputReader
| InputReader (save_dir : argval (option string)).

(** The text an [argparse] help request prints: the top-level parser
    shows the description with the defaults [run_repro] was given, a
    subparser only its own options. *)
Inductive help_text :=
| TopHelp (command accuracy : string)
          (tracing_mode save_dir check_str : option string)
| SubHelp (command : string).

(** What the harness does to the world, in order. *)
Inductive event :=
| EvWarning (msg : string)
| EvLoadArgs (r : reader_kind)
| EvProgress (total : nat)
| EvExport (mod_ : GraphModule) (args : list pyvalue)
| EvSaveExported (ep : ExportedProgram) (path : string)
| EvSetIntermediateHooks
| EvCompile (gm : GraphModule) (args : list pyvalue) (cp : config_patches_t)
| EvAotLoad (so_path device_ : string)
| EvCall (compiled : loaded) (args : list pyvalue)
| EvSameTwoModels (mod_ : GraphModule) (compiled : loaded)
                  (args : list pyvalue) (only_fwd ignore_non_fp : bool)
| EvSynchronize
| EvMinifier (mod_ : GraphModule) (args : list pyvalue) (k : minifier_knobs)
| EvPrintHelp (h : help_text)
| EvPrintUsage.

(** A computation of the harness: the events it performed and how it
    ended. *)
Definition Py (A : Type) : Type := list event * res A.

Definition trace {A} (m : Py A) : list event := fst m.
Definition result {A} (m : Py A) : res A := snd m.

#[global] Instance Py_ret : MRet Py := λ A a, ([], Ok a).

#[global] Instance Py_bind : MBind Py := λ A B f m,
  match m with
  | (t, Ok a) => let '(t', r) := f a in (t ++ t', r)
  | (t, Raise e) => (t, Raise e)
  end.

(** [raise e]. *)
Definition raise {A} (e : exn) : Py A := ([], Raise e).

(** One event that cannot fail. *)
Definition emit (ev : event) : Py unit := ([ev], Ok tt).

(** A call into a collaborator: the event, then its outcome. *)
Definition call {A} (ev : event) (r : res A) : Py A := ([ev], r).

(** [try: body / except Exception as e: handler(e)].  An exception
    whose class does not derive from [Exception] passes through. *)
Definition try_except_Exception {A} (body : Py A) (handler : exn → Py A) : Py A :=
  match body with
  | (t, Ok a) => (t, Ok a)
  | (t, Raise e) =>
      if is_Exception (exc_class_of e)
      then let '(t', r) := handler e in (t ++ t', r)
      else (t, Raise e)
  end.

(** [for x in l: body(x)]. *)
Fixpoint for_each {A} (l : list A) (body : A → Py unit) : Py unit :=
  match l with
  | [] => mret tt
  | x :: rest => body x ;; for_each rest body
  end.

(** [log.warning]. *)
Definition log_warning (msg : string) : Py unit := emit (EvWarning msg).

(** ** The external collaborators *)

(** The exporter, the AOT compiler, the loader, the compiled artifact,
    the comparison utility, the device synchronisation and the
    minifier are outside the harness.  [minifier] receives the failure
    predicate it is free to call; its [dump_state] callback is a fixed
    partial application and is not represented. *)
Record Env := {
  export_ : GraphModule → list pyvalue → res ExportedProgram;
  export_save : ExportedProgram → string → res unit;
  compile_fx_aot : GraphModule → list pyvalue → config_patches_t → res string;
  aot_load : string → string → res loaded;
  run_model : N → list pyvalue → res unit;
  same_two_models :
    GraphModule → loaded → list pyvalue → bool → bool → res bool;
  repro_ignore_non_fp : bool;
  synchronize : res unit;
  minifier :
    GraphModule → list pyvalue →
    (GraphModule → list pyvalue → Py bool) → minifier_knobs → Py unit
}.

(** Calling the loaded artifact on the arguments: a loaded model runs,
    a string is not callable. *)
Definition call_loaded (env : Env) (c : loaded) (args : list pyvalue) : Py unit :=
  match c with
  | LoadedModel h => call (EvCall c args) (run_model env h args)
  | LoadedStr _ => raise (Exn TypeError [AStr "'str' object is not callable"])
  end.

(** ** The input statements of a repro script *)

(** One line of the generated [load_args]: a call on the reader,
    commented with the placeholder it is for. *)
Inductive stmt :=
| ReaderTensor (name : string) (shape stride : list Z) (dt : dtype)
               (dev : device) (f : fill)
| ReaderSymint (name : string) (val : Z)
| ReaderConst (name : string).

Definition stmt_name (s : stmt) : string :=
  match s with
  | ReaderTensor n _ _ _ _ _ => n
  | ReaderSymint n _ => n
  | ReaderConst n => n
  end.

(** The [load_args] function of a script: its body and its
    [_version] attribute, [None] when the attribute is missing. *)
Record load_args_fn := LoadArgs {
  la_version : option Z;
  la_body : list stmt
}.

(** [InputWriter], [NopInputReader] and [InputReader] live in
    [torch._dynamo.debug_utils], which is not among the sources at
    hand; they follow the description of the value codec. *)
Module InputWriter.

(** Modelled from the spec: [InputWriter.tensor] is missing.  A tensor
    is written with its full shape, stride, dtype and device and with
    its fidelity mode. *)
Definition tensor (name : string) (t : tensor) : stmt :=
  ReaderTensor name (t_shape t) (t_stride t) (t_dtype t) (t_device t) (t_fill t).

(** Modelled from the spec: [InputWriter.symint] is missing.  A
    symbolic integer is written as a name and the one concrete value
    observed at capture. *)
Definition symint (name : string) (val : Z) : stmt := ReaderSymint name val.

(** Modelled from the spec: [InputWriter.const] is missing.  A
    constant is written as a marker that needs no stored payload. *)
Definition const (name : string) : stmt := ReaderConst name.

(** Modelled from the spec: [InputWriter.lines] is missing.  The lines
    come out in the order of the calls, tagged with the format
    version, currently 0. *)
Definition lines (written : list stmt) : load_args_fn :=
  {| la_version := Some 0; la_body := written |}.

End InputWriter.

Module Reader.

(** Modelled from the spec: [NopInputReader.total] is missing.  The
    counting pass yields the number of values the full pass will
    produce. *)
Definition total (body : list stmt) : nat := length body.

(** Modelled from the spec: the methods [tensor], [symint] and [const]
    of [InputReader] are missing.  A tensor is rebuilt with the
    recorded shape, stride, dtype and device, a symbolic integer is
    bound to its concrete value, a constant is [None]. *)
Definition read (s : stmt) : pyvalue :=
  match s with
  | ReaderTensor _ shape stride dt dev f => PTensor (Tensor shape stride dt dev f)
  | ReaderSymint _ v => PInt v
  | ReaderConst _ => PNone
  end.

(** Modelled from the spec: [InputReader.args] is missing.  The values
    are appended in the order the statements are read. *)
Fixpoint args (body : list stmt) : list pyvalue :=
  match body with
  | [] => []
  | s :: rest => read s :: args rest
  end.

End Reader.

(** [load_args(reader)]. *)
Definition call_load_args (la : load_args_fn) (r : reader_kind) : Py unit :=
  emit (EvLoadArgs r).

(** ** Replay options *)

(** An attribute of the [argparse] namespace that only some
    subcommands define. *)
Inductive attr (A : Type) :=
| Absent
| Present (a : A).
Arguments Absent {A}.
Arguments Present {A} a.

(** The namespace handed to the commands.  [command], [save_dir] and
    [device] are set for every subcommand; an attribute an option
    with an argument sets holds what [argparse] stored. *)
Record options := Options {
  opt_command : string;
  opt_save_dir : argval (option string);
  opt_device : argval string;
  opt_accuracy : attr string;
  opt_check_str : attr (argval (option string));
  opt_skip_saving_eager_intermediates : attr bool;
  opt_offload_to_disk : attr bool;
  opt_skip_sanity : attr bool;
  opt_max_granularity : attr (argval (option Z))
}.

(** [options.name]: a missing attribute raises [AttributeError]. *)
Definition getattr {A} (name : string) (a : attr A) : Py A :=
  match a with
  | Present x => mret x
  | Absent =>
      raise (Exn AttributeError
        [AStr ("'Namespace' object has no attribute '" +:+ name +:+ "'")])
  end.

(** ** Dumping a repro: the input encoder *)

(** What [generate_compiler_repro_string] puts after the header of
    the script: the [load_args] function, the path the module is
    loaded from and the options line. *)
Record repro_string := ReproString {
  rs_load_args : load_args_fn;
  rs_ep_path : string;
  rs_options : config_patches_t
}.

(** [os.path.join(save_dir, name)] on a POSIX system, for a relative
    [name]. *)
Definition os_path_join (save_dir : option string) (name : string) : Py string :=
  match save_dir with
  | None =>
      raise (Exn TypeError
        [AStr "expected str, bytes or os.PathLike object, not NoneType"])
  | Some d =>
      if String.eqb d "" then mret name
      else if String.eqb (String.substring (String.length d - 1) 1 d) "/"
      then mret (d +:+ name)
      else mret (d +:+ "/" +:+ name)
  end.

(** The body of the loop over [zip(fx_placeholder_targets(gm), args)]:
    the [isinstance] dispatch on one argument. *)
Definition write_arg (placeholder : string) (arg : pyvalue) : Py stmt :=
  match arg with
  | PInt z => mret (InputWriter.symint placeholder z)
  | PBool b => mret (InputWriter.symint placeholder (Z.b2z b))
  | PSymInt _ hint => mret (InputWriter.symint placeholder hint)
  | PTensor t => mret (InputWriter.tensor placeholder t)
  | PNone => mret (InputWriter.const placeholder)
  | PFloat _ | PStr _ =>
      raise (Exn TypeError
        [AStr ("arg is neither SymInt/int nor torch.Tensor, " +:+ str_of_value arg)])
  end.

(** The loop itself; [written] is the writer's list of lines so far. *)
Fixpoint write_inputs (pairs : list (string * pyvalue)) (written : list stmt)
  : Py (list stmt) :=
  match pairs with
  | [] => mret written
  | (placeholder, arg) :: rest =>
      s ← write_arg placeholder arg;
      write_inputs rest (written ++ [s])
  end.

(** [zip]: stops at the shorter list. *)
Fixpoint zip_ {A B} (l : list A) (k : list B) : list (A * B) :=
  match l, k with
  | x :: l', y :: k' => (x, y) :: zip_ l' k'
  | _, _ => []
  end.

(** [generate_compiler_repro_string], without the text of the header
    (imports, configuration and version comments), which no input
    decides. *)
Definition generate_compiler_repro_string (env : Env)
    (gm : GraphModule) (args : list pyvalue)
    (options_ : config_patches_t) (stable_output : bool)
    (save_dir : option string) : Py repro_string :=
  ep ← call (EvExport gm args) (export_ env gm args);
  ep_path ← os_path_join save_dir "exported_program.pt2";
  call (EvSaveExported ep ep_path) (export_save env ep ep_path) ;;
  written ← write_inputs (zip_ (fx_placeholder_targets gm) args) [];
  mret {| rs_load_args := InputWriter.lines written;
          rs_ep_path := ep_path;
          rs_options := options_ |}.

(** ** The replay driver *)

(** What a command returns: [None], or the pair [get_args] gives. *)
Inductive cmd_result :=
| RNone
| RModArgs (mod_ : GraphModule) (args : list pyvalue).

Definition no_version_warning : string :=
  "load_args does not have a _version attribute, please file a bug to PyTorch " +:+
  "and describe how you generate this repro script".

Definition version_warning (v : Z) : string :=
  "load_args is version " +:+ PyStr.of_Z v +:+
  ", but this version of PyTorch only supports " +:+
  "version 0.  We will try to run it anyway but there may be an incompatibility; " +:+
  "if so, try upgrading your version of PyTorch.".

(** The first statement of [repro_common]: the check of
    [load_args._version]. *)
Definition check_version (la : load_args_fn) : Py unit :=
  match la_version la with
  | None => log_warning no_version_warning
  | Some v => if 0 <? v then log_warning (version_warning v) else mret tt
  end.

(** The rest of [repro_common]: the two passes over the inputs, the
    export and the debug-hooks flag. *)
Definition load_and_export (env : Env) (o : options) (mod_ : GraphModule)
    (la : load_args_fn) : Py (GraphModule * list pyvalue) :=
  call_load_args la NopInputReader ;;
  emit (EvProgress (Reader.total (la_body la))) ;;
  call_load_args la (InputReader (opt_save_dir o)) ;;
  let args := Reader.args (la_body la) in
  ep ← call (EvExport mod_ args) (export_ env mod_ args);
  emit EvSetIntermediateHooks ;;
  mret (ep_module ep, args).

Definition repro_common (env : Env) (o : options) (mod_ : GraphModule)
    (la : load_args_fn) : Py (GraphModule * list pyvalue) :=
  check_version la ;;
  load_and_export env o mod_ la.

Definition repro_get_args (env : Env) (o : options) (mod_ : GraphModule)
    (la : load_args_fn) (cp : config_patches_t) : Py cmd_result :=
  '(m, args) ← repro_common env o mod_ la;
  mret (RModArgs m args).

(** [device != "cpu" and not device.startswith("cuda")]. *)
Definition unsupported_device (d : string) : bool :=
  negb (String.eqb d "cpu") && negb (PyStr.startswith d "cuda").

Definition check_device (d : string) : Py unit :=
  if unsupported_device d
  then raise (Exn RuntimeError [AStr ("Unsupported device " +:+ d)])
  else mret tt.

(** The object [device.startswith] is looked up on: the empty list
    differs from "cpu" and has no such attribute. *)
Definition device_str (device : argval string) : Py string :=
  match device with
  | Val d => mret d
  | EmptyList =>
      raise (Exn AttributeError
        [AStr "'list' object has no attribute 'startswith'"])
  end.

(** The loop that sets [need_sync], with its [break]. *)
Fixpoint need_sync_of (args : list pyvalue) : bool :=
  match args with
  | [] => false
  | PTensor t :: rest => if is_cuda t then true else need_sync_of rest
  | _ :: rest => need_sync_of rest
  end.

(** [assert not isinstance(compiled, str)]. *)
Definition assert_not_str (c : loaded) : Py unit :=
  match c with
  | LoadedStr _ => raise (Exn AssertionError [])
  | LoadedModel _ => mret tt
  end.

(** The two branches of [repro_run] after the artifact is loaded. *)
Definition run_loaded (env : Env) (o : options) (m : GraphModule)
    (compiled : loaded) (args : list pyvalue) : Py cmd_result :=
  accuracy ← getattr "accuracy" (opt_accuracy o);
  if negb (String.eqb accuracy "") then
    same ← call (EvSameTwoModels m compiled args true (repro_ignore_non_fp env))
                (same_two_models env m compiled args true (repro_ignore_non_fp env));
    if negb same
    then raise (Exn AccuracyError [AStr "Bad accuracy detected"])
    else mret RNone
  else
    let need_sync := need_sync_of args in
    call_loaded env compiled args ;;
    (if need_sync then call EvSynchronize (synchronize env) else mret tt) ;;
    mret RNone.

(** Compile and load, as [repro_run] does after the device check. *)
Definition compile_and_load (env : Env) (m : GraphModule) (args : list pyvalue)
    (cp : config_patches_t) (d : string) : Py loaded :=
  so_path ← call (EvCompile m args cp) (compile_fx_aot env m args cp);
  call (EvAotLoad so_path d) (aot_load env so_path d).

Definition repro_run (env : Env) (o : options) (mod_ : GraphModule)
    (la : load_args_fn) (cp : config_patches_t) : Py cmd_result :=
  '(m, args) ← repro_common env o mod_ la;
  d ← device_str (opt_device o);
  check_device d ;;
  compiled ← compile_and_load env m args cp d;
  assert_not_str compiled ;;
  run_loaded env o m compiled args.

(** ** The failure oracle and the minimisation glue *)

(** The [try] block of [module_fails]. *)
Definition module_fails_try (env : Env) (cp : config_patches_t) (d : string)
    (gm : GraphModule) (flat_example_inputs : list pyvalue) : Py bool :=
  compiled_model ← compile_and_load env gm flat_example_inputs cp d;
  call_loaded env compiled_model flat_example_inputs ;;
  mret false.

(** Its [except Exception as e] block.  A filter that is a list
    cannot be looked for in a [str]. *)
Definition module_fails_except (check_str : argval (option string)) (e : exn)
  : Py bool :=
  match check_str with
  | Val (Some s) =>
      if negb (PyStr.contains s (repr_exn e)) then mret false else mret true
  | Val None => mret true
  | EmptyList =>
      raise (Exn TypeError
        [AStr "'in <string>' requires string as left operand, not list"])
  end.

(** [module_fails], closed over [config_patches] and [device]. *)
Definition module_fails (env : Env) (cp : config_patches_t) (d : string)
    (gm : GraphModule) (flat_example_inputs : list pyvalue)
    (check_str : argval (option string)) : Py bool :=
  try_except_Exception
    (module_fails_try env cp d gm flat_example_inputs)
    (module_fails_except check_str).

Definition repro_minify (env : Env) (o : options) (mod_ : GraphModule)
    (la : load_args_fn) (cp : config_patches_t) : Py cmd_result :=
  '(m, args) ← repro_common env o mod_ la;
  d ← device_str (opt_device o);
  check_device d ;;
  check_str ← getattr "check_str" (opt_check_str o);
  offload_to_disk ← getattr "offload_to_disk" (opt_offload_to_disk o);
  skip_offload ← getattr "skip_saving_eager_intermediates"
                   (opt_skip_saving_eager_intermediates o);
  skip_sanity ← getattr "skip_sanity" (opt_skip_sanity o);
  max_granularity ← getattr "max_granularity" (opt_max_granularity o);
  let k := Knobs (opt_save_dir o) offload_to_disk skip_offload skip_sanity
                 max_granularity in
  emit (EvMinifier m args k) ;;
  minifier env m args
    (λ gm inputs, module_fails env cp d gm inputs check_str) k ;;
  mret RNone.

(** ** The command line *)

(** The parser [run_repro] builds, as [argparse] (CPython 3.11) reads
    a command line with it: exact option strings, unambiguous
    prefixes of long options, [--opt=value], [-h] clusters, and
    values that look like negative numbers or contain a space.  No
    parser here takes an argument after the subcommand, so a [--]
    separator ends the parse with a usage error; a [--] given as the
    value of an option after an equals sign is dropped and leaves the
    empty list. *)
Module Argparse.

Inductive flag :=
| FHelp
| FSaveDir
| FNoSaveDir
| FDevice
| FSkipSavingEagerIntermediates
| FOffloadToDisk
| FSkipSanity
| FMaxGranularity
| FCheckStr.

#[global] Instance flag_eq_dec : EqDecision flag.
Proof. solve_decision. Defined.

(** The option strings of a flag. *)
Definition option_strings (f : flag) : list string :=
  match f with
  | FHelp => ["-h"; "--help"]
  | FSaveDir => ["--save-dir"]
  | FNoSaveDir => ["--no-save-dir"]
  | FDevice => ["--device"]
  | FSkipSavingEagerIntermediates => ["--skip-saving-eager-intermediates"]
  | FOffloadToDisk => ["--offload-to-disk"]
  | FSkipSanity => ["--skip-sanity"]
  | FMaxGranularity => ["--max-granularity"]
  | FCheckStr => ["--check-str"]
  end.

(** Whether the action takes one argument ([store] with a type) or
    none ([store_true], [store_const], [help]). *)
Definition takes_value (f : flag) : bool :=
  match f with
  | FSaveDir | FDevice | FMaxGranularity | FCheckStr => true
  | _ => false
  end.

(** [common_flags], after the [-h] every parser has. *)
Definition common_flags : list flag := [FHelp; FSaveDir; FNoSaveDir; FDevice].

(** The subparsers, in the order they are added, each with the
    flags it accepts. *)
Definition subparsers : list (string * list flag) :=
  [ ("run", common_flags);
    ("minify", common_flags ++
       [FSkipSavingEagerIntermediates; FOffloadToDisk; FSkipSanity;
        FMaxGranularity; FCheckStr]);
    ("get_args", common_flags);
    ("minifier-query", common_flags ++ [FCheckStr]) ].

(** [_option_string_actions] of a parser. *)
Definition table (flags : list flag) : list (string * flag) :=
  flat_map (λ f, map (λ s, (s, f)) (option_strings f)) flags.

Inductive token_class :=
| Positional
| Optional_ (f : flag) (explicit : option string)
| Ambiguous
| Unknown.

(** [s.split("=", 1)] when [s] has an equals sign. *)
Fixpoint split_eq (s : string) : option (string * string) :=
  match s with
  | EmptyString => None
  | String c rest =>
      if Ascii.eqb c "="%char then Some (EmptyString, rest)
      else match split_eq rest with
           | Some (a, b) => Some (String c a, b)
           | None => None
           end
  end.

Definition is_Some_bool {A} (x : option A) : bool :=
  match x with Some _ => true | None => false end.

(** One or more digits. *)
Definition digits1 (l : list N) : bool :=
  match l with
  | [] => false
  | _ => forallb (λ cp, is_Some_bool (PyStr.decimal cp)) l
  end.

(** A run of digits, a dot, and one or more digits. *)
Fixpoint digits_dot_digits1 (l : list N) : bool :=
  match l with
  | [] => false
  | cp :: rest =>
      if (cp =? 46)%N then digits1 rest
      else is_Some_bool (PyStr.decimal cp) && digits_dot_digits1 rest
  end.

(** The end of the pattern, [$], also matches before a newline that
    ends the text. *)
Definition strip_final_newline (l : list N) : list N :=
  match rev l with
  | 10%N :: r => rev r
  | _ => l
  end.

(** The pattern of a negative number: a minus sign and digits, or
    a minus sign, digits, a dot and at least one digit. *)
Definition negative_number_like (s : string) : bool :=
  match PyStr.code_points s with
  | 45%N :: rest =>
      let rest := strip_final_newline rest in
      digits1 rest || digits_dot_digits1 rest
  | _ => false
  end.

Definition lookup_exact (tbl : list (string * flag)) (s : string) : option flag :=
  snd <$> List.find (λ p, String.eqb (fst p) s) tbl.

(** [_get_option_tuples]: the candidates an abbreviation stands for. *)
Definition option_tuples (tbl : list (string * flag)) (tok : string)
  : list (flag * option string) :=
  if String.prefix "--" tok then
    let '(option_prefix, explicit) :=
      match split_eq tok with
      | Some (a, b) => (a, Some b)
      | None => (tok, None)
      end in
    omap (λ p, if String.prefix option_prefix (fst p)
               then Some (snd p, explicit) else None) tbl
  else
    let short_option_prefix := String.substring 0 2 tok in
    let short_explicit_arg := String.substring 2 (String.length tok - 2) tok in
    omap (λ p, if String.eqb (fst p) short_option_prefix
               then Some (snd p, Some short_explicit_arg)
               else if String.prefix tok (fst p)
               then Some (snd p, None) else None) tbl.

(** [_parse_optional]. *)
Definition classify (tbl : list (string * flag)) (tok : string) : token_class :=
  match tok with
  | EmptyString => Positional
  | String c _ =>
      if negb (Ascii.eqb c "-"%char) then Positional
      else match lookup_exact tbl tok with
      | Some f => Optional_ f None
      | None =>
          if (String.length tok =? 1)%nat then Positional
          else
            let by_eq :=
              match split_eq tok with
              | Some (a, b) =>
                  match lookup_exact tbl a with
                  | Some f => Some (Optional_ f (Some b))
                  | None => None
                  end
              | None => None
              end in
            match by_eq with
            | Some cl => cl
            | None =>
                match option_tuples tbl tok with
                | _ :: _ :: _ => Ambiguous
                | [(f, e)] => Optional_ f e
                | [] =>
                    if negative_number_like tok then Positional
                    else if PyStr.has_char " "%char tok then Positional
                    else Unknown
                end
            end
      end
  end.

(** [int(s)] for the text of [--max-granularity]: surrounding white
    space, a sign, and decimal digits of any script that single
    underscores may separate.  The white space is the ASCII one and
    the code points from 128 up that [str.isspace] accepts; more than
    4300 digits are refused (the default of [sys.int_info]). *)
Definition int_space (cp : N) : bool :=
  (((9 <=? cp) && (cp <=? 13)) || (cp =? 32) || (cp =? 133) || (cp =? 160) ||
   (cp =? 5760) || ((8192 <=? cp) && (cp <=? 8202)) || (cp =? 8232) ||
   (cp =? 8233) || (cp =? 8239) || (cp =? 8287) || (cp =? 12288))%N.

Fixpoint lstrip (l : list N) : list N :=
  match l with
  | cp :: rest => if int_space cp then lstrip rest else l
  | [] => []
  end.

Definition max_str_digits : N := 4300.

Inductive int_state := AtStart | AfterDigit | AfterUnderscore.

(** The digits and what follows them; [count] is the number of
    digits read so far. *)
Fixpoint int_digits (l : list N) (st : int_state) (acc : Z) (count : N)
  : option Z :=
  let finish := if (count <=? max_str_digits)%N then Some acc else None in
  match l with
  | [] => match st with AfterDigit => finish | _ => None end
  | cp :: rest =>
      match PyStr.decimal cp with
      | Some d => int_digits rest AfterDigit (10 * acc + Z.of_N d) (count + 1)%N
      | None =>
          match st with
          | AfterDigit =>
              if (cp =? 95)%N then int_digits rest AfterUnderscore acc count
              else if forallb int_space l then finish else None
          | _ => None
          end
      end
  end.

Definition int_of_string (s : string) : option Z :=
  match lstrip (PyStr.code_points s) with
  | 45%N :: rest => Z.opp <$> int_digits rest AtStart 0 0%N
  | 43%N :: rest => int_digits rest AtStart 0 0%N
  | l => int_digits l AtStart 0 0%N
  end.

(** How a parse ends. *)
Inductive outcome :=
| Parsed (o : options)
| ExitHelp (h : help_text)
| ExitError.

(** The namespace of a subcommand before any option is read; the
    defaults of [--save-dir] and [--check-str] are the arguments of
    [run_repro]. *)
Definition defaults (command : string) (flags : list flag)
    (save_dir check_str : option string) : options :=
  let has f := existsb (λ g, bool_decide (g = f)) flags in
  {| opt_command := command;
     opt_save_dir := Val save_dir;
     opt_device := Val "cpu";
     opt_accuracy := Absent;
     opt_check_str := if has FCheckStr then Present (Val check_str) else Absent;
     opt_skip_saving_eager_intermediates :=
       if has FSkipSavingEagerIntermediates then Present false else Absent;
     opt_offload_to_disk := if has FOffloadToDisk then Present false else Absent;
     opt_skip_sanity := if has FSkipSanity then Present false else Absent;
     opt_max_granularity :=
       if has FMaxGranularity then Present (Val None) else Absent |}.

(** An action without argument. *)
Definition store_const (f : flag) (o : options) : options :=
  match f with
  | FNoSaveDir =>
      Options (opt_command o) (Val None) (opt_device o) (opt_accuracy o)
              (opt_check_str o) (opt_skip_saving_eager_intermediates o)
              (opt_offload_to_disk o) (opt_skip_sanity o) (opt_max_granularity o)
  | FSkipSavingEagerIntermediates =>
      Options (opt_command o) (opt_save_dir o) (opt_device o) (opt_accuracy o)
              (opt_check_str o) (Present true)
              (opt_offload_to_disk o) (opt_skip_sanity o) (opt_max_granularity o)
  | FOffloadToDisk =>
      Options (opt_command o) (opt_save_dir o) (opt_device o) (opt_accuracy o)
              (opt_check_str o) (opt_skip_saving_eager_intermediates o)
              (Present true) (opt_skip_sanity o) (opt_max_granularity o)
  | FSkipSanity =>
      Options (opt_command o) (opt_save_dir o) (opt_device o) (opt_accuracy o)
              (opt_check_str o) (opt_skip_saving_eager_intermediates o)
              (opt_offload_to_disk o) (Present true) (opt_max_granularity o)
  | _ => o
  end.

(** [_get_values] on the one argument string of an action: a [--]
    is dropped, which leaves no string and the empty list as value;
    any other string goes through the type of the action, [None]
    when the type rejects it. *)
Definition get_values {A} (convert : string → option A) (arg_string : string)
  : option (argval A) :=
  if String.eqb arg_string "--" then Some EmptyList
  else Val <$> convert arg_string.

(** An action with one argument; [None] when the type rejects it. *)
Definition store (f : flag) (arg_string : string) (o : options) : option options :=
  match f with
  | FSaveDir =>
      v ← get_values (λ s, Some (Some s)) arg_string;
      Some (Options (opt_command o) v (opt_device o) (opt_accuracy o)
              (opt_check_str o) (opt_skip_saving_eager_intermediates o)
              (opt_offload_to_disk o) (opt_skip_sanity o) (opt_max_granularity o))
  | FDevice =>
      v ← get_values Some arg_string;
      Some (Options (opt_command o) (opt_save_dir o) v (opt_accuracy o)
              (opt_check_str o) (opt_skip_saving_eager_intermediates o)
              (opt_offload_to_disk o) (opt_skip_sanity o) (opt_max_granularity o))
  | FCheckStr =>
      v ← get_values (λ s, Some (Some s)) arg_string;
      Some (Options (opt_command o) (opt_save_dir o) (opt_device o) (opt_accuracy o)
              (Present v) (opt_skip_saving_eager_intermediates o)
              (opt_offload_to_disk o) (opt_skip_sanity o) (opt_max_granularity o))
  | FMaxGranularity =>
      v ← get_values (λ s, Some <$> int_of_string s) arg_string;
      Some (Options (opt_command o) (opt_save_dir o) (opt_device o) (opt_accuracy o)
              (opt_check_str o) (opt_skip_saving_eager_intermediates o)
              (opt_offload_to_disk o) (opt_skip_sanity o) (Present v))
  | _ => Some o
  end.

Fixpoint all_h (s : string) : bool :=
  match s with
  | EmptyString => true
  | String c rest => Ascii.eqb c "h"%char && all_h rest
  end.

(** Whether an option without argument accepts the text glued to
    it: only a cluster of [-h]. *)
Definition cluster_ok (tok : string) (f : flag) (explicit : string) : bool :=
  match f with
  | FHelp => String.prefix "-h" tok
             && negb (String.eqb explicit "") && all_h explicit
  | _ => false
  end.

(** The loop of [parse_known_args] in a subparser.  [extras] records
    that an unrecognised argument was met, which is an error once
    the line is read to its end. *)
Fixpoint consume (command : string) (tbl : list (string * flag))
    (toks : list string) (o : options) (extras : bool) : outcome :=
  match toks with
  | [] => if extras then ExitError else Parsed o
  | tok :: rest =>
      if String.eqb tok "--" then ExitError else
      match classify tbl tok with
      | Positional | Unknown => consume command tbl rest o true
      | Ambiguous => ExitError
      | Optional_ f explicit =>
          if takes_value f then
            match explicit with
            | Some v =>
                match store f v o with
                | Some o' => consume command tbl rest o' extras
                | None => ExitError
                end
            | None =>
                match rest with
                | v :: rest' =>
                    if String.eqb v "--" then ExitError else
                    match classify tbl v with
                    | Positional =>
                        match store f v o with
                        | Some o' => consume command tbl rest' o' extras
                        | None => ExitError
                        end
                    | _ => ExitError
                    end
                | [] => ExitError
                end
            end
          else
            let accepted :=
              match explicit with
              | None => true
              | Some e => cluster_ok tok f e
              end in
            if negb accepted then ExitError
            else match f with
                 | FHelp => ExitHelp (SubHelp command)
                 | _ => consume command tbl rest (store_const f o) extras
                 end
      end
  end.

(** The first pass over the arguments of a subparser: an ambiguous
    abbreviation anywhere before a [--] is an error at once. *)
Fixpoint ambiguous_before_dashes (tbl : list (string * flag)) (toks : list string)
  : bool :=
  match toks with
  | [] => false
  | tok :: rest =>
      if String.eqb tok "--" then false
      else match classify tbl tok with
           | Ambiguous => true
           | _ => ambiguous_before_dashes tbl rest
           end
  end.

Definition parse_sub (command : string) (flags : list flag)
    (toks : list string) (save_dir check_str : option string) : outcome :=
  if ambiguous_before_dashes (table flags) toks then ExitError
  else consume command (table flags) toks
         (defaults command flags save_dir check_str) false.

(** The top-level parser: [-h] and the required subcommand, which
    takes the rest of the line. *)
Fixpoint parse_top (top : help_text) (toks : list string)
    (save_dir check_str : option string) (extras : bool) : outcome :=
  match toks with
  | [] => ExitError
  | tok :: rest =>
      if String.eqb tok "--" then ExitError else
      match classify (table [FHelp]) tok with
      | Optional_ f explicit =>
          let accepted :=
            match explicit with
            | None => true
            | Some e => cluster_ok tok f e
            end in
          if accepted then ExitHelp top else ExitError
      | Unknown => parse_top top rest save_dir check_str true
      | Ambiguous => ExitError
      | Positional =>
          match List.find (λ p, String.eqb (fst p) tok) subparsers with
          | None => ExitError
          | Some (command, flags) =>
              match parse_sub command flags rest save_dir check_str with
              | Parsed o => if extras then ExitError else Parsed o
              | other => other
              end
          end
      end
  end.

(** [parser.parse_args(args)]: help and usage errors print and
    leave through [SystemExit]. *)
Definition parse_args (top : help_text) (args : list string)
    (save_dir check_str : option string) : Py options :=
  match parse_top top args save_dir check_str false with
  | Parsed o => mret o
  | ExitHelp h => emit (EvPrintHelp h) ;; raise (Exn SystemExit [AInt 0])
  | ExitError => emit EvPrintUsage ;; raise (Exn SystemExit [AInt 2])
  end.

End Argparse.

(** ** The entry point *)

(** The [accuracy] argument of [run_repro]: a [bool] or a [str]. *)
Inductive accuracy_arg :=
| AccBool (b : bool)
| AccStr (s : string).

Definition command_fn : Type :=
  Env → options → GraphModule → load_args_fn → config_patches_t → Py cmd_result.

Definition COMMAND_FNS : gmap string command_fn :=
  <["minify" := repro_minify]>
    (<["run" := repro_run]>
      (<["get_args" := repro_get_args]> ∅)).

Definition unrecognized_kwarg (k : string) : string :=
  "Unrecognized kwarg " +:+ k +:+
  "; perhaps this repro was made on a newer version of PyTorch".

(** [run_repro].  [argv] is [sys.argv]; [kwargs] the keyword
    arguments the signature does not name, in the order given. *)
Definition run_repro (env : Env) (argv : list string)
    (mod_ : GraphModule) (la : load_args_fn)
    (cp : config_patches_t) (command : string) (accuracy : accuracy_arg)
    (save_dir tracing_mode check_str : option string)
    (kwargs : list (string * pyvalue)) : Py cmd_result :=
  for_each kwargs (λ k, log_warning (unrecognized_kwarg (fst k))) ;;
  let accuracy :=
    match accuracy with
    | AccBool true => "accuracy"
    | AccBool false => ""
    | AccStr s => s
    end in
  let top := TopHelp command accuracy tracing_mode save_dir check_str in
  let args :=
    if (length argv <=? 1)%nat then command :: drop 1 argv else drop 1 argv in
  o ← Argparse.parse_args top args save_dir check_str;
  match COMMAND_FNS !! opt_command o with
  | Some fn => fn env o mod_ la cp
  | None => raise (Exn KeyError [AStr (opt_command o)])
  end.

(** ** Vocabulary of the properties *)

(** The value an argument has when it is replayed: a symbolic integer
    is bound to the value observed at capture, a [bool] counts as the
    integer it is, every other value is itself. *)
Definition captured_value (v : pyvalue) : pyvalue :=
  match v with
  | PSymInt _ hint => PInt hint
  | PBool b => PInt (Z.b2z b)
  | other => other
  end.

(** The kinds of argument the encoder writes a statement for: a
    tensor, a plain or symbolic integer, or [None]. *)
Definition encodable (v : pyvalue) : bool :=
  match v with
  | PTensor _ | PInt _ | PBool _ | PSymInt _ _ | PNone => true
  | PFloat _ | PStr _ => false
  end.

(** The statement that encodes an argument for a placeholder: the
    full description of a tensor, the name and concrete value of an
    integer, and for [None] the marker, which carries the name only. *)
Definition statement_for (placeholder : string) (v : pyvalue) (s : stmt) : Prop :=
  match v with
  | PTensor t =>
      s = ReaderTensor placeholder (t_shape t) (t_stride t) (t_dtype t)
                       (t_device t) (t_fill t)
  | PInt z => s = ReaderSymint placeholder z
  | PBool b => s = ReaderSymint placeholder (Z.b2z b)
  | PSymInt _ hint => s = ReaderSymint placeholder hint
  | PNone => s = ReaderConst placeholder
  | PFloat _ | PStr _ => False
  end.

(** An argument that is a tensor on a CUDA device. *)
Definition tensor_on_cuda (v : pyvalue) : bool :=
  match v with
  | PTensor t => is_cuda t
  | _ => false
  end.

Definition is_export (ev : event) : bool :=
  match ev with EvExport _ _ => true | _ => false end.

Definition is_compile (ev : event) : bool :=
  match ev with EvCompile _ _ _ => true | _ => false end.

Definition is_execution (ev : event) : bool :=
  match ev with EvCall _ _ => true | _ => false end.

Definition is_comparison (ev : event) : bool :=
  match ev with EvSameTwoModels _ _ _ _ _ => true | _ => false end.

Definition is_synchronize (ev : event) : bool :=
  match ev with EvSynchronize => true | _ => false end.

(** The events of the common replay path up to and including the
    export. *)
Definition common_events (o : options) (mod_ : GraphModule) (la : load_args_fn)
  : list event :=
  [ EvLoadArgs NopInputReader;
    EvProgress (Reader.total (la_body la));
    EvLoadArgs (InputReader (opt_save_dir o));
    EvExport mod_ (Reader.args (la_body la)) ].

(** The error of the device check. *)
Definition unsupported_device_error (d : string) : exn :=
  Exn RuntimeError [AStr ("Unsupported device " +:+ d)].

(** The same options with another device. *)
Definition with_device (o : options) (d : string) : options :=
  Options (opt_command o) (opt_save_dir o) (Val d) (opt_accuracy o)
          (opt_check_str o) (opt_skip_saving_eager_intermediates o)
          (opt_offload_to_disk o) (opt_skip_sanity o) (opt_max_granularity o).

(** ** Sample inputs *)

Module Sample.

(** Collaborators that all succeed; the minifier checks the
    original graph once and stops. *)
Definition env_ok : Env :=
  {| export_ := λ m _, Ok (EP m);
     export_save := λ _ _, Ok tt;
     compile_fx_aot := λ _ _ _, Ok "/tmp/aoti/model.so";
     aot_load := λ _ _, Ok (LoadedModel 1);
     run_model := λ _ _, Ok tt;
     same_two_models := λ _ _ _ _ _, Ok true;
     repro_ignore_non_fp := false;
     synchronize := Ok tt;
     minifier := λ m args fails _, fails m args ;; mret tt |}.

(** The compiled artifact raises [RuntimeError("kernel launch failed")]. *)
Definition env_kernel_launch : Env :=
  {| export_ := λ m _, Ok (EP m);
     export_save := λ _ _, Ok tt;
     compile_fx_aot := λ _ _ _, Ok "/tmp/aoti/model.so";
     aot_load := λ _ _, Ok (LoadedModel 1);
     run_model := λ _ _, Raise (Exn RuntimeError [AStr "kernel launch failed"]);
     same_two_models := λ _ _ _ _ _, Ok true;
     repro_ignore_non_fp := false;
     synchronize := Ok tt;
     minifier := λ m args fails _, fails m args ;; mret tt |}.

(** The compiled artifact disagrees with the uncompiled module. *)
Definition env_mismatch : Env :=
  {| export_ := λ m _, Ok (EP m);
     export_save := λ _ _, Ok tt;
     compile_fx_aot := λ _ _ _, Ok "/tmp/aoti/model.so";
     aot_load := λ _ _, Ok (LoadedModel 1);
     run_model := λ _ _, Ok tt;
     same_two_models := λ _ _ _ _ _, Ok false;
     repro_ignore_non_fp := false;
     synchronize := Ok tt;
     minifier := λ m args fails _, fails m args ;; mret tt |}.

Definition cpu : device := Device "cpu" None.
Definition cuda0 : device := Device "cuda" (Some 0%N).

Definition t44 : tensor := Tensor [4; 4] [4; 1] float32 cpu RandomFill.
Definition t44_cuda : tensor := Tensor [4; 4] [4; 1] float32 cuda0 RandomFill.

(** A graph with a tensor input and a symbolic integer input. *)
Definition gm2 : GraphModule := GM ["arg0_1"; "s0"] 7.
Definition args2 : list pyvalue := [PTensor t44; PSymInt "s0" 4].

(** A graph with a tensor, a constant and an integer input. *)
Definition gm3 : GraphModule := GM ["x"; "c"; "n"] 9.
Definition args3 : list pyvalue := [PTensor t44_cuda; PNone; PInt 3].

(** A graph whose only input is the float constant 2.5. *)
Definition gm_float : GraphModule := GM ["scale"] 11.
Definition args_float : list pyvalue := [PFloat "2.5"].

Definition la2 : load_args_fn :=
  InputWriter.lines
    [InputWriter.tensor "arg0_1" t44; InputWriter.symint "s0" 4].

Definition la3 : load_args_fn :=
  InputWriter.lines
    [InputWriter.tensor "x" t44_cuda; InputWriter.const "c";
     InputWriter.symint "n" 3].

(** A stream written by a newer version of the harness. *)
Definition la_v1 : load_args_fn := LoadArgs (Some 1) (la_body la2).

(** Options of the [run] command as a caller may build them. *)
Definition run_options (d accuracy : string) : options :=
  Options "run" (Val (Some "/tmp/repro")) (Val d) (Present accuracy)
          Absent Absent Absent Absent Absent.

End Sample.

(** ** Saving a repro *)

(** What [save_graph_repro] writes to the file object: the script
    [generate_compiler_repro_string] returned, then plain text. *)
Inductive chunk :=
| Script (rs : repro_string)
| Text (s : string).

(** The events of [save_graph_repro]: those of the encoder, and the
    writes to the file object, which are taken not to fail (the
    callers write to a [StringIO]). *)
Inductive save_event :=
| Encoder (ev : event)
| FdWrite (c : chunk).

Definition is_write (ev : save_event) : bool :=
  match ev with FdWrite _ => true | Encoder _ => false end.

(** The [accuracy] argument of [save_graph_repro] once its default is
    resolved: [None] stands for whether the compiler name contains
    "_accuracy". *)
Definition resolve_accuracy (accuracy : option accuracy_arg) (compiler_name : string)
  : accuracy_arg :=
  match accuracy with
  | Some a => a
  | None => AccBool (PyStr.contains "_accuracy" compiler_name)
  end.

(** [repr] of the values the entry point is written with. *)
Definition repr_accuracy (a : accuracy_arg) : string :=
  match a with
  | AccBool true => "True"
  | AccBool false => "False"
  | AccStr s => PyStr.repr s
  end.

Definition repr_optional (s : option string) : string :=
  match s with
  | None => "None"
  | Some t => PyStr.repr t
  end.

Definition newline : string := String (ascii_of_N 10) EmptyString.

(** The last write: the call of [run_repro] under [torch.no_grad()]
    and the comment on running the module by hand. *)
Definition entry_point_text (accuracy : accuracy_arg) (command : string)
    (save_dir check_str : option string) : string :=
  "    with torch.no_grad():" +:+ newline +:+
  "        run_repro(mod, load_args, config_patches=options, accuracy=" +:+
  repr_accuracy accuracy +:+ ", command=" +:+ PyStr.repr command +:+ ", " +:+
  "save_dir=" +:+ repr_optional save_dir +:+ ", check_str=" +:+
  repr_optional check_str +:+ ")" +:+ newline +:+
  "        # To run it separately, do " +:+ newline +:+
  "        # mod, args = run_repro(mod, load_args, accuracy=" +:+
  repr_accuracy accuracy +:+ ", command='get_args', " +:+
  "save_dir=" +:+ repr_optional save_dir +:+ ", check_str=" +:+
  repr_optional check_str +:+ ")" +:+ newline +:+
  "        # mod(" +:+ "*args)".

(** [save_graph_repro]: the script is generated first and written
    only once it exists. *)
Definition save_graph_repro (env : Env) (gm : GraphModule) (args : list pyvalue)
    (compiler_name : string) (options_ : config_patches_t) (stable_output : bool)
    (save_dir : option string) (command : string)
    (accuracy : option accuracy_arg) (check_str : option string)
  : list save_event * res unit :=
  match generate_compiler_repro_string env gm args options_ stable_output save_dir with
  | (t, Raise e) => (map Encoder t, Raise e)
  | (t, Ok rs) =>
      let accuracy := resolve_accuracy accuracy compiler_name in
      (map Encoder t ++
         [ FdWrite (Script rs);
           FdWrite (Text ("if __name__ == '__main__':" +:+ newline));
           FdWrite (Text ("    from torch._dynamo.repro.aoti import run_repro" +:+
                          newline));
           FdWrite (Text (entry_point_text accuracy command save_dir check_str)) ],
       Ok tt)
  end.

(** ** Further vocabulary *)

(** The events behind which the compiler, the loader, the artifact,
    the comparison, the device or the minifier stand. *)
Definition is_backend (ev : event) : bool :=
  match ev with
  | EvCompile _ _ _ | EvAotLoad _ _ | EvCall _ _
  | EvSameTwoModels _ _ _ _ _ | EvSynchronize | EvMinifier _ _ _ => true
  | _ => false
  end.

Definition is_save (ev : event) : bool :=
  match ev with EvSaveExported _ _ => true | _ => false end.

(** The exception, if any, that ends the attempt of the oracle to
    compile the graph, load the shared object and run the artifact
    once; calling a loaded object that is a string raises
    [TypeError]. *)
Definition attempt_raises (env : Env) (cp : config_patches_t) (d : string)
    (gm : GraphModule) (inputs : list pyvalue) (e : exn) : Prop :=
  match compile_fx_aot env gm inputs cp with
  | Raise e' => e = e'
  | Ok so_path =>
      match aot_load env so_path d with
      | Raise e' => e = e'
      | Ok (LoadedStr _) => e = Exn TypeError [AStr "'str' object is not callable"]
      | Ok (LoadedModel h) =>
          match run_model env h inputs with
          | Ok _ => False
          | Raise e' => e = e'
          end
      end
  end.

(** The same collaborators with another compiled artifact. *)
Definition with_run_model (env : Env) (run : N → list pyvalue → res unit) : Env :=
  {| export_ := export_ env;
     export_save := export_save env;
     compile_fx_aot := compile_fx_aot env;
     aot_load := aot_load env;
     run_model := run;
     same_two_models := same_two_models env;
     repro_ignore_non_fp := repro_ignore_non_fp env;
     synchronize := synchronize env;
     minifier := minifier env |}.

(** The same options with another accuracy mode. *)
Definition with_accuracy (o : options) (accuracy : string) : options :=
  Options (opt_command o) (opt_save_dir o) (opt_device o) (Present accuracy)
          (opt_check_str o) (opt_skip_saving_eager_intermediates o)
          (opt_offload_to_disk o) (opt_skip_sanity o) (opt_max_granularity o).

(** The arguments [run_repro] hands to the parser. *)
Definition parser_args (argv : list string) (command : string) : list string :=
  if (length argv <=? 1)%nat then command :: drop 1 argv else drop 1 argv.

(** The accuracy mode [run_repro] shows in its help text. *)
Definition shown_accuracy (accuracy : accuracy_arg) : string :=
  match accuracy with
  | AccBool true => "accuracy"
  | AccBool false => ""
  | AccStr s => s
  end.

(** What [run_repro] does once the command line is read, [warnings]
    being the events logged before. *)
Definition after_parse (env : Env) (mod_ : GraphModule) (la : load_args_fn)
    (cp : config_patches_t) (warnings : list event) (out : Argparse.outcome)
  : Py cmd_result :=
  match out with
  | Argparse.Parsed o =>
      match COMMAND_FNS !! opt_command o with
      | Some fn => (warnings ++ trace (fn env o mod_ la cp),
                    result (fn env o mod_ la cp))
      | None => (warnings, Raise (Exn KeyError [AStr (opt_command o)]))
      end
  | Argparse.ExitHelp h => (warnings ++ [EvPrintHelp h], Raise (Exn SystemExit [AInt 0]))
  | Argparse.ExitError => (warnings ++ [EvPrintUsage], Raise (Exn SystemExit [AInt 2]))
  end.


(** The attributes a namespace has, by subcommand: [accuracy] never;
    [check_str] for [minify] and [minifier-query]; the four knobs of
    the minifier for [minify] only. *)
Definition namespace_shape (o : options) : Prop :=
  opt_accuracy o = Absent ∧
  ((opt_command o = "run" ∨ opt_command o = "get_args") ∧
     opt_check_str o = Absent ∧
     opt_skip_saving_eager_intermediates o = Absent ∧
     opt_offload_to_disk o = Absent ∧ opt_skip_sanity o = Absent ∧
     opt_max_granularity o = Absent
   ∨ opt_command o = "minify" ∧
     (∃ c, opt_check_str o = Present c) ∧
     (∃ b, opt_skip_saving_eager_intermediates o = Present b) ∧
     (∃ b, opt_offload_to_disk o = Present b) ∧
     (∃ b, opt_skip_sanity o = Present b) ∧
     (∃ g, opt_max_granularity o = Present g)
   ∨ opt_command o = "minifier-query" ∧
     (∃ c, opt_check_str o = Present c) ∧
     opt_skip_saving_eager_intermediates o = Absent ∧
     opt_offload_to_disk o = Absent ∧ opt_skip_sanity o = Absent ∧
     opt_max_granularity o = Absent).

(** ** Further sample inputs *)

Module Sample2.

(** The compiler raises. *)
Definition env_compile_fails : Env :=
  {| export_ := λ m _, Ok (EP m);
     export_save := λ _ _, Ok tt;
     compile_fx_aot := λ _ _ _,
       Raise (Exn (OtherException "CppCompileError") [AStr "C++ compile error"]);
     aot_load := λ _ _, Ok (LoadedModel 1);
     run_model := λ _ _, Ok tt;
     same_two_models := λ _ _ _ _ _, Ok true;
     repro_ignore_non_fp := false;
     synchronize := Ok tt;
     minifier := λ m args fails _, fails m args ;; mret tt |}.

(** The loader hands back a path instead of a model. *)
Definition env_loads_string : Env :=
  {| export_ := λ m _, Ok (EP m);
     export_save := λ _ _, Ok tt;
     compile_fx_aot := λ _ _ _, Ok "/tmp/aoti/model.so";
     aot_load := λ p _, Ok (LoadedStr p);
     run_model := λ _ _, Ok tt;
     same_two_models := λ _ _ _ _ _, Ok true;
     repro_ignore_non_fp := false;
     synchronize := Ok tt;
     minifier := λ m args fails _, fails m args ;; mret tt |}.

(** The user interrupts the artifact. *)
Definition env_interrupted : Env :=
  {| export_ := λ m _, Ok (EP m);
     export_save := λ _ _, Ok tt;
     compile_fx_aot := λ _ _ _, Ok "/tmp/aoti/model.so";
     aot_load := λ _ _, Ok (LoadedModel 1);
     run_model := λ _ _, Raise (Exn KeyboardInterrupt []);
     same_two_models := λ _ _ _ _ _, Ok true;
     repro_ignore_non_fp := false;
     synchronize := Ok tt;
     minifier := λ m args fails _, fails m args ;; mret tt |}.

(** The namespace of [minify] with its defaults and a filter. *)
Definition minify_options (d : string) (check_str : option string) : options :=
  Options "minify" (Val (Some "/tmp/repro")) (Val d) Absent
          (Present (Val check_str))
          (Present false) (Present false) (Present false) (Present (Val None)).

(** Three placeholders, and four arguments of which the last is a
    float. *)
Definition args3_and_float : list pyvalue :=
  [PTensor Sample.t44_cuda; PNone; PInt 3; PFloat "0.5"].

End Sample2.

(** * Properties *)

(** ** The effect monad *)

Lemma bind_ok {A B} (t : list event) (a : A) (f : A → Py B) :
  ((t, Ok a) ≫= f) = (t ++ trace (f a), result (f a)).
Proof. unfold mbind, Py_bind, trace, result. destruct (f a); reflexivity. Qed.

Lemma bind_raise {A B} (t : list event) (e : exn) (f : A → Py B) :
  (((t, Raise e) : Py A) ≫= f) = (t, Raise e).
Proof. reflexivity. Qed.

Lemma Py_eta {A} (m : Py A) : m = (trace m, result m).
Proof. destruct m; reflexivity. Qed.

Lemma trace_bind {A B} (m : Py A) (f : A → Py B) :
  trace (m ≫= f) =
  match result m with
  | Ok a => trace m ++ trace (f a)
  | Raise _ => trace m
  end.
Proof.
  destruct m as [t [a | e]]; [rewrite bind_ok | rewrite bind_raise]; reflexivity.
Qed.

Lemma result_bind {A B} (m : Py A) (f : A → Py B) :
  result (m ≫= f) =
  match result m with
  | Ok a => result (f a)
  | Raise e => Raise e
  end.
Proof.
  destruct m as [t [a | e]]; [rewrite bind_ok | rewrite bind_raise]; reflexivity.
Qed.

(** ** Substrings *)

Lemma prefix_true_app (p s : string) :
  String.prefix p s = true → ∃ post, s = p +:+ post.
Proof.
  revert s. induction p as [| c p IH]; intros s H.
  - exists s. reflexivity.
  - destruct s as [| d s]; simpl in H; [discriminate |].
    destruct (Ascii.ascii_dec c d) as [-> | ne]; [| discriminate].
    destruct (IH s H) as [post ->]. exists post. reflexivity.
Qed.

Lemma prefix_app (p post : string) : String.prefix p (p +:+ post) = true.
Proof.
  induction p as [| c p IH]; simpl.
  - destruct post; reflexivity.
  - destruct (Ascii.ascii_dec c c); [exact IH | congruence].
Qed.

Lemma starts_with_true_app (p l : list N) :
  PyStr.starts_with p l = true → ∃ post, l = p ++ post.
Proof.
  revert l. induction p as [| a p IH]; intros l H.
  - exists l. reflexivity.
  - destruct l as [| b l]; simpl in H; [discriminate |].
    apply andb_true_iff in H as [Hab H]. apply N.eqb_eq in Hab as ->.
    destruct (IH l H) as [post ->]. exists post. reflexivity.
Qed.

Lemma starts_with_app (p post : list N) : PyStr.starts_with p (p ++ post) = true.
Proof.
  induction p as [| a p IH]; simpl; [reflexivity |].
  rewrite N.eqb_refl. exact IH.
Qed.

Lemma occurs_nil (p : list N) : PyStr.occurs p [] = PyStr.starts_with p [].
Proof. simpl. apply orb_false_r. Qed.

Lemma occurs_cons (p : list N) (a : N) (l : list N) :
  PyStr.occurs p (a :: l) = PyStr.starts_with p (a :: l) || PyStr.occurs p l.
Proof. reflexivity. Qed.

Lemma occurs_spec (p l : list N) :
  PyStr.occurs p l = true ↔ ∃ pre post, l = pre ++ p ++ post.
Proof.
  split.
  - induction l as [| a l IH]; intros H.
    + rewrite occurs_nil in H. apply starts_with_true_app in H as [post E].
      exists [], post. exact E.
    + rewrite occurs_cons in H. apply orb_true_iff in H as [H | H].
      * apply starts_with_true_app in H as [post E].
        exists [], post. exact E.
      * destruct (IH H) as (pre & post & ->).
        exists (a :: pre), post. reflexivity.
  - intros (pre & post & ->). induction pre as [| a pre IH].
    + change ([] ++ p ++ post) with (p ++ post).
      destruct (p ++ post) as [| a rest] eqn:E.
      * rewrite occurs_nil, <- E. apply starts_with_app.
      * rewrite occurs_cons, <- E, starts_with_app. reflexivity.
    + change ((a :: pre) ++ p ++ post) with (a :: (pre ++ p ++ post)).
      rewrite occurs_cons, IH. apply orb_true_r.
Qed.

(** [contains] is the substring relation on code points: [needle in
    hay] holds exactly when [hay] is some text, [needle], and some
    more text. *)
Lemma contains_spec (needle hay : string) :
  PyStr.contains needle hay = true ↔
  ∃ pre post,
    PyStr.code_points hay = pre ++ PyStr.code_points needle ++ post.
Proof. apply occurs_spec. Qed.

(** ** The failure oracle *)

(** The [try] block ends without exception exactly when compiling,
    loading and running all succeed. *)
Lemma module_fails_try_result (env : Env) (cp : config_patches_t) (d : string)
    (gm : GraphModule) (inputs : list pyvalue) :
  result (module_fails_try env cp d gm inputs) =
  match compile_fx_aot env gm inputs cp with
  | Raise e => Raise e
  | Ok so_path =>
      match aot_load env so_path d with
      | Raise e => Raise e
      | Ok (LoadedStr _) => Raise (Exn TypeError [AStr "'str' object is not callable"])
      | Ok (LoadedModel h) =>
          match run_model env h inputs with
          | Ok _ => Ok false
          | Raise e => Raise e
          end
      end
  end.
Proof.
  unfold module_fails_try, compile_and_load, call_loaded, call.
  destruct (compile_fx_aot env gm inputs cp) as [p | e]; [| reflexivity].
  cbn. destruct (aot_load env p d) as [[h | s] | e]; try reflexivity.
  cbn. destruct (run_model env h inputs) as [[] | e]; reflexivity.
Qed.

Lemma module_fails_try_no_true (env : Env) (cp : config_patches_t) (d : string)
    (gm : GraphModule) (inputs : list pyvalue) (b : bool) :
  result (module_fails_try env cp d gm inputs) = Ok b → b = false.
Proof.
  rewrite module_fails_try_result.
  destruct (compile_fx_aot env gm inputs cp) as [p | e]; [| discriminate].
  destruct (aot_load env p d) as [[h | s] | e]; try discriminate.
  destruct (run_model env h inputs) as [[] | e]; congruence.
Qed.

(** C1.  The verdict of [module_fails].  When compiling the graph,
    loading the shared object and running the artifact once on the
    inputs raise nothing, the verdict is [False].  When one of the
    three raises an exception (an instance of [Exception], which is
    what the [except] clause catches; calling a loaded object that is
    a string raises [TypeError]), the verdict is [True] if [check_str]
    is [None] or occurs in the [repr] of the exception, and [False] if
    [check_str] is set and does not occur in it.  An exit or interrupt
    that is no [Exception] is not a verdict and passes through. *)
Theorem module_fails_verdict (env : Env) (cp : config_patches_t) (d : string)
    (gm : GraphModule) (inputs : list pyvalue) (check_str : option string) :
  result (module_fails env cp d gm inputs (Val check_str)) =
  let verdict (e : exn) : res bool :=
    if is_Exception (exc_class_of e) then
      Ok match check_str with
         | None => true
         | Some s => PyStr.contains s (repr_exn e)
         end
    else Raise e in
  match compile_fx_aot env gm inputs cp with
  | Raise e => verdict e
  | Ok so_path =>
      match aot_load env so_path d with
      | Raise e => verdict e
      | Ok (LoadedStr _) =>
          verdict (Exn TypeError [AStr "'str' object is not callable"])
      | Ok (LoadedModel h) =>
          match run_model env h inputs with
          | Ok _ => Ok false
          | Raise e => verdict e
          end
      end
  end.
Proof.
  assert (Hv : ∀ t e,
    result (try_except_Exception ((t, Raise e) : Py bool)
              (module_fails_except (Val check_str))) =
    if is_Exception (exc_class_of e) then
      Ok match check_str with
         | None => true
         | Some s => PyStr.contains s (repr_exn e)
         end
    else Raise e).
  { intros t e. unfold try_except_Exception.
    destruct (is_Exception (exc_class_of e)); [| reflexivity].
    destruct check_str as [s |]; cbn; [| reflexivity].
    destruct (PyStr.contains s (repr_exn e)); reflexivity. }
  cbv zeta. unfold module_fails, module_fails_try, compile_and_load, call_loaded, call.
  destruct (compile_fx_aot env gm inputs cp) as [p | e]; [| apply Hv].
  cbn [mbind Py_bind]. destruct (aot_load env p d) as [[h | s] | e];
    cbn [mbind Py_bind raise app]; try apply Hv.
  destruct (run_model env h inputs) as [[] | e]; cbn [mbind Py_bind app];
    [reflexivity | apply Hv].
Qed.

(** The oracle on an artifact that raises
    [RuntimeError("kernel launch failed")]: it fails for the filter
    "kernel launch" and for no filter, and does not for "segfault";
    on an artifact that runs, it does not fail. *)
Lemma module_fails_kernel_launch :
  result (module_fails Sample.env_kernel_launch None "cpu" Sample.gm2 Sample.args2
            (Val (Some "kernel launch"))) = Ok true ∧
  result (module_fails Sample.env_kernel_launch None "cpu" Sample.gm2 Sample.args2
            (Val (Some "segfault"))) = Ok false ∧
  result (module_fails Sample.env_kernel_launch None "cpu" Sample.gm2 Sample.args2
            (Val None)) = Ok true ∧
  result (module_fails Sample.env_ok None "cpu" Sample.gm2 Sample.args2
            (Val (Some "kernel launch"))) = Ok false.
Proof. repeat split; vm_compute; reflexivity. Qed.

(** ** The common replay path *)

Lemma check_version_trace (la : load_args_fn) :
  trace (check_version la) =
  match la_version la with
  | None => [EvWarning no_version_warning]
  | Some v => if 0 <? v then [EvWarning (version_warning v)] else []
  end.
Proof.
  unfold check_version. destruct (la_version la) as [v |]; [| reflexivity].
  destruct (0 <? v); reflexivity.
Qed.

Lemma check_version_result (la : load_args_fn) :
  result (check_version la) = Ok tt.
Proof.
  unfold check_version. destruct (la_version la) as [v |]; [| reflexivity].
  destruct (0 <? v); reflexivity.
Qed.

Lemma load_and_export_eq (env : Env) (o : options) (mod_ : GraphModule)
    (la : load_args_fn) :
  load_and_export env o mod_ la =
  match export_ env mod_ (Reader.args (la_body la)) with
  | Ok ep =>
      (common_events o mod_ la ++ [EvSetIntermediateHooks],
       Ok (ep_module ep, Reader.args (la_body la)))
  | Raise e => (common_events o mod_ la, Raise e)
  end.
Proof.
  unfold load_and_export, common_events, call_load_args, emit, call.
  destruct (export_ env mod_ (Reader.args (la_body la))); reflexivity.
Qed.

Lemma repro_common_eq (env : Env) (o : options) (mod_ : GraphModule)
    (la : load_args_fn) :
  repro_common env o mod_ la =
  (trace (check_version la) ++ trace (load_and_export env o mod_ la),
   result (load_and_export env o mod_ la)).
Proof.
  unfold repro_common.
  rewrite (Py_eta (check_version la)), check_version_result.
  rewrite bind_ok. reflexivity.
Qed.

Lemma repro_common_result (env : Env) (o : options) (mod_ : GraphModule)
    (la : load_args_fn) :
  result (repro_common env o mod_ la) =
  match export_ env mod_ (Reader.args (la_body la)) with
  | Ok ep => Ok (ep_module ep, Reader.args (la_body la))
  | Raise e => Raise e
  end.
Proof.
  rewrite repro_common_eq, load_and_export_eq.
  destruct (export_ env mod_ (Reader.args (la_body la))); reflexivity.
Qed.

Lemma repro_common_trace (env : Env) (o : options) (mod_ : GraphModule)
    (la : load_args_fn) :
  trace (repro_common env o mod_ la) =
  trace (check_version la) ++ common_events o mod_ la ++
  match export_ env mod_ (Reader.args (la_body la)) with
  | Ok _ => [EvSetIntermediateHooks]
  | Raise _ => []
  end.
Proof.
  rewrite repro_common_eq, load_and_export_eq.
  destruct (export_ env mod_ (Reader.args (la_body la)));
    cbn [trace fst]; [reflexivity | rewrite app_nil_r; reflexivity].
Qed.

(** C6.  The check of the format version only warns.  It never
    raises, whatever the version; it logs one warning when the stream
    declares no version or a version above 0, and none otherwise; and
    [repro_common] then goes on to decode: the counting pass, the
    progress bar, the full pass and the export follow in its trace. *)
Theorem version_check_warns_and_continues (env : Env) (o : options)
    (mod_ : GraphModule) (la : load_args_fn) :
  result (check_version la) = Ok tt ∧
  trace (check_version la) =
    match la_version la with
    | None => [EvWarning no_version_warning]
    | Some v => if 0 <? v then [EvWarning (version_warning v)] else []
    end ∧
  ∃ rest,
    trace (repro_common env o mod_ la) =
      trace (check_version la) ++
      [ EvLoadArgs NopInputReader;
        EvProgress (length (la_body la));
        EvLoadArgs (InputReader (opt_save_dir o));
        EvExport mod_ (Reader.args (la_body la)) ] ++ rest ∧
    result (repro_common env o mod_ la) =
      result (load_and_export env o mod_ la).
Proof.
  split; [apply check_version_result |].
  split; [apply check_version_trace |].
  eexists. split.
  - rewrite repro_common_trace. reflexivity.
  - rewrite repro_common_eq. reflexivity.
Qed.

(** A stream of version 1 and a stream without version are decoded
    like a stream of version 0, after one warning. *)
Lemma newer_and_missing_version_replay :
  repro_get_args Sample.env_ok (Sample.run_options "cpu" "") Sample.gm2
    Sample.la_v1 None =
  ( EvWarning (version_warning 1) ::
      trace (repro_get_args Sample.env_ok (Sample.run_options "cpu" "") Sample.gm2
               Sample.la2 None),
    Ok (RModArgs Sample.gm2 [PTensor Sample.t44; PInt 4]) ) ∧
  repro_get_args Sample.env_ok (Sample.run_options "cpu" "") Sample.gm2
    (LoadArgs None (la_body Sample.la2)) None =
  ( EvWarning no_version_warning ::
      trace (repro_get_args Sample.env_ok (Sample.run_options "cpu" "") Sample.gm2
               Sample.la2 None),
    Ok (RModArgs Sample.gm2 [PTensor Sample.t44; PInt 4]) ).
Proof. split; vm_compute; reflexivity. Qed.

(** ** The [run] and [get_args] commands *)

(** The common path neither compiles nor runs anything. *)
Lemma repro_common_no_backend (env : Env) (o : options) (mod_ : GraphModule)
    (la : load_args_fn) (p : event → bool) :
  (∀ s, p (EvWarning s) = false) →
  (∀ r, p (EvLoadArgs r) = false) →
  (∀ n, p (EvProgress n) = false) →
  (∀ m a, p (EvExport m a) = false) →
  p EvSetIntermediateHooks = false →
  List.filter p (trace (repro_common env o mod_ la)) = [].
Proof.
  intros Hw Hl Hp He Hs. rewrite repro_common_trace, check_version_trace.
  rewrite !List.filter_app. unfold common_events. cbn [List.filter].
  rewrite !Hl, Hp, He.
  assert (List.filter p
            match la_version la with
            | Some v => if 0 <? v then [EvWarning (version_warning v)] else []
            | None => [EvWarning no_version_warning]
            end = []) as ->.
  { destruct (la_version la) as [v |]; [destruct (0 <? v) |]; cbn; rewrite ?Hw; reflexivity. }
  destruct (export_ env mod_ (Reader.args (la_body la))); cbn; rewrite ?Hs; reflexivity.
Qed.

Lemma repro_common_exports (env : Env) (o : options) (mod_ : GraphModule)
    (la : load_args_fn) :
  In (EvExport mod_ (Reader.args (la_body la))) (trace (repro_common env o mod_ la)).
Proof.
  rewrite repro_common_trace. apply in_or_app. right. apply in_or_app. left.
  unfold common_events. cbn. tauto.
Qed.

Lemma device_bind {B} (d : string) (k : string → Py B) :
  (device_str (Val d) ≫= k) = k d.
Proof. unfold device_str. cbn. destruct (k d); reflexivity. Qed.

(** [repro_run] after the common path, by the outcome of each step. *)
Lemma repro_run_common_raises (env : Env) (o : options) (mod_ : GraphModule)
    (la : load_args_fn) (cp : config_patches_t) (e : exn) :
  result (repro_common env o mod_ la) = Raise e →
  repro_run env o mod_ la cp = (trace (repro_common env o mod_ la), Raise e).
Proof.
  intros H. unfold repro_run.
  rewrite (Py_eta (repro_common env o mod_ la)), H. reflexivity.
Qed.

Lemma repro_run_unsupported (env : Env) (o : options) (mod_ : GraphModule)
    (la : load_args_fn) (cp : config_patches_t) (m : GraphModule)
    (args : list pyvalue) (d : string) :
  result (repro_common env o mod_ la) = Ok (m, args) →
  opt_device o = Val d →
  unsupported_device d = true →
  repro_run env o mod_ la cp =
  (trace (repro_common env o mod_ la),
   Raise (unsupported_device_error d)).
Proof.
  intros H Hv Hd. unfold repro_run.
  rewrite (Py_eta (repro_common env o mod_ la)), H, bind_ok.
  cbn beta iota. rewrite Hv, device_bind. unfold check_device. rewrite Hd.
  cbn. rewrite app_nil_r. reflexivity.
Qed.

Lemma repro_run_loaded (env : Env) (o : options) (mod_ : GraphModule)
    (la : load_args_fn) (cp : config_patches_t) (m : GraphModule)
    (args : list pyvalue) (so_path : string) (h : N) (d : string) :
  result (repro_common env o mod_ la) = Ok (m, args) →
  opt_device o = Val d →
  unsupported_device d = false →
  compile_fx_aot env m args cp = Ok so_path →
  aot_load env so_path d = Ok (LoadedModel h) →
  repro_run env o mod_ la cp =
  (trace (repro_common env o mod_ la) ++
     [EvCompile m args cp; EvAotLoad so_path d] ++
     trace (run_loaded env o m (LoadedModel h) args),
   result (run_loaded env o m (LoadedModel h) args)).
Proof.
  intros H Hv Hd Hc Hl. unfold repro_run.
  rewrite (Py_eta (repro_common env o mod_ la)), H, bind_ok.
  cbn beta iota. rewrite Hv, device_bind.
  unfold check_device, compile_and_load, call. rewrite Hd, Hc.
  cbn. rewrite Hl. cbn.
  destruct (run_loaded env o m (LoadedModel h) args) as [t r]. reflexivity.
Qed.

(** The loop with [break] finds a CUDA tensor exactly when there is
    one. *)
Lemma need_sync_of_existsb (args : list pyvalue) :
  need_sync_of args = existsb tensor_on_cuda args.
Proof.
  induction args as [| a args IH]; [reflexivity |].
  destruct a; cbn; try exact IH.
  destruct (is_cuda t); [reflexivity | exact IH].
Qed.

(** At the device "tpu" the [run] command has decoded the inputs and
    exported the module by the time it rejects the device. *)
Lemma run_tpu_exports_first :
  unsupported_device "tpu" = true ∧
  repro_run Sample.env_ok (Sample.run_options "tpu" "") Sample.gm2 Sample.la2 None =
  ( [ EvLoadArgs NopInputReader;
      EvProgress 2;
      EvLoadArgs (InputReader (Val (Some "/tmp/repro")));
      EvExport Sample.gm2 [PTensor Sample.t44; PInt 4];
      EvSetIntermediateHooks ],
    Raise (Exn RuntimeError [AStr "Unsupported device tpu"]) ) ∧
  existsb is_export
    (trace (repro_run Sample.env_ok (Sample.run_options "tpu" "") Sample.gm2
              Sample.la2 None)) = true.
Proof. repeat split; vm_compute; reflexivity. Qed.

(** C2, as the code has it.  For a device that is neither "cpu" nor
    prefixed by "cuda", the [run] command performs the common replay
    path and nothing else: the inputs are decoded and the export is
    attempted, and no compilation is.  If the common path succeeds
    the command fails with the unsupported-device error; if the
    export raises, that exception is the outcome. *)
Theorem run_unsupported_device (env : Env) (o : options) (mod_ : GraphModule)
    (la : load_args_fn) (cp : config_patches_t) (d : string) :
  opt_device o = Val d →
  unsupported_device d = true →
  trace (repro_run env o mod_ la cp) = trace (repro_common env o mod_ la) ∧
  In (EvExport mod_ (Reader.args (la_body la))) (trace (repro_run env o mod_ la cp)) ∧
  existsb is_compile (trace (repro_run env o mod_ la cp)) = false ∧
  result (repro_run env o mod_ la cp) =
    match result (repro_common env o mod_ la) with
    | Ok _ => Raise (unsupported_device_error d)
    | Raise e => Raise e
    end.
Proof.
  intros Hv Hd.
  assert (repro_run env o mod_ la cp =
          (trace (repro_common env o mod_ la),
           match result (repro_common env o mod_ la) with
           | Ok _ => Raise (unsupported_device_error d)
           | Raise e => Raise e
           end)) as E.
  { destruct (result (repro_common env o mod_ la)) as [[m args] | e] eqn:H.
    - apply (repro_run_unsupported _ _ _ _ _ m args d); assumption.
    - apply repro_run_common_raises; assumption. }
  rewrite E. cbn [trace result fst snd].
  split; [reflexivity |]. split; [apply repro_common_exports |].
  split; [| reflexivity].
  destruct (existsb is_compile (trace (repro_common env o mod_ la))) eqn:X;
    [| reflexivity].
  apply existsb_exists in X as (ev & Hin & Hev).
  assert (In ev (List.filter is_compile (trace (repro_common env o mod_ la)))) as F
    by (apply List.filter_In; split; assumption).
  rewrite repro_common_no_backend in F by reflexivity. destruct F.
Qed.

Lemma run_unsupported_device_tpu :
  opt_device (Sample.run_options "tpu" "") = Val "tpu" ∧
  unsupported_device "tpu" = true ∧
  result (repro_run Sample.env_ok (Sample.run_options "tpu" "") Sample.gm2
            Sample.la2 None) =
  Raise (unsupported_device_error "tpu").
Proof.
  split; [reflexivity |]. split; [reflexivity |].
  exact (proj2 (proj2 (proj2
    (run_unsupported_device Sample.env_ok (Sample.run_options "tpu" "")
       Sample.gm2 Sample.la2 None "tpu" eq_refl eq_refl)))).
Defined.

(** [repro_run] on a namespace that carries a non-empty [accuracy]
    attribute, which the parser of [run_repro] never sets.  When the
    artifact is compiled and loaded, the command hands the uncompiled
    module, the compiled artifact and the one argument tuple to the
    comparison; nothing else is run.  If the comparison reports a
    disagreement the command raises [AccuracyError]; if it reports
    agreement the command returns. *)
Lemma run_accuracy_mode (env : Env) (o : options) (mod_ : GraphModule)
    (la : load_args_fn) (cp : config_patches_t) (m : GraphModule)
    (args : list pyvalue) (so_path : string) (h : N) (accuracy d : string) :
  result (repro_common env o mod_ la) = Ok (m, args) →
  opt_device o = Val d →
  unsupported_device d = false →
  compile_fx_aot env m args cp = Ok so_path →
  aot_load env so_path d = Ok (LoadedModel h) →
  opt_accuracy o = Present accuracy →
  accuracy ≠ "" →
  trace (repro_run env o mod_ la cp) =
    trace (repro_common env o mod_ la) ++
    [ EvCompile m args cp;
      EvAotLoad so_path d;
      EvSameTwoModels m (LoadedModel h) args true (repro_ignore_non_fp env) ] ∧
  result (repro_run env o mod_ la cp) =
    match same_two_models env m (LoadedModel h) args true (repro_ignore_non_fp env) with
    | Ok true => Ok RNone
    | Ok false => Raise (Exn AccuracyError [AStr "Bad accuracy detected"])
    | Raise e => Raise e
    end.
Proof.
  intros H Hv Hd Hc Hl Ha Hne.
  rewrite (repro_run_loaded env o mod_ la cp m args so_path h d H Hv Hd Hc Hl).
  cbn [trace result fst snd]. unfold run_loaded. rewrite Ha. cbn.
  destruct (String.eqb_spec accuracy "") as [-> | _]; [congruence |].
  cbn. unfold call.
  destruct (same_two_models env m (LoadedModel h) args true (repro_ignore_non_fp env))
    as [[|] | e]; cbn; split; reflexivity.
Qed.

(** Accuracy mode on an artifact that disagrees with the module:
    [AccuracyError], and no [RuntimeError]. *)
Lemma run_accuracy_mode_mismatch :
  result (repro_common Sample.env_mismatch (Sample.run_options "cpu" "accuracy")
            Sample.gm2 Sample.la2) = Ok (Sample.gm2, [PTensor Sample.t44; PInt 4]) ∧
  "accuracy" ≠ "" ∧
  result (repro_run Sample.env_mismatch (Sample.run_options "cpu" "accuracy")
            Sample.gm2 Sample.la2 None) =
  Raise (Exn AccuracyError [AStr "Bad accuracy detected"]).
Proof.
  split; [reflexivity |]. split; [discriminate |].
  exact (proj2
    (run_accuracy_mode Sample.env_mismatch (Sample.run_options "cpu" "accuracy")
       Sample.gm2 Sample.la2 None Sample.gm2 [PTensor Sample.t44; PInt 4]
       "/tmp/aoti/model.so" 1%N "accuracy" "cpu"
       eq_refl eq_refl eq_refl eq_refl eq_refl eq_refl
       (λ E : "accuracy" = "", eq_ind "accuracy"
          (λ s, match s with EmptyString => False | String _ _ => True end) I "" E))).
Defined.

(** [repro_run] on a namespace that carries an empty [accuracy]
    attribute, which the parser of [run_repro] never sets.  When the
    artifact is compiled and loaded, it is executed exactly once, on
    the argument tuple, and a device synchronisation follows that
    execution at once exactly when some argument is a tensor on a
    CUDA device; an execution that raises ends the command with its
    exception. *)
Lemma run_crash_detection_mode (env : Env) (o : options) (mod_ : GraphModule)
    (la : load_args_fn) (cp : config_patches_t) (m : GraphModule)
    (args : list pyvalue) (so_path : string) (h : N) (d : string) :
  result (repro_common env o mod_ la) = Ok (m, args) →
  opt_device o = Val d →
  unsupported_device d = false →
  compile_fx_aot env m args cp = Ok so_path →
  aot_load env so_path d = Ok (LoadedModel h) →
  opt_accuracy o = Present "" →
  trace (repro_run env o mod_ la cp) =
    trace (repro_common env o mod_ la) ++
    [ EvCompile m args cp;
      EvAotLoad so_path d;
      EvCall (LoadedModel h) args ] ++
    match run_model env h args with
    | Ok _ => if existsb tensor_on_cuda args then [EvSynchronize] else []
    | Raise _ => []
    end ∧
  length (List.filter is_execution (trace (repro_run env o mod_ la cp))) = 1%nat ∧
  result (repro_run env o mod_ la cp) =
    match run_model env h args with
    | Ok _ =>
        if existsb tensor_on_cuda args
        then match synchronize env with Ok _ => Ok RNone | Raise e => Raise e end
        else Ok RNone
    | Raise e => Raise e
    end.
Proof.
  intros H Hv Hd Hc Hl Ha.
  assert (run_loaded env o m (LoadedModel h) args =
          (EvCall (LoadedModel h) args ::
             match run_model env h args with
             | Ok _ => if existsb tensor_on_cuda args then [EvSynchronize] else []
             | Raise _ => []
             end,
           match run_model env h args with
           | Ok _ =>
               if existsb tensor_on_cuda args
               then match synchronize env with Ok _ => Ok RNone | Raise e => Raise e end
               else Ok RNone
           | Raise e => Raise e
           end)) as E.
  { unfold run_loaded. rewrite Ha, need_sync_of_existsb. cbn. unfold call.
    destruct (run_model env h args) as [[] | e]; [| reflexivity].
    cbn. destruct (existsb tensor_on_cuda args); [| reflexivity].
    unfold call. destruct (synchronize env) as [[] | e]; reflexivity. }
  rewrite (repro_run_loaded env o mod_ la cp m args so_path h d H Hv Hd Hc Hl), E.
  cbn [trace result fst snd]. split; [reflexivity |]. split; [| reflexivity].
  rewrite !List.filter_app, repro_common_no_backend by reflexivity.
  cbn. destruct (run_model env h args) as [[] | e]; [| reflexivity].
  destruct (existsb tensor_on_cuda args); reflexivity.
Qed.

(** Crash detection with a CUDA tensor among the arguments: one
    execution, then the synchronisation. *)
Lemma run_crash_detection_cuda :
  opt_accuracy (Sample.run_options "cuda:0" "") = Present "" ∧
  existsb tensor_on_cuda [PTensor Sample.t44_cuda; PNone; PInt 3] = true ∧
  trace (repro_run Sample.env_ok (Sample.run_options "cuda:0" "") Sample.gm3
           Sample.la3 None) =
  [ EvLoadArgs NopInputReader;
    EvProgress 3;
    EvLoadArgs (InputReader (Val (Some "/tmp/repro")));
    EvExport Sample.gm3 [PTensor Sample.t44_cuda; PNone; PInt 3];
    EvSetIntermediateHooks;
    EvCompile Sample.gm3 [PTensor Sample.t44_cuda; PNone; PInt 3] None;
    EvAotLoad "/tmp/aoti/model.so" "cuda:0";
    EvCall (LoadedModel 1) [PTensor Sample.t44_cuda; PNone; PInt 3];
    EvSynchronize ].
Proof.
  split; [reflexivity |]. split; [reflexivity |].
  exact (proj1
    (run_crash_detection_mode Sample.env_ok (Sample.run_options "cuda:0" "")
       Sample.gm3 Sample.la3 None Sample.gm3 [PTensor Sample.t44_cuda; PNone; PInt 3]
       "/tmp/aoti/model.so" 1%N "cuda:0"
       eq_refl eq_refl eq_refl eq_refl eq_refl eq_refl)).
Defined.

(** Without a CUDA tensor there is no synchronisation. *)
Lemma run_crash_detection_cpu :
  trace (repro_run Sample.env_ok (Sample.run_options "cpu" "") Sample.gm2
           Sample.la2 None) =
  [ EvLoadArgs NopInputReader;
    EvProgress 2;
    EvLoadArgs (InputReader (Val (Some "/tmp/repro")));
    EvExport Sample.gm2 [PTensor Sample.t44; PInt 4];
    EvSetIntermediateHooks;
    EvCompile Sample.gm2 [PTensor Sample.t44; PInt 4] None;
    EvAotLoad "/tmp/aoti/model.so" "cpu";
    EvCall (LoadedModel 1) [PTensor Sample.t44; PInt 4] ].
Proof. vm_compute. reflexivity. Qed.

(** [get_args] is the common path and nothing more. *)
Lemma repro_get_args_eq (env : Env) (o : options) (mod_ : GraphModule)
    (la : load_args_fn) (cp : config_patches_t) :
  repro_get_args env o mod_ la cp =
  (trace (repro_common env o mod_ la),
   match result (repro_common env o mod_ la) with
   | Ok (m, args) => Ok (RModArgs m args)
   | Raise e => Raise e
   end).
Proof.
  unfold repro_get_args.
  destruct (repro_common env o mod_ la) as [t [[m args] | e]]; cbn;
    rewrite ?app_nil_r; reflexivity.
Qed.

Lemma repro_common_with_device (env : Env) (o : options) (d : string)
    (mod_ : GraphModule) (la : load_args_fn) :
  repro_common env (with_device o d) mod_ la = repro_common env o mod_ la.
Proof. reflexivity. Qed.

Lemma repro_minify_unsupported (env : Env) (o : options) (mod_ : GraphModule)
    (la : load_args_fn) (cp : config_patches_t) (m : GraphModule)
    (args : list pyvalue) (d : string) :
  result (repro_common env o mod_ la) = Ok (m, args) →
  opt_device o = Val d →
  unsupported_device d = true →
  repro_minify env o mod_ la cp =
  (trace (repro_common env o mod_ la),
   Raise (unsupported_device_error d)).
Proof.
  intros H Hv Hd. unfold repro_minify.
  rewrite (Py_eta (repro_common env o mod_ la)), H, bind_ok.
  cbn beta iota. rewrite Hv, device_bind. unfold check_device. rewrite Hd.
  cbn. rewrite app_nil_r. reflexivity.
Qed.

(** C10.  [get_args] does not look at the device.  Whenever the
    common replay path yields a module and an argument tuple,
    [repro_get_args] returns that pair for every device string, with
    the trace of the common path alone; under a device that is
    neither "cpu" nor prefixed by "cuda", [repro_run] and
    [repro_minify] raise the unsupported-device error instead. *)
Theorem get_args_ignores_device (env : Env) (o : options) (mod_ : GraphModule)
    (la : load_args_fn) (cp : config_patches_t) (m : GraphModule)
    (args : list pyvalue) (d : string) :
  result (repro_common env o mod_ la) = Ok (m, args) →
  repro_get_args env (with_device o d) mod_ la cp =
    (trace (repro_common env o mod_ la), Ok (RModArgs m args)) ∧
  (unsupported_device d = true →
   result (repro_run env (with_device o d) mod_ la cp) =
     Raise (unsupported_device_error d) ∧
   result (repro_minify env (with_device o d) mod_ la cp) =
     Raise (unsupported_device_error d)).
Proof.
  intros H. split.
  - rewrite repro_get_args_eq, repro_common_with_device, H. reflexivity.
  - intros Hd. split.
    + rewrite (repro_run_unsupported env (with_device o d) mod_ la cp m args d);
        [reflexivity | rewrite repro_common_with_device; exact H
        | reflexivity | exact Hd].
    + rewrite (repro_minify_unsupported env (with_device o d) mod_ la cp m args d);
        [reflexivity | rewrite repro_common_with_device; exact H
        | reflexivity | exact Hd].
Qed.

Lemma get_args_ignores_device_tpu :
  result (repro_common Sample.env_ok (Sample.run_options "cpu" "") Sample.gm2
            Sample.la2) = Ok (Sample.gm2, [PTensor Sample.t44; PInt 4]) ∧
  unsupported_device "tpu" = true ∧
  result (repro_get_args Sample.env_ok
            (with_device (Sample.run_options "cpu" "") "tpu") Sample.gm2
            Sample.la2 None) =
    Ok (RModArgs Sample.gm2 [PTensor Sample.t44; PInt 4]) ∧
  result (repro_run Sample.env_ok
            (with_device (Sample.run_options "cpu" "") "tpu") Sample.gm2
            Sample.la2 None) = Raise (unsupported_device_error "tpu") ∧
  result (repro_minify Sample.env_ok
            (with_device (Sample.run_options "cpu" "") "tpu") Sample.gm2
            Sample.la2 None) = Raise (unsupported_device_error "tpu").
Proof.
  split; [reflexivity |]. split; [reflexivity |].
  pose (W := get_args_ignores_device Sample.env_ok (Sample.run_options "cpu" "")
               Sample.gm2 Sample.la2 None Sample.gm2 [PTensor Sample.t44; PInt 4]
               "tpu" eq_refl).
  exact (conj (f_equal snd (proj1 W)) (proj2 W eq_refl)).
Defined.

(** ** The input encoder *)

Lemma write_arg_encodable (placeholder : string) (v : pyvalue) :
  encodable v = true →
  ∃ s, write_arg placeholder v = ([], Ok s) ∧ statement_for placeholder v s.
Proof.
  destruct v; intros H; try discriminate; cbn; eexists; split; reflexivity.
Qed.

Lemma write_arg_rejects (placeholder : string) (v : pyvalue) :
  encodable v = false →
  write_arg placeholder v =
  ([], Raise (Exn TypeError
     [AStr ("arg is neither SymInt/int nor torch.Tensor, " +:+ str_of_value v)])).
Proof. destruct v; intros H; try discriminate; reflexivity. Qed.

(** The loop writes one statement per pair, after the lines already
    there, when every argument is of a kind it knows. *)
Lemma write_inputs_encodable (pairs : list (string * pyvalue)) (written : list stmt) :
  forallb (λ p, encodable p.2) pairs = true →
  ∃ stmts,
    write_inputs pairs written = ([], Ok (written ++ stmts)) ∧
    Forall2 (λ p s, statement_for p.1 p.2 s) pairs stmts.
Proof.
  revert written. induction pairs as [| [ph v] pairs IH]; intros written H.
  - exists []. rewrite app_nil_r. split; [reflexivity | constructor].
  - cbn in H. apply andb_true_iff in H as [Hv Hrest].
    destruct (write_arg_encodable ph v Hv) as (s & Es & Hs).
    destruct (IH (written ++ [s]) Hrest) as (stmts & Ew & Hf).
    exists (s :: stmts). split.
    + cbn [write_inputs]. rewrite Es, bind_ok, Ew. cbn.
      rewrite <- app_assoc. reflexivity.
    + constructor; assumption.
Qed.

(** It stops with [TypeError] at the first argument of another kind. *)
Lemma write_inputs_rejects (pairs : list (string * pyvalue)) (written : list stmt) :
  forallb (λ p, encodable p.2) pairs = false →
  ∃ e, write_inputs pairs written = ([], Raise e) ∧ exc_class_of e = TypeError.
Proof.
  revert written. induction pairs as [| [ph v] pairs IH]; intros written H.
  - discriminate.
  - cbn in H. cbn [write_inputs]. destruct (encodable v) eqn:Hv.
    + destruct (write_arg_encodable ph v Hv) as (s & Es & _).
      destruct (IH (written ++ [s]) H) as (e & Ee & Hc).
      exists e. rewrite Es, bind_ok, Ee. split; [reflexivity | exact Hc].
    + rewrite (write_arg_rejects ph v Hv). eexists. split; reflexivity.
Qed.

Lemma statement_for_name (placeholder : string) (v : pyvalue) (s : stmt) :
  statement_for placeholder v s → stmt_name s = placeholder.
Proof. destruct v; cbn; intros H; subst; try reflexivity; destruct H. Qed.

Lemma statement_for_read (placeholder : string) (v : pyvalue) (s : stmt) :
  statement_for placeholder v s → Reader.read s = captured_value v.
Proof.
  destruct v; cbn; intros H; subst; try reflexivity; try destruct H.
  destruct t; reflexivity.
Qed.

Lemma statements_names (pairs : list (string * pyvalue)) (stmts : list stmt) :
  Forall2 (λ p s, statement_for p.1 p.2 s) pairs stmts →
  map stmt_name stmts = map fst pairs.
Proof.
  induction 1 as [| p s pairs stmts H _ IH]; [reflexivity |].
  cbn. rewrite IH, (statement_for_name _ _ _ H). reflexivity.
Qed.

Lemma statements_read (pairs : list (string * pyvalue)) (stmts : list stmt) :
  Forall2 (λ p s, statement_for p.1 p.2 s) pairs stmts →
  Reader.args stmts = map (λ p, captured_value p.2) pairs.
Proof.
  induction 1 as [| p s pairs stmts H _ IH]; [reflexivity |].
  cbn. rewrite IH, (statement_for_read _ _ _ H). reflexivity.
Qed.

Lemma zip_fst {A B} (l : list A) (k : list B) :
  map fst (zip_ l k) = take (length k) l.
Proof.
  revert k. induction l as [| x l IH]; intros [| y k]; cbn; try reflexivity.
  rewrite IH. reflexivity.
Qed.

Lemma zip_snd {A B} (l : list A) (k : list B) :
  map snd (zip_ l k) = take (length l) k.
Proof.
  revert k. induction l as [| x l IH]; intros [| y k]; cbn; try reflexivity.
  rewrite IH. reflexivity.
Qed.

Lemma zip_encodable (l : list string) (k : list pyvalue) :
  forallb encodable k = true →
  forallb (λ p, encodable p.2) (zip_ l k) = true.
Proof.
  revert k. induction l as [| x l IH]; intros [| y k]; cbn; try reflexivity.
  intros H. apply andb_true_iff in H as [-> H]. apply IH, H.
Qed.

(** A float constant is not encoded: the loop raises [TypeError],
    here on its own and inside [generate_compiler_repro_string]. *)
Lemma float_constant_rejected :
  encodable (PFloat "2.5") = false ∧
  write_inputs (zip_ (fx_placeholder_targets Sample.gm_float) Sample.args_float) [] =
    ([], Raise (Exn TypeError
       [AStr "arg is neither SymInt/int nor torch.Tensor, 2.5"])) ∧
  result (generate_compiler_repro_string Sample.env_ok Sample.gm_float
            Sample.args_float None false (Some "/tmp/repro")) =
    Raise (Exn TypeError [AStr "arg is neither SymInt/int nor torch.Tensor, 2.5"]).
Proof. repeat split; vm_compute; reflexivity. Qed.

(** C7, as the code has it.  For the arguments paired with the
    placeholders of the graph: when each is a tensor, a plain or
    symbolic integer (a [bool] counts as one) or [None], the encode
    step succeeds and emits, in order, one statement per placeholder,
    [None] becoming the marker that carries the placeholder name and
    no payload; when some argument is another constant, a float or a
    string, the step raises [TypeError] and emits nothing. *)
Theorem encode_step_by_kind (placeholders : list string) (args : list pyvalue) :
  if forallb (λ p, encodable p.2) (zip_ placeholders args)
  then ∃ stmts,
         write_inputs (zip_ placeholders args) [] = ([], Ok stmts) ∧
         Forall2 (λ p s, statement_for p.1 p.2 s) (zip_ placeholders args) stmts
  else ∃ e,
         write_inputs (zip_ placeholders args) [] = ([], Raise e) ∧
         exc_class_of e = TypeError.
Proof.
  destruct (forallb (λ p, encodable p.2) (zip_ placeholders args)) eqn:H.
  - destruct (write_inputs_encodable _ [] H) as (stmts & E & F).
    exists stmts. split; assumption.
  - apply write_inputs_rejects, H.
Qed.

(** A tensor, [None] and an integer, in that order. *)
Lemma encode_step_tensor_none_int :
  write_inputs (zip_ (fx_placeholder_targets Sample.gm3) Sample.args3) [] =
  ([], Ok [ ReaderTensor "x" [4; 4] [4; 1] float32 Sample.cuda0 RandomFill;
            ReaderConst "c";
            ReaderSymint "n" 3 ]).
Proof. vm_compute. reflexivity. Qed.

Lemma os_path_join_some (d name : string) :
  ∃ path, os_path_join (Some d) name = ([], Ok path).
Proof.
  unfold os_path_join. destruct (String.eqb d ""); [eexists; reflexivity |].
  destruct (String.eqb _ "/"); eexists; reflexivity.
Qed.

(** What the encoder returns when the export and the save succeed
    and every argument is of a kind it knows. *)
Lemma generate_compiler_repro_string_ok (env : Env) (gm : GraphModule)
    (args : list pyvalue) (options_ : config_patches_t) (stable_output : bool)
    (save_dir : string) (ep : ExportedProgram) :
  forallb encodable args = true →
  export_ env gm args = Ok ep →
  (∀ path, export_save env ep path = Ok tt) →
  ∃ rs,
    result (generate_compiler_repro_string env gm args options_ stable_output
              (Some save_dir)) = Ok rs ∧
    la_version (rs_load_args rs) = Some 0 ∧
    Forall2 (λ p s, statement_for p.1 p.2 s)
            (zip_ (fx_placeholder_targets gm) args) (la_body (rs_load_args rs)).
Proof.
  intros Hk He Hs. unfold generate_compiler_repro_string, call.
  rewrite He, bind_ok.
  destruct (os_path_join_some save_dir "exported_program.pt2") as [path ->].
  rewrite bind_ok, Hs, bind_ok.
  destruct (write_inputs_encodable (zip_ (fx_placeholder_targets gm) args) []
              (zip_encodable _ _ Hk)) as (stmts & -> & F).
  rewrite bind_ok. eexists. cbn. split; [reflexivity |]. split; [reflexivity | exact F].
Qed.

(** C9.  Order is preserved from the graph to the call tuple.  For
    a graph and arguments of the kinds the encoder knows (tensors,
    integers, [None], in any arrangement), the statements of the
    generated [load_args] name the placeholders of the graph in their
    order, one per argument, and [repro_common], replaying them, puts
    the value of the i-th argument at position i of the tuple it
    exports with and returns.  (Pairing stops at the shorter of the
    two lists, which have the same length for the inputs of a
    graph.) *)
Theorem input_order_preserved (env : Env) (gm : GraphModule)
    (args : list pyvalue) (options_ : config_patches_t) (stable_output : bool)
    (save_dir : string) (ep : ExportedProgram)
    (env' : Env) (o : options) (mod_ : GraphModule) :
  forallb encodable args = true →
  export_ env gm args = Ok ep →
  (∀ path, export_save env ep path = Ok tt) →
  ∃ rs,
    result (generate_compiler_repro_string env gm args options_ stable_output
              (Some save_dir)) = Ok rs ∧
    map stmt_name (la_body (rs_load_args rs)) =
      take (length args) (fx_placeholder_targets gm) ∧
    let replayed :=
      map captured_value (take (length (fx_placeholder_targets gm)) args) in
    In (EvExport mod_ replayed) (trace (repro_common env' o mod_ (rs_load_args rs))) ∧
    result (repro_common env' o mod_ (rs_load_args rs)) =
      match export_ env' mod_ replayed with
      | Ok ep' => Ok (ep_module ep', replayed)
      | Raise e => Raise e
      end.
Proof.
  intros Hk He Hs.
  destruct (generate_compiler_repro_string_ok env gm args options_ stable_output
              save_dir ep Hk He Hs) as (rs & Hrs & _ & F).
  exists rs. split; [exact Hrs |].
  split; [rewrite (statements_names _ _ F); apply zip_fst |].
  assert (Reader.args (la_body (rs_load_args rs)) =
          map captured_value (take (length (fx_placeholder_targets gm)) args)) as E.
  { rewrite (statements_read _ _ F), <- zip_snd, map_map. reflexivity. }
  cbn zeta. rewrite <- E. split.
  - apply repro_common_exports.
  - apply repro_common_result.
Qed.

(** A tensor and a symbolic integer "s0" bound to 4: the replayed
    tuple has the tensor first and 4 second. *)
Lemma input_order_preserved_tensor_symint :
  forallb encodable Sample.args2 = true ∧
  ∃ rs,
    result (generate_compiler_repro_string Sample.env_ok Sample.gm2 Sample.args2
              None false (Some "/tmp/repro")) = Ok rs ∧
    map stmt_name (la_body (rs_load_args rs)) = ["arg0_1"; "s0"] ∧
    result (repro_common Sample.env_ok (Sample.run_options "cpu" "") Sample.gm2
              (rs_load_args rs)) =
      Ok (Sample.gm2, [PTensor Sample.t44; PInt 4]).
Proof.
  split; [reflexivity |].
  destruct (input_order_preserved Sample.env_ok Sample.gm2 Sample.args2 None false
              "/tmp/repro" (EP Sample.gm2) Sample.env_ok
              (Sample.run_options "cpu" "") Sample.gm2
              eq_refl eq_refl (λ _, eq_refl)) as (rs & H1 & H2 & _ & H4).
  exists rs. split; [exact H1 |]. split; [exact H2 | exact H4].
Defined.

(** ** The entry point *)

Lemma for_each_warnings (kwargs : list (string * pyvalue)) :
  for_each kwargs (λ k, log_warning (unrecognized_kwarg k.1)) =
  (map (λ k, EvWarning (unrecognized_kwarg k.1)) kwargs, Ok tt).
Proof.
  induction kwargs as [| k kwargs IH]; [reflexivity |].
  cbn [for_each]. rewrite IH. reflexivity.
Qed.

Lemma bind_after_events {B} (t : list event) (k : unit → Py B) :
  ((t, Ok tt) ≫= k) = (t ++ trace (mret tt ≫= k), result (mret tt ≫= k)).
Proof.
  rewrite bind_ok. unfold mret, Py_ret. rewrite bind_ok. reflexivity.
Qed.

(** C8.  Keyword arguments [run_repro] does not know are not fatal.
    Each is logged as a warning, in order, and the rest of the call
    (parsing, dispatch and the command) is, event for event and in
    its outcome, the call without them. *)
Theorem run_repro_unknown_kwargs (env : Env) (argv : list string)
    (mod_ : GraphModule) (la : load_args_fn) (cp : config_patches_t)
    (command : string) (accuracy : accuracy_arg)
    (save_dir tracing_mode check_str : option string)
    (kwargs : list (string * pyvalue)) :
  run_repro env argv mod_ la cp command accuracy save_dir tracing_mode check_str
    kwargs =
  ( map (λ k, EvWarning (unrecognized_kwarg k.1)) kwargs ++
      trace (run_repro env argv mod_ la cp command accuracy save_dir tracing_mode
               check_str []),
    result (run_repro env argv mod_ la cp command accuracy save_dir tracing_mode
              check_str []) ).
Proof.
  unfold run_repro. rewrite for_each_warnings. cbn [for_each].
  apply bind_after_events.
Qed.

(** A call with two unknown keywords: two warnings, then the [get_args]
    command as without them. *)
Lemma run_repro_two_unknown_kwargs :
  run_repro Sample.env_ok ["repro.py"] Sample.gm2 Sample.la2 None "get_args"
    (AccBool false) (Some "/tmp/repro") None None
    [("frobnicate", PInt 1); ("future_flag", PNone)] =
  ( [ EvWarning (unrecognized_kwarg "frobnicate");
      EvWarning (unrecognized_kwarg "future_flag");
      EvLoadArgs NopInputReader;
      EvProgress 2;
      EvLoadArgs (InputReader (Val (Some "/tmp/repro")));
      EvExport Sample.gm2 [PTensor Sample.t44; PInt 4];
      EvSetIntermediateHooks ],
    Ok (RModArgs Sample.gm2 [PTensor Sample.t44; PInt 4]) ).
Proof. vm_compute. reflexivity. Qed.

(** The parser accepts the subcommand [minifier-query]. *)
Lemma parse_minifier_query (top : help_text) (save_dir check_str : option string) :
  Argparse.parse_args top ["minifier-query"] save_dir check_str =
  ([], Ok (Options "minifier-query" (Val save_dir) (Val "cpu") Absent
             (Present (Val check_str)) Absent Absent Absent Absent)).
Proof. reflexivity. Qed.

(** C3.  What [run_repro] does with the command "minifier-query",
    given as the default command or on the command line: the parser
    accepts it, [COMMAND_FNS] has no entry for it, and the call ends
    in [KeyError('minifier-query')] before the repro is loaded,
    exported, compiled or run. *)
Theorem run_repro_minifier_query (env : Env) (script : string)
    (mod_ : GraphModule) (la : load_args_fn) (cp : config_patches_t)
    (command : string) (accuracy : accuracy_arg)
    (save_dir tracing_mode check_str : option string) :
  COMMAND_FNS !! "minifier-query" = None ∧
  run_repro env [script] mod_ la cp "minifier-query" accuracy save_dir
    tracing_mode check_str [] =
    ([], Raise (Exn KeyError [AStr "minifier-query"])) ∧
  run_repro env [script; "minifier-query"] mod_ la cp command accuracy save_dir
    tracing_mode check_str [] =
    ([], Raise (Exn KeyError [AStr "minifier-query"])).
Proof. repeat split; reflexivity. Qed.

(** The namespace [run_repro] builds for [run] has no [accuracy]
    attribute: the parser defines no option of that name, and the
    [accuracy] argument only reaches the help text.  A [run] started
    through [run_repro] therefore stops at [options.accuracy], after
    the artifact is loaded and before it is executed. *)
Lemma run_loaded_without_accuracy (env : Env) (o : options) (m : GraphModule)
    (c : loaded) (args : list pyvalue) :
  opt_accuracy o = Absent →
  run_loaded env o m c args =
  ([], Raise (Exn AttributeError
     [AStr "'Namespace' object has no attribute 'accuracy'"])).
Proof. intros H. unfold run_loaded. rewrite H. reflexivity. Qed.

(** [run_repro], by the outcome of the parse. *)
Lemma run_repro_eq (env : Env) (argv : list string)
    (mod_ : GraphModule) (la : load_args_fn) (cp : config_patches_t)
    (command : string) (accuracy : accuracy_arg)
    (save_dir tracing_mode check_str : option string)
    (kwargs : list (string * pyvalue)) :
  run_repro env argv mod_ la cp command accuracy save_dir tracing_mode check_str
    kwargs =
  let warnings := map (λ k, EvWarning (unrecognized_kwarg k.1)) kwargs in
  match Argparse.parse_top
          (TopHelp command (shown_accuracy accuracy) tracing_mode save_dir check_str)
          (parser_args argv command) save_dir check_str false with
  | Argparse.Parsed o =>
      match COMMAND_FNS !! opt_command o with
      | Some fn => (warnings ++ trace (fn env o mod_ la cp),
                    result (fn env o mod_ la cp))
      | None => (warnings, Raise (Exn KeyError [AStr (opt_command o)]))
      end
  | Argparse.ExitHelp h => (warnings ++ [EvPrintHelp h], Raise (Exn SystemExit [AInt 0]))
  | Argparse.ExitError => (warnings ++ [EvPrintUsage], Raise (Exn SystemExit [AInt 2]))
  end.
Proof.
  unfold run_repro. rewrite for_each_warnings, bind_ok.
  fold (shown_accuracy accuracy). fold (parser_args argv command).
  unfold Argparse.parse_args. cbn zeta.
  destruct (Argparse.parse_top _ _ _ _ _) as [o | h |].
  - unfold mret, Py_ret. rewrite bind_ok.
    destruct (COMMAND_FNS !! opt_command o) as [fn |]; cbn [trace result fst snd].
    + reflexivity.
    + cbn. rewrite app_nil_r. reflexivity.
  - reflexivity.
  - reflexivity.
Qed.

Lemma lookup_exact_In (tbl : list (string * Argparse.flag)) (s : string)
    (f : Argparse.flag) :
  Argparse.lookup_exact tbl s = Some f → In f (map snd tbl).
Proof.
  unfold Argparse.lookup_exact. destruct (List.find _ tbl) as [p |] eqn:E;
    [| discriminate].
  intros H. injection H as <-. apply List.find_some in E as [E _].
  apply in_map, E.
Qed.

Lemma omap_flags_In (tbl : list (string * Argparse.flag))
    (g : string * Argparse.flag → option (Argparse.flag * option string))
    (f : Argparse.flag) (e : option string) :
  (∀ p q, g p = Some q → q.1 = p.2) →
  In (f, e) (omap g tbl) → In f (map snd tbl).
Proof.
  intros Hg. induction tbl as [| p tbl IH]; cbn; [tauto |].
  destruct (g p) as [q |] eqn:E; cbn.
  - intros [Heq | H]; [| right; apply IH, H].
    left. pose proof (Hg p q E) as X. rewrite Heq in X. symmetry. exact X.
  - intros H. right. apply IH, H.
Qed.

Lemma option_tuples_In (tbl : list (string * Argparse.flag)) (tok : string)
    (f : Argparse.flag) (e : option string) :
  In (f, e) (Argparse.option_tuples tbl tok) → In f (map snd tbl).
Proof.
  unfold Argparse.option_tuples. destruct (String.prefix "--" tok).
  - destruct (match Argparse.split_eq tok with
              | Some (a, b) => (a, Some b)
              | None => (tok, None)
              end) as [pre ex].
    apply omap_flags_In. intros p q.
    destruct (String.prefix pre p.1); [| discriminate].
    intros H. injection H as <-. reflexivity.
  - apply omap_flags_In. intros p q.
    destruct (String.eqb p.1 _).
    + intros H. injection H as <-. reflexivity.
    + destruct (String.prefix tok p.1); [| discriminate].
      intros H. injection H as <-. reflexivity.
Qed.

(** The parser of a subcommand only ever fires the options it was
    given. *)
Lemma classify_In (tbl : list (string * Argparse.flag)) (tok : string)
    (f : Argparse.flag) (e : option string) :
  Argparse.classify tbl tok = Argparse.Optional_ f e → In f (map snd tbl).
Proof.
  unfold Argparse.classify. destruct tok as [| c tok]; [discriminate |].
  destruct (negb (Ascii.eqb c "-")); [discriminate |].
  destruct (Argparse.lookup_exact tbl (String c tok)) as [g |] eqn:E.
  { intros H. injection H as <- _. apply (lookup_exact_In _ _ _ E). }
  destruct (String.length (String c tok) =? 1)%nat; [discriminate |].
  destruct (Argparse.split_eq (String c tok)) as [[a b] |].
  - destruct (Argparse.lookup_exact tbl a) as [g |] eqn:E'.
    { intros H. injection H as <- _. apply (lookup_exact_In _ _ _ E'). }
    destruct (Argparse.option_tuples tbl (String c tok)) as [| [g ex] [| ? ?]] eqn:T.
    + destruct (Argparse.negative_number_like _); [discriminate |].
      destruct (PyStr.has_char _ _); discriminate.
    + intros H. injection H as <- <-.
      apply (option_tuples_In tbl (String c tok) g ex). rewrite T. left. reflexivity.
    + discriminate.
  - destruct (Argparse.option_tuples tbl (String c tok)) as [| [g ex] [| ? ?]] eqn:T.
    + destruct (Argparse.negative_number_like _); [discriminate |].
      destruct (PyStr.has_char _ _); discriminate.
    + intros H. injection H as <- <-.
      apply (option_tuples_In tbl (String c tok) g ex). rewrite T. left. reflexivity.
    + discriminate.
Qed.

(** What holds of the namespace before the options are read, and is
    kept by every option of the subcommand, holds of the namespace
    the subcommand returns. *)
Lemma consume_invariant (P : options → Prop) (command : string)
    (tbl : list (string * Argparse.flag)) :
  (∀ f v o o', In f (map snd tbl) → P o → Argparse.store f v o = Some o' → P o') →
  (∀ f o, In f (map snd tbl) → P o → P (Argparse.store_const f o)) →
  ∀ (n : nat) toks o extras o',
    (length toks ≤ n)%nat → P o →
    Argparse.consume command tbl toks o extras = Argparse.Parsed o' → P o'.
Proof.
  intros Hstore Hconst. induction n as [| n IH]; intros toks o extras o' Hlen HP.
  - destruct toks; [| cbn in Hlen; lia].
    cbn. destruct extras; [discriminate |]. intros H. injection H as <-. exact HP.
  - destruct toks as [| tok rest].
    { cbn. destruct extras; [discriminate |]. intros H. injection H as <-. exact HP. }
    cbn in Hlen. cbn [Argparse.consume].
    destruct (String.eqb tok "--"); [discriminate |].
    destruct (Argparse.classify tbl tok) as [| f ex | |] eqn:C.
    + apply IH; [lia | exact HP].
    + pose proof (classify_In tbl tok f ex C) as Hin.
      destruct (Argparse.takes_value f).
      * destruct ex as [v |].
        -- destruct (Argparse.store f v o) as [o1 |] eqn:S; [| discriminate].
           apply IH; [lia | apply (Hstore f v o o1 Hin HP S)].
        -- destruct rest as [| v rest']; [discriminate |].
           destruct (String.eqb v "--"); [discriminate |].
           destruct (Argparse.classify tbl v); try discriminate.
           destruct (Argparse.store f v o) as [o1 |] eqn:S; [| discriminate].
           apply IH; [cbn in Hlen; lia | apply (Hstore f v o o1 Hin HP S)].
      * destruct (negb _); [discriminate |].
        destruct f; try discriminate;
          (apply IH; [lia | apply (Hconst _ o Hin HP)]).
    + discriminate.
    + apply IH; [lia | exact HP].
Qed.

Ltac shape_cases H :=
  let Hacc := fresh "Hacc" in
  let Hs := fresh "Hs" in
  let Hc := fresh "Hc" in
  destruct H as [[Hacc Hs] Hc];
  destruct Hs as [(Hcmd & H1 & H2 & H3 & H4 & H5)
                 | [(Hcmd & H1 & H2 & H3 & H4 & H5)
                   | (Hcmd & H1 & H2 & H3 & H4 & H5)]];
  rewrite Hc in Hcmd; try (destruct Hcmd; discriminate); try discriminate.

Ltac shape_solve :=
  unfold namespace_shape; cbn;
  split; [split; [assumption |] | assumption];
  first
    [ left; repeat split; eauto; fail
    | right; left; repeat split; eauto; fail
    | right; right; repeat split; eauto; fail ].

Lemma store_keeps_shape (c : string) (flags : list Argparse.flag)
    (f : Argparse.flag) (v : string) (o o' : options) :
  In (c, flags) Argparse.subparsers →
  In f (map snd (Argparse.table flags)) →
  namespace_shape o ∧ opt_command o = c →
  Argparse.store f v o = Some o' →
  namespace_shape o' ∧ opt_command o' = c.
Proof.
  intros Hsub Hin HP Hst. cbn in Hsub.
  destruct Hsub as [E | [E | [E | [E | []]]]]; injection E as <- <-;
    cbn in Hin; repeat (destruct Hin as [<- | Hin]); try destruct Hin;
    cbn [Argparse.store] in Hst;
    try (destruct (Argparse.get_values _ v) as [x |]; cbn in Hst;
         [| discriminate]);
    injection Hst as <-;
    shape_cases HP; try (exact (conj (conj Hacc ltac:(tauto)) Hc)); shape_solve.
Qed.

Lemma store_const_keeps_shape (c : string) (flags : list Argparse.flag)
    (f : Argparse.flag) (o : options) :
  In (c, flags) Argparse.subparsers →
  In f (map snd (Argparse.table flags)) →
  namespace_shape o ∧ opt_command o = c →
  namespace_shape (Argparse.store_const f o) ∧
  opt_command (Argparse.store_const f o) = c.
Proof.
  intros Hsub Hin HP. cbn in Hsub.
  destruct Hsub as [E | [E | [E | [E | []]]]]; injection E as <- <-;
    cbn in Hin; repeat (destruct Hin as [<- | Hin]); try destruct Hin;
    try exact HP; shape_cases HP; shape_solve.
Qed.

Lemma defaults_shape (c : string) (flags : list Argparse.flag)
    (save_dir check_str : option string) :
  In (c, flags) Argparse.subparsers →
  namespace_shape (Argparse.defaults c flags save_dir check_str) ∧
  opt_command (Argparse.defaults c flags save_dir check_str) = c.
Proof.
  intros Hsub. cbn in Hsub.
  destruct Hsub as [E | [E | [E | [E | []]]]]; injection E as <- <-;
    (split; [| reflexivity]); unfold namespace_shape; vm_compute;
    (split; [reflexivity |]).
  - left. repeat split; eauto.
  - right. left. repeat split; eauto.
  - left. repeat split; eauto.
  - right. right. repeat split; eauto.
Qed.

Lemma parse_sub_shape (c : string) (flags : list Argparse.flag)
    (toks : list string) (save_dir check_str : option string) (o : options) :
  In (c, flags) Argparse.subparsers →
  Argparse.parse_sub c flags toks save_dir check_str = Argparse.Parsed o →
  namespace_shape o ∧ opt_command o = c.
Proof.
  intros Hsub. unfold Argparse.parse_sub.
  destruct (Argparse.ambiguous_before_dashes _ _); [discriminate |].
  apply (consume_invariant (λ o, namespace_shape o ∧ opt_command o = c) c
           (Argparse.table flags)
           (λ f v o1 o2 Hin, store_keeps_shape c flags f v o1 o2 Hsub Hin)
           (λ f o1 Hin, store_const_keeps_shape c flags f o1 Hsub Hin)
           (length toks) toks _ false o (le_n _)).
  apply defaults_shape, Hsub.
Qed.

Lemma parse_top_shape (top : help_text) (toks : list string)
    (save_dir check_str : option string) (extras : bool) (o : options) :
  Argparse.parse_top top toks save_dir check_str extras = Argparse.Parsed o →
  namespace_shape o.
Proof.
  revert extras. induction toks as [| tok rest IH]; intros extras; [discriminate |].
  cbn [Argparse.parse_top].
  destruct (String.eqb tok "--"); [discriminate |].
  destruct (Argparse.classify _ tok) as [| f ex | |].
  - destruct (List.find _ Argparse.subparsers) as [[c flags] |] eqn:F;
      [| discriminate].
    apply List.find_some in F as [Hsub _].
    destruct (Argparse.parse_sub c flags rest save_dir check_str) as [o1 | |] eqn:S;
      try discriminate.
    destruct extras; [discriminate |]. intros H. injection H as <-.
    apply (parse_sub_shape c flags rest save_dir check_str o1 Hsub S).
  - destruct (match ex with Some e => _ | None => true end); discriminate.
  - discriminate.
  - apply IH.
Qed.

(** Without an [accuracy] attribute [run] cannot get past
    [options.accuracy]: whatever the collaborators do, it ends in an
    exception, and its trace holds the common path, at most one
    compilation and at most one load. *)
Lemma repro_run_without_accuracy_events (env : Env) (o : options)
    (mod_ : GraphModule) (la : load_args_fn) (cp : config_patches_t)
    (p : event → bool) :
  opt_accuracy o = Absent →
  (∀ s, p (EvWarning s) = false) →
  (∀ r, p (EvLoadArgs r) = false) →
  (∀ n, p (EvProgress n) = false) →
  (∀ m a, p (EvExport m a) = false) →
  p EvSetIntermediateHooks = false →
  (∀ m a c, p (EvCompile m a c) = false) →
  (∀ s d, p (EvAotLoad s d) = false) →
  List.filter p (trace (repro_run env o mod_ la cp)) = [] ∧
  ∃ e, result (repro_run env o mod_ la cp) = Raise e.
Proof.
  intros Ha Hw Hl Hp He Hs Hcomp Hload.
  pose proof (repro_common_no_backend env o mod_ la p Hw Hl Hp He Hs) as Hc.
  destruct (result (repro_common env o mod_ la)) as [[m args] | e] eqn:H.
  - assert (∃ t e,
              repro_run env o mod_ la cp =
                (trace (repro_common env o mod_ la) ++ t, Raise e) ∧
              List.filter p t = []) as (t & e & -> & Ht).
    { unfold repro_run.
      rewrite (Py_eta (repro_common env o mod_ la)), H, bind_ok.
      cbn beta iota. destruct (opt_device o) as [d |];
        [rewrite device_bind | cbn; eexists _, _; split; reflexivity].
      unfold check_device, compile_and_load, call.
      destruct (unsupported_device d); cbn;
        [eexists _, _; split; reflexivity |].
      destruct (compile_fx_aot env m args cp) as [so_path | e]; cbn;
        [| eexists _, _; split; [reflexivity | cbn; rewrite Hcomp; reflexivity]].
      destruct (aot_load env so_path d) as [[h | s] | e]; cbn;
        try (eexists _, _; split;
             [reflexivity | cbn; rewrite Hcomp, Hload; reflexivity]).
      rewrite (run_loaded_without_accuracy env o m (LoadedModel h) args Ha).
      eexists _, _; split; [reflexivity | cbn; rewrite Hcomp, Hload; reflexivity]. }
    cbn [trace result fst snd]. rewrite List.filter_app, Hc, Ht.
    split; [reflexivity | eexists; reflexivity].
  - rewrite (repro_run_common_raises env o mod_ la cp e H).
    cbn [trace result fst snd]. split; [exact Hc | eexists; reflexivity].
Qed.

Lemma repro_run_without_accuracy (env : Env) (o : options) (mod_ : GraphModule)
    (la : load_args_fn) (cp : config_patches_t) :
  opt_accuracy o = Absent →
  List.filter is_execution (trace (repro_run env o mod_ la cp)) = [] ∧
  ∃ e, result (repro_run env o mod_ la cp) = Raise e.
Proof.
  intros Ha. apply repro_run_without_accuracy_events; try exact Ha; reflexivity.
Qed.

(** With the artifact compiled and loaded, the exception is the
    [AttributeError] of [options.accuracy]. *)
Lemma repro_run_without_accuracy_loaded (env : Env) (o : options)
    (mod_ : GraphModule) (la : load_args_fn) (cp : config_patches_t)
    (m : GraphModule) (args : list pyvalue) (so_path : string) (h : N) (d : string) :
  opt_accuracy o = Absent →
  result (repro_common env o mod_ la) = Ok (m, args) →
  opt_device o = Val d →
  unsupported_device d = false →
  compile_fx_aot env m args cp = Ok so_path →
  aot_load env so_path d = Ok (LoadedModel h) →
  repro_run env o mod_ la cp =
  (trace (repro_common env o mod_ la) ++ [EvCompile m args cp; EvAotLoad so_path d],
   Raise (Exn AttributeError
     [AStr "'Namespace' object has no attribute 'accuracy'"])).
Proof.
  intros Ha H Hv Hd Hc Hl.
  rewrite (repro_run_loaded env o mod_ la cp m args so_path h d H Hv Hd Hc Hl).
  rewrite (run_loaded_without_accuracy env o m (LoadedModel h) args Ha).
  cbn [trace result fst snd]. rewrite app_nil_r. reflexivity.
Qed.

(** A command line that selects [run] reaches [repro_run] with the
    namespace the parser built, which has no [accuracy]. *)
Lemma run_repro_parsed_run (env : Env) (argv : list string)
    (mod_ : GraphModule) (la : load_args_fn) (cp : config_patches_t)
    (command : string) (accuracy : accuracy_arg)
    (save_dir tracing_mode check_str : option string)
    (kwargs : list (string * pyvalue)) (o : options) :
  Argparse.parse_top
    (TopHelp command (shown_accuracy accuracy) tracing_mode save_dir check_str)
    (parser_args argv command) save_dir check_str false = Argparse.Parsed o →
  opt_command o = "run" →
  opt_accuracy o = Absent ∧
  run_repro env argv mod_ la cp command accuracy save_dir tracing_mode check_str
    kwargs =
  (map (λ k, EvWarning (unrecognized_kwarg k.1)) kwargs ++
     trace (repro_run env o mod_ la cp),
   result (repro_run env o mod_ la cp)).
Proof.
  intros P Hc. split.
  - apply (parse_top_shape _ _ _ _ _ _ P).
  - rewrite run_repro_eq. cbn zeta. rewrite P, Hc. reflexivity.
Qed.

Lemma filter_warnings (p : event → bool) (kwargs : list (string * pyvalue)) :
  (∀ s, p (EvWarning s) = false) →
  List.filter p (map (λ k, EvWarning (unrecognized_kwarg k.1)) kwargs) = [].
Proof.
  intros Hw. induction kwargs as [| k kwargs IH]; [reflexivity |].
  cbn. rewrite Hw. exact IH.
Qed.

(** C4.  The [run] command as [run_repro] starts it never compares.
    The parser defines no option [accuracy] and the [accuracy]
    argument of [run_repro] only reaches the help text, so the
    namespace of every command line that selects [run] lacks the
    attribute: whatever accuracy mode is asked for, no comparison of
    the uncompiled module with the compiled artifact takes place, the
    command ends in an exception, and once the artifact is compiled
    and loaded that exception is the [AttributeError] of
    [options.accuracy], not an [AccuracyError]. *)
Theorem run_repro_run_never_compares (env : Env) (argv : list string)
    (mod_ : GraphModule) (la : load_args_fn) (cp : config_patches_t)
    (command : string) (accuracy : accuracy_arg)
    (save_dir tracing_mode check_str : option string)
    (kwargs : list (string * pyvalue)) (o : options) :
  Argparse.parse_top
    (TopHelp command (shown_accuracy accuracy) tracing_mode save_dir check_str)
    (parser_args argv command) save_dir check_str false = Argparse.Parsed o →
  opt_command o = "run" →
  List.filter is_comparison
    (trace (run_repro env argv mod_ la cp command accuracy save_dir tracing_mode
              check_str kwargs)) = [] ∧
  (∃ e, result (run_repro env argv mod_ la cp command accuracy save_dir
                  tracing_mode check_str kwargs) = Raise e) ∧
  ∀ m args d so_path h,
    result (repro_common env o mod_ la) = Ok (m, args) →
    opt_device o = Val d →
    unsupported_device d = false →
    compile_fx_aot env m args cp = Ok so_path →
    aot_load env so_path d = Ok (LoadedModel h) →
    run_repro env argv mod_ la cp command accuracy save_dir tracing_mode
      check_str kwargs =
    (map (λ k, EvWarning (unrecognized_kwarg k.1)) kwargs ++
       trace (repro_common env o mod_ la) ++
       [EvCompile m args cp; EvAotLoad so_path d],
     Raise (Exn AttributeError
       [AStr "'Namespace' object has no attribute 'accuracy'"])).
Proof.
  intros P Hc.
  destruct (run_repro_parsed_run env argv mod_ la cp command accuracy save_dir
              tracing_mode check_str kwargs o P Hc) as [Ha ->].
  cbn [trace result fst snd].
  destruct (repro_run_without_accuracy_events env o mod_ la cp is_comparison Ha)
    as [Hf He]; try reflexivity.
  split; [| split; [exact He |]].
  - rewrite List.filter_app, Hf, filter_warnings by reflexivity. reflexivity.
  - intros m args d so_path h H Hv Hd Hcomp Hl.
    rewrite (repro_run_without_accuracy_loaded env o mod_ la cp m args so_path h d
               Ha H Hv Hd Hcomp Hl).
    reflexivity.
Qed.

(** The generated call
    [run_repro(mod, load_args, accuracy=True, command='run',
    save_dir='/tmp/repro')], on an artifact that disagrees with the
    module: the [AttributeError], and no [AccuracyError]. *)
Lemma run_repro_run_never_compares_mismatch :
  Argparse.parse_top
    (TopHelp "run" (shown_accuracy (AccBool true)) None (Some "/tmp/repro") None)
    (parser_args ["repro.py"] "run") (Some "/tmp/repro") None false =
    Argparse.Parsed (Argparse.defaults "run" Argparse.common_flags
                       (Some "/tmp/repro") None) ∧
  run_repro Sample.env_mismatch ["repro.py"] Sample.gm2 Sample.la2 None
    "run" (AccBool true) (Some "/tmp/repro") None None [] =
  ( [ EvLoadArgs NopInputReader;
      EvProgress 2;
      EvLoadArgs (InputReader (Val (Some "/tmp/repro")));
      EvExport Sample.gm2 [PTensor Sample.t44; PInt 4];
      EvSetIntermediateHooks;
      EvCompile Sample.gm2 [PTensor Sample.t44; PInt 4] None;
      EvAotLoad "/tmp/aoti/model.so" "cpu" ],
    Raise (Exn AttributeError
      [AStr "'Namespace' object has no attribute 'accuracy'"]) ).
Proof.
  split; [reflexivity |].
  exact (proj2 (proj2
    (run_repro_run_never_compares Sample.env_mismatch ["repro.py"] Sample.gm2
       Sample.la2 None "run" (AccBool true) (Some "/tmp/repro") None None []
       (Argparse.defaults "run" Argparse.common_flags (Some "/tmp/repro") None)
       eq_refl eq_refl))
    Sample.gm2 [PTensor Sample.t44; PInt 4] "cpu" "/tmp/aoti/model.so" 1%N
    eq_refl eq_refl eq_refl eq_refl eq_refl).
Defined.

(** C5.  The [run] command as [run_repro] starts it never executes
    the artifact.  For every command line that selects [run], and
    every accuracy mode, the empty one included, the trace holds no
    execution of the compiled artifact and no device synchronisation,
    and the command ends in an exception; once the artifact is
    compiled and loaded, the command stops right after the load with
    the [AttributeError] of [options.accuracy]. *)
Theorem run_repro_run_never_executes (env : Env) (argv : list string)
    (mod_ : GraphModule) (la : load_args_fn) (cp : config_patches_t)
    (command : string) (accuracy : accuracy_arg)
    (save_dir tracing_mode check_str : option string)
    (kwargs : list (string * pyvalue)) (o : options) :
  Argparse.parse_top
    (TopHelp command (shown_accuracy accuracy) tracing_mode save_dir check_str)
    (parser_args argv command) save_dir check_str false = Argparse.Parsed o →
  opt_command o = "run" →
  List.filter is_execution
    (trace (run_repro env argv mod_ la cp command accuracy save_dir tracing_mode
              check_str kwargs)) = [] ∧
  List.filter is_synchronize
    (trace (run_repro env argv mod_ la cp command accuracy save_dir tracing_mode
              check_str kwargs)) = [] ∧
  (∃ e, result (run_repro env argv mod_ la cp command accuracy save_dir
                  tracing_mode check_str kwargs) = Raise e) ∧
  ∀ m args d so_path h,
    result (repro_common env o mod_ la) = Ok (m, args) →
    opt_device o = Val d →
    unsupported_device d = false →
    compile_fx_aot env m args cp = Ok so_path →
    aot_load env so_path d = Ok (LoadedModel h) →
    run_repro env argv mod_ la cp command accuracy save_dir tracing_mode
      check_str kwargs =
    (map (λ k, EvWarning (unrecognized_kwarg k.1)) kwargs ++
       trace (repro_common env o mod_ la) ++
       [EvCompile m args cp; EvAotLoad so_path d],
     Raise (Exn AttributeError
       [AStr "'Namespace' object has no attribute 'accuracy'"])).
Proof.
  intros P Hc.
  destruct (run_repro_parsed_run env argv mod_ la cp command accuracy save_dir
              tracing_mode check_str kwargs o P Hc) as [Ha ->].
  cbn [trace result fst snd].
  destruct (repro_run_without_accuracy_events env o mod_ la cp is_execution Ha)
    as [Hf He]; try reflexivity.
  destruct (repro_run_without_accuracy_events env o mod_ la cp is_synchronize Ha)
    as [Hs _]; try reflexivity.
  split; [| split; [| split; [exact He |]]].
  - rewrite List.filter_app, Hf, filter_warnings by reflexivity. reflexivity.
  - rewrite List.filter_app, Hs, filter_warnings by reflexivity. reflexivity.
  - intros m args d so_path h H Hv Hd Hcomp Hl.
    rewrite (repro_run_without_accuracy_loaded env o mod_ la cp m args so_path h d
               Ha H Hv Hd Hcomp Hl).
    reflexivity.
Qed.

(** The generated call [run_repro(mod, load_args, command='run',
    save_dir='/tmp/repro')] in crash-detection mode, with a CUDA
    tensor among the inputs and collaborators that all succeed: the
    artifact is compiled and loaded, and neither executed nor
    followed by a synchronisation. *)
Lemma run_repro_run_never_executes_cuda :
  Argparse.parse_top
    (TopHelp "run" (shown_accuracy (AccStr "")) None (Some "/tmp/repro") None)
    (parser_args ["repro.py"] "run") (Some "/tmp/repro") None false =
    Argparse.Parsed (Argparse.defaults "run" Argparse.common_flags
                       (Some "/tmp/repro") None) ∧
  existsb tensor_on_cuda [PTensor Sample.t44_cuda; PNone; PInt 3] = true ∧
  run_repro Sample.env_ok ["repro.py"] Sample.gm3 Sample.la3 None "run"
    (AccStr "") (Some "/tmp/repro") None None [] =
  ( [ EvLoadArgs NopInputReader;
      EvProgress 3;
      EvLoadArgs (InputReader (Val (Some "/tmp/repro")));
      EvExport Sample.gm3 [PTensor Sample.t44_cuda; PNone; PInt 3];
      EvSetIntermediateHooks;
      EvCompile Sample.gm3 [PTensor Sample.t44_cuda; PNone; PInt 3] None;
      EvAotLoad "/tmp/aoti/model.so" "cpu" ],
    Raise (Exn AttributeError
      [AStr "'Namespace' object has no attribute 'accuracy'"]) ).
Proof.
  split; [reflexivity |]. split; [reflexivity |].
  exact (proj2 (proj2 (proj2
    (run_repro_run_never_executes Sample.env_ok ["repro.py"] Sample.gm3
       Sample.la3 None "run" (AccStr "") (Some "/tmp/repro") None None []
       (Argparse.defaults "run" Argparse.common_flags (Some "/tmp/repro") None)
       eq_refl eq_refl)))
    Sample.gm3 [PTensor Sample.t44_cuda; PNone; PInt 3] "cpu"
    "/tmp/aoti/model.so" 1%N eq_refl eq_refl eq_refl eq_refl eq_refl).
Defined.

(** * Further properties *)

(** ** More on the failure oracle *)

Lemma module_fails_eq (env : Env) (cp : config_patches_t) (d : string)
    (gm : GraphModule) (inputs : list pyvalue)
    (check_str : argval (option string)) :
  module_fails env cp d gm inputs check_str =
  (trace (module_fails_try env cp d gm inputs),
   match result (module_fails_try env cp d gm inputs) with
   | Ok _ => Ok false
   | Raise e =>
       if is_Exception (exc_class_of e) then
         match check_str with
         | Val None => Ok true
         | Val (Some s) => Ok (PyStr.contains s (repr_exn e))
         | EmptyList =>
             Raise (Exn TypeError
               [AStr "'in <string>' requires string as left operand, not list"])
         end
       else Raise e
   end).
Proof.
  unfold module_fails, try_except_Exception.
  pose proof (module_fails_try_no_true env cp d gm inputs) as Hno.
  destruct (module_fails_try env cp d gm inputs) as [t [b | e]]; cbn in *.
  - rewrite (Hno b eq_refl). reflexivity.
  - destruct (is_Exception (exc_class_of e)); [| reflexivity].
    destruct check_str as [[s |] |]; cbn; rewrite ?app_nil_r; try reflexivity.
    destruct (PyStr.contains s (repr_exn e)); cbn; rewrite ?app_nil_r; reflexivity.
Qed.

Lemma module_fails_try_trace (env : Env) (cp : config_patches_t) (d : string)
    (gm : GraphModule) (inputs : list pyvalue) :
  trace (module_fails_try env cp d gm inputs) =
  EvCompile gm inputs cp ::
  match compile_fx_aot env gm inputs cp with
  | Raise _ => []
  | Ok so_path =>
      EvAotLoad so_path d ::
      match aot_load env so_path d with
      | Ok (LoadedModel h) => [EvCall (LoadedModel h) inputs]
      | _ => []
      end
  end.
Proof.
  unfold module_fails_try, compile_and_load, call_loaded, call.
  destruct (compile_fx_aot env gm inputs cp) as [p | e]; [| reflexivity].
  cbn. destruct (aot_load env p d) as [[h | s] | e]; try reflexivity.
  cbn. destruct (run_model env h inputs) as [[] | e]; reflexivity.
Qed.


(** A [KeyboardInterrupt] in the artifact is not turned into a
    verdict. *)
Lemma module_fails_interrupted :
  result (module_fails Sample2.env_interrupted None "cpu" Sample.gm2 Sample.args2
            (Val None)) = Raise (Exn KeyboardInterrupt []).
Proof. reflexivity. Qed.

(** X2.  One call of [module_fails] compiles once, loads at most once
    and runs the artifact at most once, in that order, and does
    nothing else: no synchronisation, no comparison; the filter adds
    no effect. *)
Theorem module_fails_effects (env : Env) (cp : config_patches_t) (d : string)
    (gm : GraphModule) (inputs : list pyvalue)
    (check_str : argval (option string)) :
  trace (module_fails env cp d gm inputs check_str) =
  EvCompile gm inputs cp ::
  match compile_fx_aot env gm inputs cp with
  | Raise _ => []
  | Ok so_path =>
      EvAotLoad so_path d ::
      match aot_load env so_path d with
      | Ok (LoadedModel h) => [EvCall (LoadedModel h) inputs]
      | _ => []
      end
  end.
Proof. rewrite module_fails_eq. apply module_fails_try_trace. Qed.

Lemma contains_empty (hay : string) : PyStr.contains "" hay = true.
Proof. unfold PyStr.contains. destruct (PyStr.code_points hay); reflexivity. Qed.

(** X3.  An empty [check_str] filters nothing: [module_fails] with
    the filter [""] is [module_fails] without filter. *)
Theorem module_fails_empty_filter (env : Env) (cp : config_patches_t)
    (d : string) (gm : GraphModule) (inputs : list pyvalue) :
  module_fails env cp d gm inputs (Val (Some "")) =
  module_fails env cp d gm inputs (Val None).
Proof.
  rewrite !module_fails_eq. f_equal.
  destruct (result (module_fails_try env cp d gm inputs)) as [b | e]; [reflexivity |].
  rewrite contains_empty. reflexivity.
Qed.

Lemma attempt_raises_try (env : Env) (cp : config_patches_t) (d : string)
    (gm : GraphModule) (inputs : list pyvalue) (e : exn) :
  attempt_raises env cp d gm inputs e ↔
  result (module_fails_try env cp d gm inputs) = Raise e.
Proof.
  rewrite module_fails_try_result. unfold attempt_raises.
  destruct (compile_fx_aot env gm inputs cp) as [p | e1];
    [| split; congruence].
  destruct (aot_load env p d) as [[h | s] | e1]; try (split; congruence).
  destruct (run_model env h inputs) as [[] | e1]; split; try congruence.
  intros [].
Qed.

(** X4.  With a filter, the verdict is [True] exactly when compiling
    the graph, loading the shared object or running the artifact
    raised an [Exception] in whose [repr] the characters of the
    filter occur in a row. *)
Theorem module_fails_filter_substring (env : Env) (cp : config_patches_t)
    (d : string) (gm : GraphModule) (inputs : list pyvalue) (s : string) :
  result (module_fails env cp d gm inputs (Val (Some s))) = Ok true ↔
  ∃ e pre post,
    attempt_raises env cp d gm inputs e ∧
    is_Exception (exc_class_of e) = true ∧
    PyStr.code_points (repr_exn e) = pre ++ PyStr.code_points s ++ post.
Proof.
  rewrite module_fails_eq. cbn [result snd]. split.
  - destruct (result (module_fails_try env cp d gm inputs)) as [b | e] eqn:R;
      [discriminate |].
    destruct (is_Exception (exc_class_of e)) eqn:E; [| discriminate].
    intros H. injection H as H. apply contains_spec in H as (pre & post & H).
    exists e, pre, post. split; [apply attempt_raises_try, R |].
    split; [exact E | exact H].
  - intros (e & pre & post & R & E & H).
    apply attempt_raises_try in R. rewrite R, E.
    f_equal. apply contains_spec. exists pre, post. exact H.
Qed.

(** A message with a no-break space, which [repr] writes [\xa0]: the
    filter [\xa0], four characters, is found in the [repr], and the
    character itself is not. *)
Lemma module_fails_filter_escaped :
  let nbsp := String (ascii_of_N 194) (String (ascii_of_N 160) EmptyString) in
  let env := with_run_model Sample.env_ok
               (λ _ _, Raise (Exn RuntimeError [AStr ("bad" +:+ nbsp +:+ "value")])) in
  repr_exn (Exn RuntimeError [AStr ("bad" +:+ nbsp +:+ "value")]) =
    "RuntimeError('bad\xa0value')" ∧
  result (module_fails env None "cpu" Sample.gm2 Sample.args2
            (Val (Some "\xa0"))) = Ok true ∧
  result (module_fails env None "cpu" Sample.gm2 Sample.args2
            (Val (Some nbsp))) = Ok false.
Proof. repeat split; vm_compute; reflexivity. Qed.

(** X5.  A filter only narrows: what fails under a filter fails
    without it. *)
Theorem module_fails_filter_narrows (env : Env) (cp : config_patches_t)
    (d : string) (gm : GraphModule) (inputs : list pyvalue) (s : string) :
  result (module_fails env cp d gm inputs (Val (Some s))) = Ok true →
  result (module_fails env cp d gm inputs (Val None)) = Ok true.
Proof.
  rewrite !module_fails_eq. cbn [result snd].
  destruct (result (module_fails_try env cp d gm inputs)) as [b | e];
    [discriminate |].
  destruct (is_Exception (exc_class_of e)); [reflexivity | discriminate].
Qed.

Lemma module_fails_filter_narrows_kernel_launch :
  result (module_fails Sample.env_kernel_launch None "cpu" Sample.gm2 Sample.args2
            (Val (Some "kernel launch"))) = Ok true ∧
  result (module_fails Sample.env_kernel_launch None "cpu" Sample.gm2 Sample.args2
            (Val None)) = Ok true.
Proof.
  split; [reflexivity |].
  exact (module_fails_filter_narrows Sample.env_kernel_launch None "cpu"
           Sample.gm2 Sample.args2 "kernel launch" eq_refl).
Defined.

(** ** More on the common path and on [get_args] *)

(** X6.  [repro_common] switches the intermediate-hooks flag of the
    compiler on exactly when it returns: an export that raises leaves
    the flag alone. *)
Theorem hooks_set_iff_common_returns (env : Env) (o : options)
    (mod_ : GraphModule) (la : load_args_fn) :
  In EvSetIntermediateHooks (trace (repro_common env o mod_ la)) ↔
  ∃ m args, result (repro_common env o mod_ la) = Ok (m, args).
Proof.
  rewrite repro_common_trace, repro_common_result, check_version_trace.
  destruct (export_ env mod_ (Reader.args (la_body la))) as [ep | e]; split.
  - intros _. eexists _, _. reflexivity.
  - intros _. apply in_or_app. right. apply in_or_app. right. left. reflexivity.
  - intros H. exfalso. apply in_app_or in H as [H | H].
    + destruct (la_version la) as [v |]; [destruct (0 <? v) |]; cbn in H;
        intuition discriminate.
    + rewrite app_nil_r in H. cbn in H. intuition discriminate.
  - intros (m & args & H). discriminate.
Qed.

(** X7.  [get_args] reaches no backend: it never compiles, loads,
    runs, compares, synchronises or minimises, and [config_patches]
    has no influence on it. *)
Theorem get_args_no_backend (env : Env) (o : options) (mod_ : GraphModule)
    (la : load_args_fn) (cp cp' : config_patches_t) :
  List.filter is_backend (trace (repro_get_args env o mod_ la cp)) = [] ∧
  repro_get_args env o mod_ la cp = repro_get_args env o mod_ la cp'.
Proof.
  split; [| reflexivity].
  rewrite repro_get_args_eq. cbn [trace fst].
  apply repro_common_no_backend; reflexivity.
Qed.

(** ** More on the [run] command *)

(** X8.  The devices [run] and [minify] accept are "cpu" and every
    string that begins with "cuda" (so "cuda:1", and also "cudax");
    any other string, "CPU" or "cpu:0" for instance, is rejected. *)
Theorem supported_devices (d : string) :
  unsupported_device d = false ↔ d = "cpu" ∨ ∃ rest, d = "cuda" +:+ rest.
Proof.
  unfold unsupported_device, PyStr.startswith. split.
  - intros H. apply andb_false_iff in H as [H | H];
      apply negb_false_iff in H.
    + left. apply String.eqb_eq, H.
    + right. apply prefix_true_app, H.
  - intros [-> | [rest ->]]; [reflexivity |].
    rewrite prefix_app. apply andb_false_r.
Qed.

Lemma supported_devices_examples :
  unsupported_device "cuda:1" = false ∧ unsupported_device "cudax" = false ∧
  unsupported_device "CPU" = true ∧ unsupported_device "cpu:0" = true ∧
  unsupported_device "" = true.
Proof. repeat split. Qed.

(** X9.  If the loader hands back a string, [run] stops at its
    assertion, right after the load: nothing reads the accuracy mode
    and nothing is executed. *)
Theorem run_asserts_loaded_model (env : Env) (o : options) (mod_ : GraphModule)
    (la : load_args_fn) (cp : config_patches_t) (m : GraphModule)
    (args : list pyvalue) (so_path s d : string) :
  result (repro_common env o mod_ la) = Ok (m, args) →
  opt_device o = Val d →
  unsupported_device d = false →
  compile_fx_aot env m args cp = Ok so_path →
  aot_load env so_path d = Ok (LoadedStr s) →
  repro_run env o mod_ la cp =
  (trace (repro_common env o mod_ la) ++
     [EvCompile m args cp; EvAotLoad so_path d],
   Raise (Exn AssertionError [])).
Proof.
  intros H Hv Hd Hc Hl. unfold repro_run.
  rewrite (Py_eta (repro_common env o mod_ la)), H, bind_ok.
  cbn beta iota. rewrite Hv, device_bind.
  unfold check_device, compile_and_load, call. rewrite Hd, Hc.
  cbn. rewrite Hl. reflexivity.
Qed.

Lemma run_asserts_loaded_model_sample :
  result (repro_run Sample2.env_loads_string (Sample.run_options "cpu" "")
            Sample.gm2 Sample.la2 None) = Raise (Exn AssertionError []).
Proof.
  exact (f_equal snd
    (run_asserts_loaded_model Sample2.env_loads_string (Sample.run_options "cpu" "")
       Sample.gm2 Sample.la2 None Sample.gm2 [PTensor Sample.t44; PInt 4]
       "/tmp/aoti/model.so" "/tmp/aoti/model.so" "cpu"
       eq_refl eq_refl eq_refl eq_refl eq_refl)).
Defined.

(** X10.  The loop that decides on the synchronisation answers yes
    exactly when some argument is a tensor on a CUDA device, wherever
    it stands in the tuple. *)
Theorem need_sync_iff_cuda_tensor (args : list pyvalue) :
  need_sync_of args = true ↔ ∃ t, In (PTensor t) args ∧ is_cuda t = true.
Proof.
  rewrite need_sync_of_existsb, existsb_exists. split.
  - intros (v & Hin & Hv). destruct v; try discriminate.
    exists t. split; assumption.
  - intros (t & Hin & Ht). exists (PTensor t). split; assumption.
Qed.

Lemma run_loaded_nonempty_accuracy (env : Env) (o : options) (m : GraphModule)
    (c : loaded) (args : list pyvalue) (a : string) :
  opt_accuracy o = Present a → a ≠ "" →
  run_loaded env o m c args =
  (same ← call (EvSameTwoModels m c args true (repro_ignore_non_fp env))
               (same_two_models env m c args true (repro_ignore_non_fp env));
   if negb same
   then raise (Exn AccuracyError [AStr "Bad accuracy detected"])
   else mret RNone).
Proof.
  intros Ha Hne. unfold run_loaded. rewrite Ha.
  unfold getattr, mret, Py_ret. rewrite bind_ok.
  destruct (String.eqb_spec a "") as [-> | _]; [congruence |].
  cbn [negb]. destruct (_ ≫= _) as [t r]. reflexivity.
Qed.

(** X11.  [run] does not tell one accuracy mode from another: with
    any two non-empty modes, "accuracy" and "strict_accuracy" say, it
    behaves the same. *)
Theorem run_accuracy_modes_alike (env : Env) (o : options) (mod_ : GraphModule)
    (la : load_args_fn) (cp : config_patches_t) (a a' : string) :
  a ≠ "" → a' ≠ "" →
  repro_run env (with_accuracy o a) mod_ la cp =
  repro_run env (with_accuracy o a') mod_ la cp.
Proof.
  intros Ha Ha'.
  assert (∀ m c args, run_loaded env (with_accuracy o a) m c args =
                      run_loaded env (with_accuracy o a') m c args) as E.
  { intros m c args.
    rewrite (run_loaded_nonempty_accuracy env (with_accuracy o a) m c args a eq_refl Ha).
    rewrite (run_loaded_nonempty_accuracy env (with_accuracy o a') m c args a' eq_refl Ha').
    reflexivity. }
  unfold repro_run.
  change (repro_common env (with_accuracy o a) mod_ la)
    with (repro_common env o mod_ la).
  change (repro_common env (with_accuracy o a') mod_ la)
    with (repro_common env o mod_ la).
  change (opt_device (with_accuracy o a)) with (opt_device o).
  change (opt_device (with_accuracy o a')) with (opt_device o).
  destruct (repro_common env o mod_ la) as [t [[m args] | e]]; [| reflexivity].
  rewrite !bind_ok. cbn beta iota.
  destruct (opt_device o) as [d |]; [rewrite !device_bind | reflexivity].
  destruct (check_device d) as [t1 [[] | e1]]; [| reflexivity].
  rewrite !bind_ok.
  destruct (compile_and_load env m args cp d) as [t2 [c | e2]];
    [| reflexivity].
  rewrite !bind_ok.
  destruct (assert_not_str c) as [t3 [[] | e3]]; [| reflexivity].
  rewrite !bind_ok, E. reflexivity.
Qed.

Lemma run_accuracy_modes_alike_sample :
  "accuracy" ≠ "" ∧ "strict_accuracy" ≠ "" ∧
  repro_run Sample.env_mismatch (with_accuracy (Sample.run_options "cpu" "") "accuracy")
    Sample.gm2 Sample.la2 None =
  repro_run Sample.env_mismatch
    (with_accuracy (Sample.run_options "cpu" "") "strict_accuracy")
    Sample.gm2 Sample.la2 None.
Proof.
  assert (∀ c s, String c s ≠ "") as ne by (intros c s H; discriminate H).
  split; [apply ne |]. split; [apply ne |].
  exact (run_accuracy_modes_alike Sample.env_mismatch (Sample.run_options "cpu" "")
           Sample.gm2 Sample.la2 None "accuracy" "strict_accuracy"
           (ne _ _) (ne _ _)).
Defined.

(** X12.  The same failure of the compiler is handled in two ways:
    [run] lets the exception out as it is, and the oracle of [minify]
    turns it into the verdict [True]. *)
Theorem compile_failure_run_and_oracle (env : Env) (o : options)
    (mod_ : GraphModule) (la : load_args_fn) (cp : config_patches_t)
    (m : GraphModule) (args : list pyvalue) (e : exn) (d : string) :
  result (repro_common env o mod_ la) = Ok (m, args) →
  opt_device o = Val d →
  unsupported_device d = false →
  compile_fx_aot env m args cp = Raise e →
  is_Exception (exc_class_of e) = true →
  repro_run env o mod_ la cp =
    (trace (repro_common env o mod_ la) ++ [EvCompile m args cp], Raise e) ∧
  module_fails env cp d m args (Val None) =
    ([EvCompile m args cp], Ok true).
Proof.
  intros H Hv Hd Hc He. split.
  - unfold repro_run.
    rewrite (Py_eta (repro_common env o mod_ la)), H, bind_ok.
    cbn beta iota. rewrite Hv, device_bind.
    unfold check_device, compile_and_load, call. rewrite Hd, Hc.
    reflexivity.
  - rewrite module_fails_eq, module_fails_try_trace, module_fails_try_result, Hc, He.
    reflexivity.
Qed.

Lemma compile_failure_run_and_oracle_sample :
  result (repro_run Sample2.env_compile_fails (Sample.run_options "cpu" "")
            Sample.gm2 Sample.la2 None) =
    Raise (Exn (OtherException "CppCompileError") [AStr "C++ compile error"]) ∧
  result (module_fails Sample2.env_compile_fails None "cpu" Sample.gm2
            [PTensor Sample.t44; PInt 4] (Val None)) = Ok true.
Proof.
  pose (W := compile_failure_run_and_oracle Sample2.env_compile_fails
               (Sample.run_options "cpu" "") Sample.gm2 Sample.la2 None
               Sample.gm2 [PTensor Sample.t44; PInt 4]
               (Exn (OtherException "CppCompileError") [AStr "C++ compile error"])
               "cpu" eq_refl eq_refl eq_refl eq_refl eq_refl).
  exact (conj (f_equal snd (proj1 W)) (f_equal snd (proj2 W))).
Defined.

(** ** More on the [minify] command *)

Lemma repro_minify_present (env : Env) (o : options) (mod_ : GraphModule)
    (la : load_args_fn) (cp : config_patches_t) (m : GraphModule)
    (args : list pyvalue) (check_str : argval (option string))
    (skip_offload offload skip_sanity : bool) (granularity : argval (option Z))
    (d : string) :
  result (repro_common env o mod_ la) = Ok (m, args) →
  opt_device o = Val d →
  unsupported_device d = false →
  opt_check_str o = Present check_str →
  opt_offload_to_disk o = Present offload →
  opt_skip_saving_eager_intermediates o = Present skip_offload →
  opt_skip_sanity o = Present skip_sanity →
  opt_max_granularity o = Present granularity →
  let k := Knobs (opt_save_dir o) offload skip_offload skip_sanity granularity in
  let oracle := λ gm inputs, module_fails env cp d gm inputs check_str in
  repro_minify env o mod_ la cp =
  (trace (repro_common env o mod_ la) ++
     EvMinifier m args k :: trace (minifier env m args oracle k),
   match result (minifier env m args oracle k) with
   | Ok _ => Ok RNone
   | Raise e => Raise e
   end).
Proof.
  intros H Hv Hd H1 H2 H3 H4 H5 k oracle. unfold repro_minify.
  rewrite (Py_eta (repro_common env o mod_ la)), H, bind_ok.
  cbn beta iota. rewrite Hv, device_bind.
  unfold check_device. rewrite Hd, H1, H2, H3, H4, H5.
  cbn. fold k. fold oracle.
  destruct (minifier env m args oracle k) as [t [[] | e]]; cbn;
    rewrite ?app_nil_r; reflexivity.
Qed.

(** X13.  With a supported device, [minify] hands the minifier the
    re-exported module and the decoded inputs, the oracle bound to
    the device and the [check_str] of the options, and the save
    directory and the four knobs of the options; it returns [None]
    when the minifier returns and raises what the minifier raises. *)
Theorem minify_hands_over (env : Env) (o : options) (mod_ : GraphModule)
    (la : load_args_fn) (cp : config_patches_t) (m : GraphModule)
    (args : list pyvalue) (check_str : argval (option string))
    (skip_offload offload skip_sanity : bool) (granularity : argval (option Z))
    (d : string) :
  result (repro_common env o mod_ la) = Ok (m, args) →
  opt_device o = Val d →
  unsupported_device d = false →
  opt_check_str o = Present check_str →
  opt_offload_to_disk o = Present offload →
  opt_skip_saving_eager_intermediates o = Present skip_offload →
  opt_skip_sanity o = Present skip_sanity →
  opt_max_granularity o = Present granularity →
  let k := Knobs (opt_save_dir o) offload skip_offload skip_sanity granularity in
  let oracle := λ gm inputs, module_fails env cp d gm inputs check_str in
  repro_minify env o mod_ la cp =
  (trace (repro_common env o mod_ la) ++
     EvMinifier m args k :: trace (minifier env m args oracle k),
   match result (minifier env m args oracle k) with
   | Ok _ => Ok RNone
   | Raise e => Raise e
   end).
Proof.
  intros H Hv Hd H1 H2 H3 H4 H5.
  apply (repro_minify_present env o mod_ la cp m args check_str skip_offload
           offload skip_sanity granularity d H Hv Hd H1 H2 H3 H4 H5).
Qed.

Lemma minify_hands_over_sample :
  repro_minify Sample.env_kernel_launch
    (Sample2.minify_options "cuda:0" (Some "kernel launch")) Sample.gm2 Sample.la2
    None =
  ( [ EvLoadArgs NopInputReader;
      EvProgress 2;
      EvLoadArgs (InputReader (Val (Some "/tmp/repro")));
      EvExport Sample.gm2 [PTensor Sample.t44; PInt 4];
      EvSetIntermediateHooks;
      EvMinifier Sample.gm2 [PTensor Sample.t44; PInt 4]
        (Knobs (Val (Some "/tmp/repro")) false false false (Val None));
      EvCompile Sample.gm2 [PTensor Sample.t44; PInt 4] None;
      EvAotLoad "/tmp/aoti/model.so" "cuda:0";
      EvCall (LoadedModel 1) [PTensor Sample.t44; PInt 4] ],
    Ok RNone ).
Proof.
  exact (minify_hands_over Sample.env_kernel_launch
           (Sample2.minify_options "cuda:0" (Some "kernel launch")) Sample.gm2
           Sample.la2 None Sample.gm2 [PTensor Sample.t44; PInt 4]
           (Val (Some "kernel launch")) false false false (Val None) "cuda:0"
           eq_refl eq_refl eq_refl eq_refl eq_refl eq_refl eq_refl eq_refl).
Defined.

(** ** More on the entry point and its parser *)

(** X14.  Whatever the command line, a namespace the parser returns
    has the attributes of its subcommand and no others: [accuracy]
    never; [check_str] for [minify] and [minifier-query]; the knobs
    of the minifier for [minify] alone.  Its command is one of the
    four subcommands, and [COMMAND_FNS] lacks exactly
    [minifier-query]. *)
Theorem parsed_namespace (top : help_text) (args : list string)
    (save_dir check_str : option string) (o : options) :
  Argparse.parse_args top args save_dir check_str = ([], Ok o) →
  namespace_shape o ∧
  (COMMAND_FNS !! opt_command o = None ↔ opt_command o = "minifier-query").
Proof.
  unfold Argparse.parse_args.
  destruct (Argparse.parse_top top args save_dir check_str false) as [o1 | |] eqn:P;
    try discriminate.
  intros H. injection H as <-.
  pose proof (parse_top_shape top args save_dir check_str false o1 P) as S.
  split; [exact S |].
  destruct S as [_ [([-> | ->] & _) | [(-> & _) | (-> & _)]]];
    split; intros H; try reflexivity; try discriminate H.
Qed.

Lemma parsed_namespace_minify :
  Argparse.parse_args (TopHelp "run" "" None None None)
    ["minify"; "--skip-sanity"; "--max-granularity"; "4"] None (Some "boom") =
    ([], Ok (Options "minify" (Val None) (Val "cpu") Absent
               (Present (Val (Some "boom")))
               (Present false) (Present false) (Present true)
               (Present (Val (Some 4))))) ∧
  namespace_shape
    (Options "minify" (Val None) (Val "cpu") Absent (Present (Val (Some "boom")))
       (Present false) (Present false) (Present true) (Present (Val (Some 4)))).
Proof.
  split; [reflexivity |].
  exact (proj1 (parsed_namespace (TopHelp "run" "" None None None)
                  ["minify"; "--skip-sanity"; "--max-granularity"; "4"] None
                  (Some "boom") _ eq_refl)).
Defined.

Lemma getattr_result {A B} (name : string) (a : attr A) (k : A → Py B) (r : B) :
  result (getattr name a ≫= k) = Ok r → ∃ x, a = Present x ∧ result (k x) = Ok r.
Proof.
  destruct a as [| x]; [discriminate |].
  unfold getattr, mret, Py_ret. rewrite bind_ok. cbn [result snd].
  intros H. exists x. split; [reflexivity | exact H].
Qed.

(** When [minify] returns, it returns [None]. *)
Lemma repro_minify_returns_none (env : Env) (o : options) (mod_ : GraphModule)
    (la : load_args_fn) (cp : config_patches_t) (r : cmd_result) :
  result (repro_minify env o mod_ la cp) = Ok r → r = RNone.
Proof.
  unfold repro_minify. rewrite result_bind.
  destruct (result (repro_common env o mod_ la)) as [[m args] | e]; [| discriminate].
  rewrite result_bind.
  destruct (result (device_str (opt_device o))) as [d | e]; [| discriminate].
  rewrite result_bind.
  destruct (result (check_device d)) as [[] | e]; [| discriminate].
  intros H.
  apply getattr_result in H as (c & _ & H).
  apply getattr_result in H as (b1 & _ & H).
  apply getattr_result in H as (b2 & _ & H).
  apply getattr_result in H as (b3 & _ & H).
  apply getattr_result in H as (g & _ & H).
  rewrite result_bind in H. cbn [result emit snd] in H.
  rewrite result_bind in H.
  destruct (result (minifier env m args _ _)) as [[] | e]; [| discriminate].
  cbn in H. congruence.
Qed.

(** X15.  The only ways [run_repro] returns: the parsed command is
    [get_args] and the result is the pair of the common path, or it
    is [minify] and the result is [None].  In particular a parsed
    [run] never returns (its namespace has no [accuracy]), and
    neither does [minifier-query]. *)
Theorem run_repro_returns (env : Env) (argv : list string)
    (mod_ : GraphModule) (la : load_args_fn) (cp : config_patches_t)
    (command : string) (accuracy : accuracy_arg)
    (save_dir tracing_mode check_str : option string)
    (kwargs : list (string * pyvalue)) (r : cmd_result) :
  result (run_repro env argv mod_ la cp command accuracy save_dir tracing_mode
            check_str kwargs) = Ok r →
  ∃ o,
    Argparse.parse_top
      (TopHelp command (shown_accuracy accuracy) tracing_mode save_dir check_str)
      (parser_args argv command) save_dir check_str false = Argparse.Parsed o ∧
    (opt_command o = "get_args" ∧
       (∃ m args, r = RModArgs m args ∧
                  result (repro_common env o mod_ la) = Ok (m, args))
     ∨ opt_command o = "minify" ∧ r = RNone).
Proof.
  rewrite run_repro_eq. cbn zeta.
  destruct (Argparse.parse_top _ _ _ _ _) as [o | h |] eqn:P; try discriminate.
  intros H. exists o. split; [reflexivity |].
  pose proof (parse_top_shape _ _ _ _ _ _ P) as S.
  destruct S as [Hacc [([Hc | Hc] & _) | [(Hc & _) | (Hc & _)]]];
    rewrite Hc in H |- *.
  - change (COMMAND_FNS !! "run") with (Some repro_run) in H.
    cbn [result snd] in H.
    destruct (repro_run_without_accuracy env o mod_ la cp Hacc) as (_ & e & E).
    rewrite E in H. discriminate.
  - change (COMMAND_FNS !! "get_args") with (Some repro_get_args) in H.
    cbn [result snd] in H. rewrite repro_get_args_eq in H. cbn [result snd] in H.
    left. split; [reflexivity |].
    destruct (result (repro_common env o mod_ la)) as [[m args] | e];
      [| discriminate].
    exists m, args. split; congruence.
  - change (COMMAND_FNS !! "minify") with (Some repro_minify) in H.
    cbn [result snd] in H.
    right. split; [reflexivity | apply (repro_minify_returns_none _ _ _ _ _ _ H)].
  - change (COMMAND_FNS !! "minifier-query") with (@None command_fn) in H.
    discriminate.
Qed.

Lemma run_repro_returns_get_args :
  result (run_repro Sample.env_ok ["repro.py"; "get_args"] Sample.gm2 Sample.la2
            None "run" (AccBool false) (Some "/tmp/repro") None None []) =
    Ok (RModArgs Sample.gm2 [PTensor Sample.t44; PInt 4]) ∧
  ∃ o,
    Argparse.parse_top (TopHelp "run" "" None (Some "/tmp/repro") None)
      ["get_args"] (Some "/tmp/repro") None false = Argparse.Parsed o ∧
    (opt_command o = "get_args" ∧
       (∃ m args, RModArgs Sample.gm2 [PTensor Sample.t44; PInt 4] = RModArgs m args ∧
                  result (repro_common Sample.env_ok o Sample.gm2 Sample.la2) =
                    Ok (m, args))
     ∨ opt_command o = "minify" ∧
       RModArgs Sample.gm2 [PTensor Sample.t44; PInt 4] = RNone).
Proof.
  split; [reflexivity |].
  exact (run_repro_returns Sample.env_ok ["repro.py"; "get_args"] Sample.gm2
           Sample.la2 None "run" (AccBool false) (Some "/tmp/repro") None None []
           (RModArgs Sample.gm2 [PTensor Sample.t44; PInt 4]) eq_refl).
Defined.

Lemma run_repro_after_parse (env : Env) (argv : list string)
    (mod_ : GraphModule) (la : load_args_fn) (cp : config_patches_t)
    (command : string) (accuracy : accuracy_arg)
    (save_dir tracing_mode check_str : option string)
    (kwargs : list (string * pyvalue)) :
  run_repro env argv mod_ la cp command accuracy save_dir tracing_mode check_str
    kwargs =
  after_parse env mod_ la cp
    (map (λ k, EvWarning (unrecognized_kwarg k.1)) kwargs)
    (Argparse.parse_top
       (TopHelp command (shown_accuracy accuracy) tracing_mode save_dir check_str)
       (parser_args argv command) save_dir check_str false).
Proof. apply run_repro_eq. Qed.







Lemma classify_value (tbl : list (string * Argparse.flag)) (d : string) :
  String.prefix "-" d = false → Argparse.classify tbl d = Argparse.Positional.
Proof.
  intros H. destruct d as [| c d]; [reflexivity |].
  unfold Argparse.classify. cbn in H.
  destruct (Ascii.ascii_dec "-" c) as [<- | ne].
  - destruct d; discriminate.
  - destruct (Ascii.eqb_spec c "-") as [-> | _]; [congruence | reflexivity].
Qed.

Lemma not_dashes (d : string) :
  String.prefix "-" d = false → String.eqb d "--" = false.
Proof.
  intros H. destruct (String.eqb_spec d "--") as [-> | _];
    [discriminate | reflexivity].
Qed.

(** [<command> --device d], for a value that does not start with a
    dash, is the namespace of the command with that device. *)
Lemma parse_device (top : help_text) (cmd d : string) (flags : list Argparse.flag)
    (save_dir check_str : option string) :
  String.prefix "-" d = false →
  In (cmd, flags) Argparse.subparsers →
  Argparse.parse_top top [cmd; "--device"; d] save_dir check_str false =
  Argparse.Parsed (with_device (Argparse.defaults cmd flags save_dir check_str) d).
Proof.
  intros H Hsub.
  pose proof (not_dashes d H) as N. cbn in Hsub.
  destruct Hsub as [E | [E | [E | [E | []]]]]; injection E as <- <-.
  all: match goal with
       | |- Argparse.parse_top _ (?c :: _) _ _ _ =
            Argparse.Parsed (with_device (Argparse.defaults _ ?fl _ _) _) =>
           pose proof (classify_value (Argparse.table fl) d H) as C2;
           assert (Argparse.classify (Argparse.table fl) "--device" =
                   Argparse.Optional_ Argparse.FDevice None) as C1
             by (vm_compute; reflexivity);
           change (Argparse.parse_top top [c; "--device"; d] save_dir check_str false)
             with (match Argparse.parse_sub c fl ["--device"; d] save_dir check_str with
                   | Argparse.Parsed o => Argparse.Parsed o
                   | other => other
                   end)
       end.
  all: unfold Argparse.parse_sub;
       cbn [Argparse.ambiguous_before_dashes Argparse.consume];
       change (String.eqb "--device" "--") with false; cbn iota;
       rewrite C1, N, C2; cbn [Argparse.takes_value Argparse.store];
       unfold Argparse.get_values; rewrite N; reflexivity.
Qed.

(** X18.  A device given on the command line reaches the device
    check: [run --device d] and [minify --device d], for a [d] that
    is neither "cpu" nor prefixed by "cuda", do the common replay
    path and then raise the unsupported-device error (or what the
    export raised); nothing is compiled. *)
Theorem device_from_command_line (env : Env) (script d : string)
    (mod_ : GraphModule) (la : load_args_fn) (cp : config_patches_t)
    (command cmd : string) (accuracy : accuracy_arg)
    (save_dir tracing_mode check_str : option string) :
  String.prefix "-" d = false →
  unsupported_device d = true →
  cmd = "run" ∨ cmd = "minify" →
  let r := run_repro env [script; cmd; "--device"; d] mod_ la cp command accuracy
             save_dir tracing_mode check_str [] in
  List.filter is_backend (trace r) = [] ∧
  result r =
    match export_ env mod_ (Reader.args (la_body la)) with
    | Ok _ => Raise (unsupported_device_error d)
    | Raise e => Raise e
    end.
Proof.
  intros H Hd Hcmd. cbn zeta. rewrite run_repro_after_parse.
  change (parser_args [script; cmd; "--device"; d] command)
    with [cmd; "--device"; d].
  destruct Hcmd as [-> | ->].
  - rewrite (parse_device _ "run" d Argparse.common_flags save_dir check_str H)
      by (cbn; tauto).
    set (o := with_device (Argparse.defaults "run" Argparse.common_flags save_dir
                             check_str) d).
    unfold after_parse. change (COMMAND_FNS !! opt_command o) with (Some repro_run).
    cbn [map app]. pose proof (repro_common_result env o mod_ la) as R.
    destruct (export_ env mod_ (Reader.args (la_body la))) as [ep | e].
    + rewrite (repro_run_unsupported env o mod_ la cp _ _ d R eq_refl Hd).
      cbn [trace result fst snd]. split; [| reflexivity].
      apply repro_common_no_backend; reflexivity.
    + rewrite (repro_run_common_raises env o mod_ la cp e R).
      cbn [trace result fst snd]. split; [| reflexivity].
      apply repro_common_no_backend; reflexivity.
  - rewrite (parse_device _ "minify" d _ save_dir check_str H)
      by (cbn; right; left; reflexivity).
    match goal with
    | |- context [Argparse.Parsed ?x] => set (o := x)
    end.
    unfold after_parse. change (COMMAND_FNS !! opt_command o) with (Some repro_minify).
    cbn [map app]. pose proof (repro_common_result env o mod_ la) as R.
    destruct (export_ env mod_ (Reader.args (la_body la))) as [ep | e].
    + rewrite (repro_minify_unsupported env o mod_ la cp _ _ d R eq_refl Hd).
      cbn [trace result fst snd]. split; [| reflexivity].
      apply repro_common_no_backend; reflexivity.
    + assert (repro_minify env o mod_ la cp =
              (trace (repro_common env o mod_ la), Raise e)) as ->.
      { unfold repro_minify.
        rewrite (Py_eta (repro_common env o mod_ la)), R. reflexivity. }
      cbn [trace result fst snd]. split; [| reflexivity].
      apply repro_common_no_backend; reflexivity.
Qed.

Lemma device_from_command_line_tpu :
  result (run_repro Sample.env_ok ["repro.py"; "run"; "--device"; "tpu"] Sample.gm2
            Sample.la2 None "run" (AccBool false) (Some "/tmp/repro") None None []) =
  Raise (unsupported_device_error "tpu").
Proof.
  exact (proj2 (device_from_command_line Sample.env_ok "repro.py" "tpu" Sample.gm2
                  Sample.la2 None "run" "run" (AccBool false) (Some "/tmp/repro")
                  None None eq_refl eq_refl (or_introl eq_refl))).
Defined.

(** X19.  Started without command-line arguments, a script whose
    default command is [minify] calls the minifier with the defaults
    of the parser: device "cpu", no offload to disk, eager
    intermediates saved, sanity check on, no granularity, and the
    [save_dir] and [check_str] given to [run_repro], the latter bound
    into the oracle. *)
Theorem minify_defaults (env : Env) (script : string)
    (mod_ : GraphModule) (la : load_args_fn) (cp : config_patches_t)
    (accuracy : accuracy_arg) (save_dir tracing_mode check_str : option string)
    (ep : ExportedProgram) :
  export_ env mod_ (Reader.args (la_body la)) = Ok ep →
  let m := ep_module ep in
  let args := Reader.args (la_body la) in
  let k := Knobs (Val save_dir) false false false (Val None) in
  let oracle := λ gm inputs, module_fails env cp "cpu" gm inputs (Val check_str) in
  run_repro env [script] mod_ la cp "minify" accuracy save_dir tracing_mode
    check_str [] =
  (trace (check_version la) ++
     [ EvLoadArgs NopInputReader;
       EvProgress (length (la_body la));
       EvLoadArgs (InputReader (Val save_dir));
       EvExport mod_ args;
       EvSetIntermediateHooks ] ++
     EvMinifier m args k :: trace (minifier env m args oracle k),
   match result (minifier env m args oracle k) with
   | Ok _ => Ok RNone
   | Raise e => Raise e
   end).
Proof.
  intros He m args k oracle. subst m args. rewrite run_repro_after_parse.
  set (o := Options "minify" (Val save_dir) (Val "cpu") Absent
              (Present (Val check_str))
              (Present false) (Present false) (Present false) (Present (Val None))).
  change (Argparse.parse_top _ (parser_args [script] "minify") save_dir check_str false)
    with (Argparse.Parsed o).
  unfold after_parse. change (COMMAND_FNS !! opt_command o) with (Some repro_minify).
  cbn [map app].
  assert (result (repro_common env o mod_ la) =
          Ok (ep_module ep, Reader.args (la_body la))) as R
    by (rewrite repro_common_result, He; reflexivity).
  rewrite (repro_minify_present env o mod_ la cp _ _ (Val check_str) false false
             false (Val None) "cpu" R eq_refl eq_refl eq_refl eq_refl eq_refl
             eq_refl eq_refl).
  cbn zeta. rewrite repro_common_trace, He.
  unfold common_events. subst o k oracle. cbn [opt_save_dir opt_device Reader.total].
  rewrite <- !app_assoc. reflexivity.
Qed.

Lemma minify_defaults_sample :
  result (run_repro Sample.env_kernel_launch ["repro.py"] Sample.gm2 Sample.la2 None
            "minify" (AccBool false) (Some "/tmp/repro") None (Some "segfault") []) =
  Ok RNone.
Proof.
  exact (f_equal snd
    (minify_defaults Sample.env_kernel_launch "repro.py" Sample.gm2 Sample.la2 None
       (AccBool false) (Some "/tmp/repro") None (Some "segfault") (EP Sample.gm2)
       eq_refl)).
Defined.

(** X20.  [--no-save-dir] overrides the save directory the script was
    generated with: after it, [get_args], [run] and [minify] behave
    as if [run_repro] had been given no [save_dir]. *)
Theorem no_save_dir_overrides (env : Env) (script cmd : string)
    (mod_ : GraphModule) (la : load_args_fn) (cp : config_patches_t)
    (command : string) (accuracy : accuracy_arg)
    (save_dir tracing_mode check_str : option string)
    (kwargs : list (string * pyvalue)) :
  cmd = "get_args" ∨ cmd = "run" ∨ cmd = "minify" →
  run_repro env [script; cmd; "--no-save-dir"] mod_ la cp command accuracy
    save_dir tracing_mode check_str kwargs =
  run_repro env [script; cmd; "--no-save-dir"] mod_ la cp command accuracy
    None tracing_mode check_str kwargs.
Proof.
  intros [-> | [-> | ->]]; rewrite !run_repro_after_parse; reflexivity.
Qed.

Lemma no_save_dir_overrides_get_args :
  trace (run_repro Sample.env_ok ["repro.py"; "get_args"; "--no-save-dir"]
           Sample.gm2 Sample.la2 None "run" (AccBool false) (Some "/tmp/repro")
           None None []) =
  [ EvLoadArgs NopInputReader;
    EvProgress 2;
    EvLoadArgs (InputReader (Val None));
    EvExport Sample.gm2 [PTensor Sample.t44; PInt 4];
    EvSetIntermediateHooks ].
Proof.
  rewrite (no_save_dir_overrides Sample.env_ok "repro.py" "get_args" Sample.gm2
             Sample.la2 None "run" (AccBool false) (Some "/tmp/repro") None None []
             (or_introl eq_refl)).
  reflexivity.
Defined.

(** An option given the value [--] after an equals sign stores the
    empty list, whatever its type. *)
Lemma parse_explicit_dashes :
  Argparse.parse_top (TopHelp "run" "" None None None)
    ["minify"; "--device=--"; "--max-granularity=--"; "--check-str=--";
     "--save-dir=--"] None None false =
  Argparse.Parsed
    (Options "minify" EmptyList EmptyList Absent (Present EmptyList)
       (Present false) (Present false) (Present false) (Present EmptyList)).
Proof. vm_compute. reflexivity. Qed.

(** [run --device=--]: the common path, then the [AttributeError] of
    [device.startswith] on a list. *)
Lemma run_device_empty_list :
  run_repro Sample.env_ok ["repro.py"; "run"; "--device=--"] Sample.gm2 Sample.la2
    None "run" (AccBool false) (Some "/tmp/repro") None None [] =
  ( [ EvLoadArgs NopInputReader;
      EvProgress 2;
      EvLoadArgs (InputReader (Val (Some "/tmp/repro")));
      EvExport Sample.gm2 [PTensor Sample.t44; PInt 4];
      EvSetIntermediateHooks ],
    Raise (Exn AttributeError
      [AStr "'list' object has no attribute 'startswith'"]) ).
Proof. vm_compute. reflexivity. Qed.

(** [minify --check-str=--] on an artifact that raises: the oracle
    cannot look for a list in the [repr] and raises [TypeError]. *)
Lemma minify_check_str_empty_list :
  result (run_repro Sample.env_kernel_launch ["repro.py"; "minify"; "--check-str=--"]
            Sample.gm2 Sample.la2 None "run" (AccBool false) (Some "/tmp/repro")
            None None []) =
  Raise (Exn TypeError
    [AStr "'in <string>' requires string as left operand, not list"]).
Proof. vm_compute. reflexivity. Qed.

(** [--max-granularity] reads what [int] reads: digits of any script,
    single underscores between digits, white space around. *)
Lemma int_of_string_examples :
  Argparse.int_of_string " 1_000 " = Some 1000 ∧
  Argparse.int_of_string "-8" = Some (-8) ∧
  Argparse.int_of_string "４２" = Some 42 ∧
  Argparse.int_of_string "٣" = Some 3 ∧
  Argparse.int_of_string "1__0" = None ∧
  Argparse.int_of_string "_1" = None ∧
  Argparse.int_of_string "1 2" = None ∧
  Argparse.int_of_string "0x10" = None ∧
  Argparse.int_of_string "" = None.
Proof. repeat split; vm_compute; reflexivity. Qed.

(** [repr] copies printable characters, ASCII or not, and escapes
    the others: a zero-width space, the bytes 226, 128, 139, is
    written [\u200b]. *)
Lemma repr_examples :
  PyStr.repr "naïve café" = "'naïve café'" ∧
  PyStr.repr ("a" +:+ String (ascii_of_N 226) (String (ascii_of_N 128)
                        (String (ascii_of_N 139) "b"))) = "'a\u200bb'" ∧
  PyStr.repr "C:\tmp" = "'C:\\tmp'".
Proof. repeat split; vm_compute; reflexivity. Qed.

(** ** More on the input encoder *)

(** X21.  Called without [save_dir] (its default), the encoder never
    produces a script: the export is attempted, and then joining the
    path raises [TypeError] (unless the export raised first); nothing
    is saved and no input is encoded. *)
Theorem generate_without_save_dir (env : Env) (gm : GraphModule)
    (args : list pyvalue) (options_ : config_patches_t) (stable_output : bool) :
  generate_compiler_repro_string env gm args options_ stable_output None =
  ([EvExport gm args],
   match export_ env gm args with
   | Ok _ =>
       Raise (Exn TypeError
         [AStr "expected str, bytes or os.PathLike object, not NoneType"])
   | Raise e => Raise e
   end).
Proof.
  unfold generate_compiler_repro_string, call.
  destruct (export_ env gm args); reflexivity.
Qed.

Lemma write_inputs_first_offender (good rest : list (string * pyvalue))
    (p : string) (v : pyvalue) (written : list stmt) :
  forallb (λ q, encodable q.2) good = true →
  encodable v = false →
  write_inputs (good ++ (p, v) :: rest) written =
  ([], Raise (Exn TypeError
     [AStr ("arg is neither SymInt/int nor torch.Tensor, " +:+ str_of_value v)])).
Proof.
  intros Hg Hv. revert written.
  induction good as [| [q w] good IH]; intros written.
  - cbn [app write_inputs]. rewrite (write_arg_rejects p v Hv). reflexivity.
  - cbn in Hg. apply andb_true_iff in Hg as [Hw Hg].
    destruct (write_arg_encodable q w Hw) as (s & Es & _).
    cbn [app write_inputs]. rewrite Es, bind_ok, (IH Hg). reflexivity.
Qed.

(** X22.  An argument the encoder rejects is found only after the
    exported program is on disk: when the first argument of an
    unknown kind follows arguments it knows, the encoder has exported
    and saved the program, and then raises a [TypeError] that names
    that argument; no script text is returned. *)
Theorem encoder_rejects_after_saving (env : Env) (gm : GraphModule)
    (args : list pyvalue) (options_ : config_patches_t) (stable_output : bool)
    (save_dir : string) (ep : ExportedProgram)
    (good rest : list (string * pyvalue)) (p : string) (v : pyvalue) :
  export_ env gm args = Ok ep →
  (∀ path, export_save env ep path = Ok tt) →
  zip_ (fx_placeholder_targets gm) args = good ++ (p, v) :: rest →
  forallb (λ q, encodable q.2) good = true →
  encodable v = false →
  ∃ path,
    os_path_join (Some save_dir) "exported_program.pt2" = ([], Ok path) ∧
    generate_compiler_repro_string env gm args options_ stable_output
      (Some save_dir) =
    ([EvExport gm args; EvSaveExported ep path],
     Raise (Exn TypeError
       [AStr ("arg is neither SymInt/int nor torch.Tensor, " +:+ str_of_value v)])).
Proof.
  intros He Hs Hz Hg Hv.
  destruct (os_path_join_some save_dir "exported_program.pt2") as [path Hp].
  exists path. split; [exact Hp |].
  unfold generate_compiler_repro_string, call.
  rewrite He, bind_ok, Hp, bind_ok, Hs, bind_ok, Hz.
  rewrite (write_inputs_first_offender good rest p v [] Hg Hv). reflexivity.
Qed.

Lemma encoder_rejects_after_saving_float :
  generate_compiler_repro_string Sample.env_ok (GM ["x"; "scale"] 12)
    [PTensor Sample.t44; PFloat "2.5"] None false (Some "/tmp/repro") =
  ([ EvExport (GM ["x"; "scale"] 12) [PTensor Sample.t44; PFloat "2.5"];
     EvSaveExported (EP (GM ["x"; "scale"] 12)) "/tmp/repro/exported_program.pt2" ],
   Raise (Exn TypeError [AStr "arg is neither SymInt/int nor torch.Tensor, 2.5"])).
Proof.
  destruct (encoder_rejects_after_saving Sample.env_ok (GM ["x"; "scale"] 12)
              [PTensor Sample.t44; PFloat "2.5"] None false "/tmp/repro"
              (EP (GM ["x"; "scale"] 12)) [("x", PTensor Sample.t44)] []
              "scale" (PFloat "2.5") eq_refl (λ _, eq_refl) eq_refl eq_refl eq_refl)
    as (path & Hp & H).
  injection Hp as <-. exact H.
Defined.

Lemma zip_take_encodable (l : list string) (k : list pyvalue) :
  forallb encodable (take (length l) k) = true →
  forallb (λ p, encodable p.2) (zip_ l k) = true.
Proof.
  revert k. induction l as [| x l IH]; intros [| y k]; cbn; try reflexivity.
  intros H. apply andb_true_iff in H as [-> H]. apply IH, H.
Qed.

Lemma zip_length {A B} (l : list A) (k : list B) :
  length (zip_ l k) = Nat.min (length l) (length k).
Proof.
  revert k. induction l as [| x l IH]; intros [| y k]; cbn; try reflexivity.
  rewrite IH. reflexivity.
Qed.

(** X23.  The encoder pairs placeholders and arguments up to the
    shorter of the two lists and looks no further: when the
    arguments that have a placeholder are of a kind it knows, it
    succeeds with as many statements as the shorter list has entries,
    whatever the remaining arguments are. *)
Theorem encoder_stops_at_shorter (placeholders : list string) (args : list pyvalue) :
  forallb encodable (take (length placeholders) args) = true →
  ∃ stmts,
    write_inputs (zip_ placeholders args) [] = ([], Ok stmts) ∧
    length stmts = Nat.min (length placeholders) (length args) ∧
    map stmt_name stmts = take (length args) placeholders.
Proof.
  intros H.
  destruct (write_inputs_encodable (zip_ placeholders args) []
              (zip_take_encodable _ _ H)) as (stmts & E & F).
  exists stmts. split; [exact E |]. split.
  - rewrite <- (zip_length placeholders args).
    symmetry. apply (Forall2_length _ _ _ F).
  - rewrite (statements_names _ _ F). apply zip_fst.
Qed.

Lemma encoder_stops_at_shorter_float :
  forallb encodable (take 3 Sample2.args3_and_float) = true ∧
  forallb encodable Sample2.args3_and_float = false ∧
  ∃ stmts,
    write_inputs (zip_ (fx_placeholder_targets Sample.gm3) Sample2.args3_and_float)
      [] = ([], Ok stmts) ∧
    length stmts = 3%nat.
Proof.
  split; [reflexivity |]. split; [reflexivity |].
  destruct (encoder_stops_at_shorter (fx_placeholder_targets Sample.gm3)
              Sample2.args3_and_float eq_refl) as (stmts & E & L & _).
  exists stmts. split; [exact E | exact L].
Defined.

(** ** Saving a repro *)

(** X24.  [save_graph_repro] writes the whole script or nothing: if
    the encoder returns, the file object receives the script, the
    guard line, the import line and the entry point, in that order;
    if the encoder raises, that exception comes out and the file
    object is not written to. *)
Theorem save_graph_repro_all_or_nothing (env : Env) (gm : GraphModule)
    (args : list pyvalue) (compiler_name : string) (options_ : config_patches_t)
    (stable_output : bool) (save_dir : option string) (command : string)
    (accuracy : option accuracy_arg) (check_str : option string) :
  let g := generate_compiler_repro_string env gm args options_ stable_output
             save_dir in
  let r := save_graph_repro env gm args compiler_name options_ stable_output
             save_dir command accuracy check_str in
  match snd g with
  | Ok rs =>
      snd r = Ok tt ∧
      List.filter is_write (fst r) =
        [ FdWrite (Script rs);
          FdWrite (Text ("if __name__ == '__main__':" +:+ newline));
          FdWrite (Text ("    from torch._dynamo.repro.aoti import run_repro" +:+
                         newline));
          FdWrite (Text (entry_point_text (resolve_accuracy accuracy compiler_name)
                           command save_dir check_str)) ]
  | Raise e => snd r = Raise e ∧ List.filter is_write (fst r) = []
  end.
Proof.
  cbn zeta. unfold save_graph_repro.
  assert (∀ t, List.filter is_write (map Encoder t) = []) as F.
  { induction t as [| ev t IH]; [reflexivity | exact IH]. }
  destruct (generate_compiler_repro_string env gm args options_ stable_output
              save_dir) as [t [rs | e]]; cbn [fst snd].
  - split; [reflexivity |]. rewrite List.filter_app, F. reflexivity.
  - split; [reflexivity | apply F].
Qed.

(** X25.  [save_graph_repro] called without [save_dir] (its default)
    always raises and never writes to the file object. *)
Theorem save_graph_repro_without_save_dir (env : Env) (gm : GraphModule)
    (args : list pyvalue) (compiler_name : string) (options_ : config_patches_t)
    (stable_output : bool) (command : string)
    (accuracy : option accuracy_arg) (check_str : option string) :
  save_graph_repro env gm args compiler_name options_ stable_output None command
    accuracy check_str =
  ([Encoder (EvExport gm args)],
   match export_ env gm args with
   | Ok _ =>
       Raise (Exn TypeError
         [AStr "expected str, bytes or os.PathLike object, not NoneType"])
   | Raise e => Raise e
   end).
Proof.
  unfold save_graph_repro.
  assert (generate_compiler_repro_string env gm args options_ stable_output None =
          ([EvExport gm args],
           match export_ env gm args with
           | Ok _ =>
               Raise (Exn TypeError
                 [AStr "expected str, bytes or os.PathLike object, not NoneType"])
           | Raise e => Raise e
           end)) as ->.
  { unfold generate_compiler_repro_string, call.
    destruct (export_ env gm args); reflexivity. }
  destruct (export_ env gm args); reflexivity.
Qed.

(** The entry point written for a dump of the minifier. *)
Lemma entry_point_text_minify :
  entry_point_text (resolve_accuracy None "aot_inductor_accuracy") "minify"
    (Some "/tmp/ck") None =
  "    with torch.no_grad():" +:+ newline +:+
  "        run_repro(mod, load_args, config_patches=options, accuracy=True, " +:+
  "command='minify', save_dir='/tmp/ck', check_str=None)" +:+ newline +:+
  "        # To run it separately, do " +:+ newline +:+
  "        # mod, args = run_repro(mod, load_args, accuracy=True, " +:+
  "command='get_args', save_dir='/tmp/ck', check_str=None)" +:+ newline +:+
  "        # mod(" +:+ "*args)".
Proof. vm_compute. reflexivity. Qed.
